(** * at91bootstrap, driver/spi_flash.c: the SPI flash image loader

    A shallow embedding of the serial-flash loader: the transaction
    primitive [df_send_command], the read path ([dataflash_read_array],
    [spinor_read_array], [read_array]), the image length resolver, the
    recovery engine (AT25 and AT45 page-0 erase), the descriptor
    initialisers, the static part table [spi_nor_ids], the probe and the
    load orchestrator [spi_flash_loadimage].

    C integers are [Z] with their wrap-around written out ([u8], [u16],
    [u32]).  The SPI controller, the board and the payload parsers are
    the fields of a [platform]; the state the C code threads through its
    calls is a [world], passed explicitly by a small state monad. *)

From Stdlib Require Import ZArith List String Bool Lia.
Import ListNotations.
Local Open Scope Z_scope.

(** ** Machine integers *)

Definition u8 (x : Z) : Z := x mod 256.
Definition u16 (x : Z) : Z := x mod 65536.
Definition u32 (x : Z) : Z := x mod 4294967296.

(** ** Constants of the driver *)

(* Manufacturer Device ID Read *)
Definition CMD_READ_DEV_ID : Z := 0x9f.
(* Continuous Array Read *)
Definition CMD_READ_ARRAY_FAST : Z := 0x0b.
Definition CMD_READ_ARRAY : Z := 0x03.

(* JEDEC Code *)
Definition MANUFACTURER_ID_ATMEL : Z := 0x1f.
Definition MANUFACTURER_ID_MICRON : Z := 0x20.
Definition MANUFACTURER_ID_WINBOND : Z := 0xef.

(* Family Code *)
Definition DF_FAMILY_AT26F : Z := 0x00.
Definition DF_FAMILY_AT45 : Z := 0x20.
Definition DF_FAMILY_AT26DF : Z := 0x40.
Definition DF_FAMILY_N25Q : Z := 0xA0.
Definition DF_FAMILY_M25P : Z := 0x20.

(* AT45 Density Code *)
Definition DENSITY_AT45DB011D : Z := 0x0C.
Definition DENSITY_AT45DB021D : Z := 0x14.
Definition DENSITY_AT45DB041D : Z := 0x1C.
Definition DENSITY_AT45DB081D : Z := 0x24.
Definition DENSITY_AT45DB161D : Z := 0x2C.
Definition DENSITY_AT45DB321D : Z := 0x34.
Definition DENSITY_AT45DB642D : Z := 0x3C.
Definition DENSITY_AT45DB1282D : Z := 0x10.
Definition DENSITY_AT45DB2562D : Z := 0x18.
Definition DENSITY_AT45DB5122D : Z := 0x20.

(* Winbond W25 *)
Definition WINBOND_W25Q128JV : Z := 0x40.

(* AT45 Status Register Read and status register bits *)
Definition CMD_READ_STATUS_AT45 : Z := 0xd7.
Definition STATUS_PAGE_SIZE_AT45 : Z := Z.shiftl 1 0.
Definition STATUS_READY_AT45 : Z := Z.shiftl 1 7.

(* AT25 commands and status register bits (CONFIG_DATAFLASH_RECOVERY) *)
Definition CMD_ERASE_BLOCK4K_AT25 : Z := 0x20.
Definition CMD_WRITE_ENABLE_AT25 : Z := 0x06.
Definition CMD_READ_STATUS_AT25 : Z := 0x05.
Definition CMD_WRITE_STATUS_AT25 : Z := 0x01.
Definition CMD_ERASE_PAGE_AT45 : Z := 0x81.
Definition STATUS_READY_AT25 : Z := Z.shiftl 1 0.
Definition STATUS_WEL_AT25 : Z := Z.shiftl 1 1.
Definition STATUS_SWP_AT25 : Z := Z.shiftl 3 2.
Definition STATUS_EPE_AT25 : Z := Z.shiftl 1 5.
Definition STATUS_SPRL_AT25 : Z := Z.shiftl 1 7.

(** ** struct dataflash_descriptor *)

Record dataflash_descriptor : Type := mk_desc {
  family : Z;        (* unsigned char *)
  pages : Z;         (* unsigned int: page number *)
  page_size : Z;     (* unsigned int: page size *)
  page_offset : Z;   (* unsigned int: page offset in command *)
  is_power_2 : Z;    (* unsigned char: = 1 power of 2, = 0 not *)
  is_spinor : Z      (* unsigned char: = 1 nor flash, = 0 dataflash *)
}.

(* memset(df_desc, 0, sizeof( *df_desc)) *)
Definition desc_zero : dataflash_descriptor := mk_desc 0 0 0 0 0 0.

Definition set_family (v : Z) (d : dataflash_descriptor) :=
  mk_desc v (pages d) (page_size d) (page_offset d) (is_power_2 d) (is_spinor d).
Definition set_pages (v : Z) (d : dataflash_descriptor) :=
  mk_desc (family d) v (page_size d) (page_offset d) (is_power_2 d) (is_spinor d).
Definition set_page_size (v : Z) (d : dataflash_descriptor) :=
  mk_desc (family d) (pages d) v (page_offset d) (is_power_2 d) (is_spinor d).
Definition set_page_offset (v : Z) (d : dataflash_descriptor) :=
  mk_desc (family d) (pages d) (page_size d) v (is_power_2 d) (is_spinor d).
Definition set_is_power_2 (v : Z) (d : dataflash_descriptor) :=
  mk_desc (family d) (pages d) (page_size d) (page_offset d) v (is_spinor d).
Definition set_is_spinor (v : Z) (d : dataflash_descriptor) :=
  mk_desc (family d) (pages d) (page_size d) (page_offset d) (is_power_2 d) v.

(** ** struct flash_info and the static part table *)

Definition SPI_NOR_MAX_ID_LEN : Z := 6.
Definition SPI_NOR_MAX_ADDR_WIDTH : Z := 4.
Definition BIT (b : Z) : Z := Z.shiftl 1 b.

Module flash_info.
Record t : Type := mk {
  name : option string;   (* char *, NULL in the terminating entry *)
  id : list Z;            (* unsigned char id[SPI_NOR_MAX_ID_LEN] *)
  id_len : Z;             (* unsigned char *)
  sector_size : Z;        (* unsigned int *)
  n_sectors : Z;          (* unsigned short *)
  page_size : Z;          (* unsigned short *)
  addr_width : Z;         (* unsigned short *)
  flags : Z               (* unsigned long *)
}.
End flash_info.

Definition SECT_4K := BIT 0.
Definition SPI_NOR_NO_ERASE := BIT 1.
Definition SST_WRITE := BIT 2.
Definition SPI_NOR_NO_FR := BIT 3.
Definition SECT_4K_PMC := BIT 4.
Definition SPI_NOR_DUAL_READ := BIT 5.
Definition SPI_NOR_QUAD_READ := BIT 6.
Definition USE_FSR := BIT 7.
Definition SPI_NOR_HAS_LOCK := BIT 8.
Definition SPI_NOR_HAS_TB := BIT 9.
Definition SPI_S3AN := BIT 10.
Definition SPI_NOR_4B_OPCODES := BIT 11.
Definition NO_CHIP_ERASE := BIT 12.
Definition SPI_NOR_SKIP_SFDP := BIT 13.
Definition USE_CLSR := BIT 14.
Definition SPI_NOR_HAS_SST26LOCK := BIT 15.
Definition SPI_NOR_OCTAL_READ := BIT 16.
Definition UNLOCK_GLOBAL_BLOCK := BIT 17.
Definition SECT_4K_ONLY := BIT 18.

(* a | b | ... of flag bits; the empty list is the flags argument 0 *)
Definition fl (bits : list Z) : Z := fold_left Z.lor bits 0.

(* Used when the "_ext_id" is two bytes at most *)
Definition INFO (_name : string)
    (_jedec_id _ext_id _sector_size _n_sectors _flags : Z) : flash_info.t :=
  flash_info.mk
    (Some _name)
    [ Z.land (Z.shiftr _jedec_id 16) 0xff;
      Z.land (Z.shiftr _jedec_id 8) 0xff;
      Z.land _jedec_id 0xff;
      Z.land (Z.shiftr _ext_id 8) 0xff;
      Z.land _ext_id 0xff;
      0 ]
    (if _jedec_id =? 0 then 0 else 3 + (if _ext_id =? 0 then 0 else 2))
    (u32 _sector_size)
    (u16 _n_sectors)
    256
    0
    _flags.

Definition INFO6 (_name : string)
    (_jedec_id _ext_id _sector_size _n_sectors _flags : Z) : flash_info.t :=
  flash_info.mk
    (Some _name)
    [ Z.land (Z.shiftr _jedec_id 16) 0xff;
      Z.land (Z.shiftr _jedec_id 8) 0xff;
      Z.land _jedec_id 0xff;
      Z.land (Z.shiftr _ext_id 16) 0xff;
      Z.land (Z.shiftr _ext_id 8) 0xff;
      Z.land _ext_id 0xff ]
    6
    (u32 _sector_size)
    (u16 _n_sectors)
    256
    0
    _flags.

(* the terminating entry, all fields zero *)
Definition info_end : flash_info.t :=
  flash_info.mk None [0; 0; 0; 0; 0; 0] 0 0 0 0 0 0.

Local Open Scope string_scope.

(* #ifdef CONFIG_SPI_FLASH_ATMEL *)
Definition atmel_ids : list flash_info.t := [
  INFO "at26df321" 0x1f4700 0 (64 * 1024) 64 (fl [SECT_4K]);
  INFO "at25df321a" 0x1f4701 0 (64 * 1024) 64 (fl [SECT_4K]);
  INFO "at45db011d" 0x1f2200 0 (64 * 1024) 4 (fl [SECT_4K]);
  INFO "at45db021d" 0x1f2300 0 (64 * 1024) 8 (fl [SECT_4K]);
  INFO "at45db041d" 0x1f2400 0 (64 * 1024) 8 (fl [SECT_4K]);
  INFO "at45db081d" 0x1f2500 0 (64 * 1024) 16 (fl [SECT_4K]);
  INFO "at45db161d" 0x1f2600 0 (64 * 1024) 32 (fl [SECT_4K]);
  INFO "at45db321d" 0x1f2700 0 (64 * 1024) 64 (fl [SECT_4K]);
  INFO "at45db641d" 0x1f2800 0 (64 * 1024) 128 (fl [SECT_4K]);
  INFO "at25sl321" 0x1f4216 0 (64 * 1024) 64 (fl [SECT_4K]);
  INFO "at26df081a" 0x1f4501 0 (64 * 1024) 16 (fl [SECT_4K])
].

(* #ifdef CONFIG_SPI_FLASH_EON *)
Definition eon_ids : list flash_info.t := [
  INFO "en25q32b" 0x1c3016 0 (64 * 1024) 64 (fl []);
  INFO "en25q64" 0x1c3017 0 (64 * 1024) 128 (fl [SECT_4K]);
  INFO "en25qh128" 0x1c7018 0 (64 * 1024) 256 (fl []);
  INFO "en25s64" 0x1c3817 0 (64 * 1024) 128 (fl [SECT_4K])
].

(* #ifdef CONFIG_SPI_FLASH_GIGADEVICE *)
Definition gigadevice_ids : list flash_info.t := [
  INFO "gd25q16" 0xc84015 0 (64 * 1024) 32 (fl [SECT_4K; SPI_NOR_DUAL_READ; SPI_NOR_QUAD_READ; SPI_NOR_HAS_LOCK; SPI_NOR_HAS_TB]);
  INFO "gd25q32" 0xc84016 0 (64 * 1024) 64 (fl [SECT_4K; SPI_NOR_DUAL_READ; SPI_NOR_QUAD_READ; SPI_NOR_HAS_LOCK; SPI_NOR_HAS_TB]);
  INFO "gd25lq32" 0xc86016 0 (64 * 1024) 64 (fl [SECT_4K; SPI_NOR_DUAL_READ; SPI_NOR_QUAD_READ; SPI_NOR_HAS_LOCK; SPI_NOR_HAS_TB]);
  INFO "gd25q64" 0xc84017 0 (64 * 1024) 128 (fl [SECT_4K; SPI_NOR_DUAL_READ; SPI_NOR_QUAD_READ; SPI_NOR_HAS_LOCK; SPI_NOR_HAS_TB]);
  INFO "gd25lq64c" 0xc86017 0 (64 * 1024) 128 (fl [SECT_4K; SPI_NOR_DUAL_READ; SPI_NOR_QUAD_READ; SPI_NOR_HAS_LOCK; SPI_NOR_HAS_TB]);
  INFO "gd25q128" 0xc84018 0 (64 * 1024) 256 (fl [SECT_4K; SPI_NOR_DUAL_READ; SPI_NOR_QUAD_READ; SPI_NOR_HAS_LOCK; SPI_NOR_HAS_TB]);
  INFO "gd25lq128" 0xc86018 0 (64 * 1024) 256 (fl [SECT_4K; SPI_NOR_DUAL_READ; SPI_NOR_HAS_LOCK; SPI_NOR_HAS_TB])
].

(* #ifdef CONFIG_SPI_FLASH_ISSI *)
Definition issi_ids : list flash_info.t := [
  INFO "is25lq040b" 0x9d4013 0 (64 * 1024) 8 (fl [SECT_4K; SPI_NOR_DUAL_READ; SPI_NOR_QUAD_READ]);
  INFO "is25lp032" 0x9d6016 0 (64 * 1024) 64 (fl []);
  INFO "is25lp064" 0x9d6017 0 (64 * 1024) 128 (fl []);
  INFO "is25lp128" 0x9d6018 0 (64 * 1024) 256 (fl [SECT_4K; SPI_NOR_DUAL_READ]);
  INFO "is25lp256" 0x9d6019 0 (64 * 1024) 512 (fl [SECT_4K; SPI_NOR_DUAL_READ]);
  INFO "is25wp032" 0x9d7016 0 (64 * 1024) 64 (fl [SECT_4K; SPI_NOR_DUAL_READ; SPI_NOR_QUAD_READ]);
  INFO "is25wp064" 0x9d7017 0 (64 * 1024) 128 (fl [SECT_4K; SPI_NOR_DUAL_READ; SPI_NOR_QUAD_READ]);
  INFO "is25wp128" 0x9d7018 0 (64 * 1024) 256 (fl [SECT_4K; SPI_NOR_DUAL_READ; SPI_NOR_QUAD_READ]);
  INFO "is25wp256" 0x9d7019 0 (64 * 1024) 512 (fl [SECT_4K; SPI_NOR_DUAL_READ; SPI_NOR_QUAD_READ; SPI_NOR_4B_OPCODES])
].

(* #ifdef CONFIG_SPI_FLASH_MACRONIX *)
Definition macronix_ids : list flash_info.t := [
  INFO "mx25l2005a" 0xc22012 0 (64 * 1024) 4 (fl [SECT_4K]);
  INFO "mx25l4005a" 0xc22013 0 (64 * 1024) 8 (fl [SECT_4K]);
  INFO "mx25l8005" 0xc22014 0 (64 * 1024) 16 (fl []);
  INFO "mx25l1606e" 0xc22015 0 (64 * 1024) 32 (fl [SECT_4K]);
  INFO "mx25l3205d" 0xc22016 0 (64 * 1024) 64 (fl [SECT_4K]);
  INFO "mx25l6405d" 0xc22017 0 (64 * 1024) 128 (fl [SECT_4K]);
  INFO "mx25u2033e" 0xc22532 0 (64 * 1024) 4 (fl [SECT_4K]);
  INFO "mx25u1635e" 0xc22535 0 (64 * 1024) 32 (fl [SECT_4K]);
  INFO "mx25u3235f" 0xc22536 0 (4 * 1024) 1024 (fl [SECT_4K]);
  INFO "mx25u6435f" 0xc22537 0 (64 * 1024) 128 (fl [SECT_4K]);
  INFO "mx25l12805d" 0xc22018 0 (64 * 1024) 256 (fl [SECT_4K]);
  INFO "mx25u12835f" 0xc22538 0 (64 * 1024) 256 (fl [SECT_4K]);
  INFO "mx25l12855e" 0xc22618 0 (64 * 1024) 256 (fl []);
  INFO "mx25l25635e" 0xc22019 0 (64 * 1024) 512 (fl [SPI_NOR_DUAL_READ; SPI_NOR_QUAD_READ]);
  INFO "mx25u25635f" 0xc22539 0 (64 * 1024) 512 (fl [SECT_4K; SPI_NOR_4B_OPCODES]);
  INFO "mx25l25655e" 0xc22619 0 (64 * 1024) 512 (fl []);
  INFO "mx66l51235l" 0xc2201a 0 (64 * 1024) 1024 (fl [SPI_NOR_DUAL_READ; SPI_NOR_QUAD_READ; SPI_NOR_4B_OPCODES]);
  INFO "mx66u51235f" 0xc2253a 0 (64 * 1024) 1024 (fl [SECT_4K; SPI_NOR_DUAL_READ; SPI_NOR_QUAD_READ; SPI_NOR_4B_OPCODES]);
  INFO "mx66u2g45g" 0xc2253c 0 (64 * 1024) 4096 (fl [SECT_4K; SPI_NOR_DUAL_READ; SPI_NOR_QUAD_READ; SPI_NOR_4B_OPCODES]);
  INFO "mx66l1g45g" 0xc2201b 0 (64 * 1024) 2048 (fl [SECT_4K; SPI_NOR_DUAL_READ; SPI_NOR_QUAD_READ]);
  INFO "mx25l1633e" 0xc22415 0 (64 * 1024) 32 (fl [SPI_NOR_QUAD_READ; SPI_NOR_4B_OPCODES; SECT_4K]);
  INFO "mx25r6435f" 0xc22817 0 (64 * 1024) 128 (fl [SECT_4K])
].

(* #ifdef CONFIG_SPI_FLASH_STMICRO *)
Definition micron_ids : list flash_info.t := [
  INFO "n25q016a" 0x20bb15 0 (64 * 1024) 32 (fl [SECT_4K; SPI_NOR_QUAD_READ]);
  INFO "n25q032" 0x20ba16 0 (64 * 1024) 64 (fl [SPI_NOR_QUAD_READ]);
  INFO "n25q032a" 0x20bb16 0 (64 * 1024) 64 (fl [SPI_NOR_QUAD_READ]);
  INFO "n25q064" 0x20ba17 0 (64 * 1024) 128 (fl [SECT_4K; SPI_NOR_QUAD_READ]);
  INFO "n25q064a" 0x20bb17 0 (64 * 1024) 128 (fl [SECT_4K; SPI_NOR_QUAD_READ]);
  INFO "n25q128a11" 0x20bb18 0 (64 * 1024) 256 (fl [SECT_4K; SPI_NOR_QUAD_READ]);
  INFO "n25q128a13" 0x20ba18 0 (64 * 1024) 256 (fl [SECT_4K; SPI_NOR_QUAD_READ]);
  INFO6 "mt25ql256a" 0x20ba19 0x104400 (64 * 1024) 512 (fl [SECT_4K; SPI_NOR_DUAL_READ; SPI_NOR_QUAD_READ; SPI_NOR_4B_OPCODES; USE_FSR]);
  INFO "n25q256a" 0x20ba19 0 (64 * 1024) 512 (fl [SECT_4K; SPI_NOR_DUAL_READ; SPI_NOR_QUAD_READ; USE_FSR]);
  INFO6 "mt25qu256a" 0x20bb19 0x104400 (64 * 1024) 512 (fl [SECT_4K; SPI_NOR_QUAD_READ; SPI_NOR_4B_OPCODES; USE_FSR]);
  INFO "n25q256ax1" 0x20bb19 0 (64 * 1024) 512 (fl [SECT_4K; SPI_NOR_QUAD_READ; USE_FSR]);
  INFO6 "mt25qu512a" 0x20bb20 0x104400 (64 * 1024) 1024 (fl [SPI_NOR_DUAL_READ; SPI_NOR_QUAD_READ; SPI_NOR_4B_OPCODES; USE_FSR]);
  INFO "n25q512a" 0x20bb20 0 (64 * 1024) 1024 (fl [SECT_4K; USE_FSR; SPI_NOR_QUAD_READ]);
  INFO6 "mt25ql512a" 0x20ba20 0x104400 (64 * 1024) 1024 (fl [SECT_4K; USE_FSR; SPI_NOR_QUAD_READ; SPI_NOR_4B_OPCODES]);
  INFO "n25q512ax3" 0x20ba20 0 (64 * 1024) 1024 (fl [SECT_4K; USE_FSR; SPI_NOR_QUAD_READ]);
  INFO "n25q00" 0x20ba21 0 (64 * 1024) 2048 (fl [SECT_4K; USE_FSR; SPI_NOR_QUAD_READ; NO_CHIP_ERASE]);
  INFO "n25q00a" 0x20bb21 0 (64 * 1024) 2048 (fl [SECT_4K; USE_FSR; SPI_NOR_QUAD_READ; NO_CHIP_ERASE]);
  INFO "mt25ql01g" 0x21ba20 0 (64 * 1024) 2048 (fl [SECT_4K; USE_FSR; SPI_NOR_QUAD_READ; NO_CHIP_ERASE]);
  INFO "mt25qu02g" 0x20bb22 0 (64 * 1024) 4096 (fl [SECT_4K; USE_FSR; SPI_NOR_QUAD_READ; NO_CHIP_ERASE]);
  INFO "mt35xu512aba" 0x2c5b1a 0 (128 * 1024) 512 (fl [USE_FSR; SPI_NOR_OCTAL_READ; SPI_NOR_4B_OPCODES]);
  INFO "mt35xu02g" 0x2c5b1c 0 (128 * 1024) 2048 (fl [USE_FSR; SPI_NOR_OCTAL_READ; SPI_NOR_4B_OPCODES])
].

(* #ifdef CONFIG_SPI_FLASH_SPANSION *)
Definition spansion_ids : list flash_info.t := [
  INFO "s25sl032p" 0x010215 0x4d00 (64 * 1024) 64 (fl [SPI_NOR_DUAL_READ; SPI_NOR_QUAD_READ]);
  INFO "s25sl064p" 0x010216 0x4d00 (64 * 1024) 128 (fl [SPI_NOR_DUAL_READ; SPI_NOR_QUAD_READ]);
  INFO "s25fl256s0" 0x010219 0x4d00 (256 * 1024) 128 (fl [SPI_NOR_DUAL_READ; SPI_NOR_QUAD_READ; USE_CLSR]);
  INFO "s25fl256s1" 0x010219 0x4d01 (64 * 1024) 512 (fl [SPI_NOR_DUAL_READ; SPI_NOR_QUAD_READ; USE_CLSR]);
  INFO6 "s25fl512s" 0x010220 0x4d0080 (256 * 1024) 256 (fl [SPI_NOR_DUAL_READ; SPI_NOR_QUAD_READ; USE_CLSR]);
  INFO6 "s25fs512s" 0x010220 0x4d0081 (256 * 1024) 256 (fl [SPI_NOR_DUAL_READ; SPI_NOR_QUAD_READ; USE_CLSR]);
  INFO "s25fl512s_256k" 0x010220 0x4d00 (256 * 1024) 256 (fl [SPI_NOR_DUAL_READ; SPI_NOR_QUAD_READ; USE_CLSR]);
  INFO "s25fl512s_64k" 0x010220 0x4d01 (64 * 1024) 1024 (fl [SPI_NOR_DUAL_READ; SPI_NOR_QUAD_READ; USE_CLSR]);
  INFO "s25fl512s_512k" 0x010220 0x4f00 (256 * 1024) 256 (fl [SPI_NOR_DUAL_READ; SPI_NOR_QUAD_READ; USE_CLSR]);
  INFO "s25sl12800" 0x012018 0x0300 (256 * 1024) 64 (fl []);
  INFO "s25sl12801" 0x012018 0x0301 (64 * 1024) 256 (fl []);
  INFO6 "s25fl128s" 0x012018 0x4d0180 (64 * 1024) 256 (fl [SPI_NOR_DUAL_READ; SPI_NOR_QUAD_READ; USE_CLSR]);
  INFO "s25fl129p0" 0x012018 0x4d00 (256 * 1024) 64 (fl [SPI_NOR_DUAL_READ; SPI_NOR_QUAD_READ; USE_CLSR]);
  INFO "s25fl129p1" 0x012018 0x4d01 (64 * 1024) 256 (fl [SPI_NOR_DUAL_READ; SPI_NOR_QUAD_READ; USE_CLSR]);
  INFO "s25sl008a" 0x010213 0 (64 * 1024) 16 (fl []);
  INFO "s25sl016a" 0x010214 0 (64 * 1024) 32 (fl []);
  INFO "s25sl032a" 0x010215 0 (64 * 1024) 64 (fl []);
  INFO "s25sl064a" 0x010216 0 (64 * 1024) 128 (fl []);
  INFO "s25fl116k" 0x014015 0 (64 * 1024) 32 (fl [SECT_4K; SPI_NOR_DUAL_READ; SPI_NOR_QUAD_READ]);
  INFO "s25fl164k" 0x014017 0 (64 * 1024) 128 (fl [SECT_4K]);
  INFO "s25fl208k" 0x014014 0 (64 * 1024) 16 (fl [SECT_4K; SPI_NOR_DUAL_READ]);
  INFO "s25fl064l" 0x016017 0 (64 * 1024) 128 (fl [SECT_4K; SPI_NOR_DUAL_READ; SPI_NOR_QUAD_READ; SPI_NOR_4B_OPCODES]);
  INFO "s25fl128l" 0x016018 0 (64 * 1024) 256 (fl [SECT_4K; SPI_NOR_DUAL_READ; SPI_NOR_QUAD_READ; SPI_NOR_4B_OPCODES])
].

(* #ifdef CONFIG_SPI_FLASH_SST *)
Definition sst_ids : list flash_info.t := [
  INFO "sst25vf040b" 0xbf258d 0 (64 * 1024) 8 (fl [SECT_4K; SST_WRITE]);
  INFO "sst25vf080b" 0xbf258e 0 (64 * 1024) 16 (fl [SECT_4K; SST_WRITE]);
  INFO "sst25vf016b" 0xbf2541 0 (64 * 1024) 32 (fl [SECT_4K; SST_WRITE]);
  INFO "sst25vf032b" 0xbf254a 0 (64 * 1024) 64 (fl [SECT_4K; SST_WRITE]);
  INFO "sst25vf064c" 0xbf254b 0 (64 * 1024) 128 (fl [SECT_4K]);
  INFO "sst25wf512" 0xbf2501 0 (64 * 1024) 1 (fl [SECT_4K; SST_WRITE]);
  INFO "sst25wf010" 0xbf2502 0 (64 * 1024) 2 (fl [SECT_4K; SST_WRITE]);
  INFO "sst25wf020" 0xbf2503 0 (64 * 1024) 4 (fl [SECT_4K; SST_WRITE]);
  INFO "sst25wf020a" 0x621612 0 (64 * 1024) 4 (fl [SECT_4K]);
  INFO "sst25wf040b" 0x621613 0 (64 * 1024) 8 (fl [SECT_4K]);
  INFO "sst25wf040" 0xbf2504 0 (64 * 1024) 8 (fl [SECT_4K; SST_WRITE]);
  INFO "sst25wf080" 0xbf2505 0 (64 * 1024) 16 (fl [SECT_4K; SST_WRITE]);
  INFO "sst26vf064b" 0xbf2643 0 (64 * 1024) 128 (fl [SECT_4K_ONLY; UNLOCK_GLOBAL_BLOCK; SPI_NOR_HAS_SST26LOCK; SPI_NOR_DUAL_READ; SPI_NOR_QUAD_READ]);
  INFO "sst26wf016" 0xbf2651 0 (64 * 1024) 32 (fl [SECT_4K; SPI_NOR_HAS_SST26LOCK]);
  INFO "sst26wf032" 0xbf2622 0 (64 * 1024) 64 (fl [SECT_4K; SPI_NOR_HAS_SST26LOCK]);
  INFO "sst26wf064" 0xbf2643 0 (64 * 1024) 128 (fl [SECT_4K; SPI_NOR_HAS_SST26LOCK])
].

(* #ifdef CONFIG_SPI_FLASH_STMICRO *)
Definition stmicro_ids : list flash_info.t := [
  INFO "m25p10" 0x202011 0 (32 * 1024) 4 (fl []);
  INFO "m25p20" 0x202012 0 (64 * 1024) 4 (fl []);
  INFO "m25p40" 0x202013 0 (64 * 1024) 8 (fl []);
  INFO "m25p80" 0x202014 0 (64 * 1024) 16 (fl []);
  INFO "m25p16" 0x202015 0 (64 * 1024) 32 (fl []);
  INFO "m25p32" 0x202016 0 (64 * 1024) 64 (fl []);
  INFO "m25p64" 0x202017 0 (64 * 1024) 128 (fl []);
  INFO "m25p128" 0x202018 0 (256 * 1024) 64 (fl []);
  INFO "m25pe16" 0x208015 0 (64 * 1024) 32 (fl [SECT_4K]);
  INFO "m25px16" 0x207115 0 (64 * 1024) 32 (fl [SECT_4K; SPI_NOR_DUAL_READ; SPI_NOR_QUAD_READ]);
  INFO "m25px64" 0x207117 0 (64 * 1024) 128 (fl [])
].

(* #ifdef CONFIG_SPI_FLASH_WINBOND *)
Definition winbond_ids : list flash_info.t := [
  INFO "w25p80" 0xef2014 0x0 (64 * 1024) 16 (fl []);
  INFO "w25p16" 0xef2015 0x0 (64 * 1024) 32 (fl []);
  INFO "w25p32" 0xef2016 0x0 (64 * 1024) 64 (fl []);
  INFO "w25x05" 0xef3010 0 (64 * 1024) 1 (fl [SECT_4K]);
  INFO "w25x40" 0xef3013 0 (64 * 1024) 8 (fl [SECT_4K]);
  INFO "w25x16" 0xef3015 0 (64 * 1024) 32 (fl [SECT_4K]);
  INFO "w25q16dw" 0xef6015 0 (64 * 1024) 32 (fl [SECT_4K; SPI_NOR_DUAL_READ; SPI_NOR_QUAD_READ; SPI_NOR_HAS_LOCK; SPI_NOR_HAS_TB]);
  INFO "w25x32" 0xef3016 0 (64 * 1024) 64 (fl [SECT_4K]);
  INFO "w25q20cl" 0xef4012 0 (64 * 1024) 4 (fl [SECT_4K]);
  INFO "w25q20bw" 0xef5012 0 (64 * 1024) 4 (fl [SECT_4K]);
  INFO "w25q20ew" 0xef6012 0 (64 * 1024) 4 (fl [SECT_4K]);
  INFO "w25q32" 0xef4016 0 (64 * 1024) 64 (fl [SECT_4K; SPI_NOR_DUAL_READ; SPI_NOR_QUAD_READ]);
  INFO "w25q32dw" 0xef6016 0 (64 * 1024) 64 (fl [SECT_4K; SPI_NOR_DUAL_READ; SPI_NOR_QUAD_READ; SPI_NOR_HAS_LOCK; SPI_NOR_HAS_TB]);
  INFO "w25q32jv" 0xef7016 0 (64 * 1024) 64 (fl [SECT_4K; SPI_NOR_DUAL_READ; SPI_NOR_QUAD_READ; SPI_NOR_HAS_LOCK; SPI_NOR_HAS_TB]);
  INFO "w25q32jwm" 0xef8016 0 (64 * 1024) 64 (fl [SECT_4K; SPI_NOR_DUAL_READ; SPI_NOR_QUAD_READ; SPI_NOR_HAS_LOCK; SPI_NOR_HAS_TB]);
  INFO "w25x64" 0xef3017 0 (64 * 1024) 128 (fl [SECT_4K]);
  INFO "w25q64dw" 0xef6017 0 (64 * 1024) 128 (fl [SECT_4K; SPI_NOR_DUAL_READ; SPI_NOR_QUAD_READ; SPI_NOR_HAS_LOCK; SPI_NOR_HAS_TB]);
  INFO "w25q64jv" 0xef7017 0 (64 * 1024) 128 (fl [SECT_4K; SPI_NOR_DUAL_READ; SPI_NOR_QUAD_READ; SPI_NOR_HAS_LOCK; SPI_NOR_HAS_TB]);
  INFO "w25q128fw" 0xef6018 0 (64 * 1024) 256 (fl [SECT_4K; SPI_NOR_DUAL_READ; SPI_NOR_QUAD_READ; SPI_NOR_HAS_LOCK; SPI_NOR_HAS_TB]);
  INFO "w25q128jv" 0xef7018 0 (64 * 1024) 256 (fl [SECT_4K; SPI_NOR_DUAL_READ; SPI_NOR_QUAD_READ; SPI_NOR_HAS_LOCK; SPI_NOR_HAS_TB]);
  INFO "w25q256fw" 0xef6019 0 (64 * 1024) 512 (fl [SECT_4K; SPI_NOR_DUAL_READ; SPI_NOR_QUAD_READ; SPI_NOR_HAS_LOCK; SPI_NOR_HAS_TB]);
  INFO "w25q256jw" 0xef7019 0 (64 * 1024) 512 (fl [SECT_4K; SPI_NOR_DUAL_READ; SPI_NOR_QUAD_READ; SPI_NOR_HAS_LOCK; SPI_NOR_HAS_TB]);
  INFO "w25q80" 0xef5014 0 (64 * 1024) 16 (fl [SECT_4K]);
  INFO "w25q80bl" 0xef4014 0 (64 * 1024) 16 (fl [SECT_4K; SPI_NOR_DUAL_READ; SPI_NOR_QUAD_READ]);
  INFO "w25q16cl" 0xef4015 0 (64 * 1024) 32 (fl [SECT_4K; SPI_NOR_DUAL_READ; SPI_NOR_QUAD_READ]);
  INFO "w25q64cv" 0xef4017 0 (64 * 1024) 128 (fl [SECT_4K; SPI_NOR_DUAL_READ; SPI_NOR_QUAD_READ]);
  INFO "w25q128" 0xef4018 0 (64 * 1024) 256 (fl [SECT_4K; SPI_NOR_DUAL_READ; SPI_NOR_QUAD_READ; SPI_NOR_HAS_LOCK; SPI_NOR_HAS_TB]);
  INFO "w25q256" 0xef4019 0 (64 * 1024) 512 (fl [SECT_4K; SPI_NOR_DUAL_READ; SPI_NOR_QUAD_READ]);
  INFO "w25m512jw" 0xef6119 0 (64 * 1024) 1024 (fl [SECT_4K; SPI_NOR_DUAL_READ; SPI_NOR_QUAD_READ]);
  INFO "w25m512jv" 0xef7119 0 (64 * 1024) 1024 (fl [SECT_4K; SPI_NOR_DUAL_READ; SPI_NOR_QUAD_READ])
].

(* #ifdef CONFIG_SPI_FLASH_XMC *)
Definition xmc_ids : list flash_info.t := [
  INFO "XM25QH64A" 0x207017 0 (64 * 1024) 128 (fl [SECT_4K; SPI_NOR_DUAL_READ; SPI_NOR_QUAD_READ]);
  INFO "XM25QH128A" 0x207018 0 (64 * 1024) 256 (fl [SECT_4K; SPI_NOR_DUAL_READ; SPI_NOR_QUAD_READ])
].


Local Close Scope string_scope.

(** ** Build configuration *)

(** The arguments of the CONFIG_SPI_FLASH_CUSTOM entry. *)
Record custom_flash : Type := {
  CONFIG_SPI_FLASH_CUSTOM_NAME : string;
  CONFIG_SPI_FLASH_CUSTOM_ID : Z;
  CONFIG_SPI_FLASH_CUSTOM_EXT_ID : Z;
  CONFIG_SPI_FLASH_CUSTOM_SECTOR_SIZE : Z;
  CONFIG_SPI_FLASH_CUSTOM_N_SECTORS : Z;
  CONFIG_SPI_FLASH_CUSTOM_FLAGS : Z
}.

Record config : Type := {
  CONFIG_DATAFLASH_RECOVERY : bool;
  CONFIG_LOAD_LINUX : bool;            (* or CONFIG_LOAD_ANDROID *)
  CONFIG_OF_LIBFDT : bool;
  CONFIG_SPI_FLASH_ATMEL : bool;
  CONFIG_SPI_FLASH_EON : bool;
  CONFIG_SPI_FLASH_GIGADEVICE : bool;
  CONFIG_SPI_FLASH_ISSI : bool;
  CONFIG_SPI_FLASH_MACRONIX : bool;
  CONFIG_SPI_FLASH_STMICRO : bool;
  CONFIG_SPI_FLASH_SPANSION : bool;
  CONFIG_SPI_FLASH_SST : bool;
  CONFIG_SPI_FLASH_WINBOND : bool;
  CONFIG_SPI_FLASH_XMC : bool;
  CONFIG_SPI_FLASH_CUSTOM : option custom_flash
}.

Definition ifdef {A} (c : bool) (l : list A) : list A := if c then l else [].

Definition custom_ids (c : option custom_flash) : list flash_info.t :=
  match c with
  | Some f =>
    [ INFO (CONFIG_SPI_FLASH_CUSTOM_NAME f) (CONFIG_SPI_FLASH_CUSTOM_ID f)
        (CONFIG_SPI_FLASH_CUSTOM_EXT_ID f) (CONFIG_SPI_FLASH_CUSTOM_SECTOR_SIZE f)
        (CONFIG_SPI_FLASH_CUSTOM_N_SECTORS f) (CONFIG_SPI_FLASH_CUSTOM_FLAGS f) ]
  | None => []
  end.

Definition spi_nor_ids (cfg : config) : list flash_info.t :=
  ifdef (CONFIG_SPI_FLASH_ATMEL cfg) atmel_ids
  ++ ifdef (CONFIG_SPI_FLASH_EON cfg) eon_ids
  ++ ifdef (CONFIG_SPI_FLASH_GIGADEVICE cfg) gigadevice_ids
  ++ ifdef (CONFIG_SPI_FLASH_ISSI cfg) issi_ids
  ++ ifdef (CONFIG_SPI_FLASH_MACRONIX cfg) macronix_ids
  ++ ifdef (CONFIG_SPI_FLASH_STMICRO cfg) micron_ids
  ++ ifdef (CONFIG_SPI_FLASH_SPANSION cfg) spansion_ids
  ++ ifdef (CONFIG_SPI_FLASH_SST cfg) sst_ids
  ++ ifdef (CONFIG_SPI_FLASH_STMICRO cfg) stmicro_ids
  ++ ifdef (CONFIG_SPI_FLASH_WINBOND cfg) winbond_ids
  ++ ifdef (CONFIG_SPI_FLASH_XMC cfg) xmc_ids
  ++ custom_ids (CONFIG_SPI_FLASH_CUSTOM cfg)
  ++ [info_end].

(** ** struct image_info (common.h), the fields the loader uses *)

Module image_info.
Record t : Type := mk {
  offset : Z;      (* unsigned int *)
  dest : Z;        (* unsigned char * *)
  length : Z;      (* unsigned int *)
  of_offset : Z;
  of_dest : Z;
  of_length : Z
}.
Definition set_length (v : Z) (i : t) : t :=
  mk (offset i) (dest i) v (of_offset i) (of_dest i) (of_length i).
Definition set_of_length (v : Z) (i : t) : t :=
  mk (offset i) (dest i) (length i) (of_offset i) (of_dest i) v.
End image_info.

(** ** The platform: what the driver consumes and this file does not define

    The SPI controller primitives (spi.h), the recovery pin (gpio.h), the
    payload parsers (kernel_size, fdt.h) and the values the C language
    leaves to the target: the address of a table entry converted to
    unsigned int, the result of a shift by 32 or more, and the contents
    of stack bytes that are read without having been written. *)

Record platform : Type := {
  Dev : Type;
  at91_spi0_hw_init : Dev -> Dev;
  at91_spi_init : Dev -> Z * Dev;
  at91_spi_enable : Dev -> Dev;
  at91_spi_disable : Dev -> Dev;
  at91_spi_cs_activate : Dev -> Dev;
  at91_spi_cs_deactivate : Dev -> Dev;
  at91_spi_read_sr : Dev -> Dev;
  at91_spi_write_data : Z -> Dev -> Dev;
  at91_spi_read_spi : Dev -> Z * Dev;
  (* pio_get_value(CONFIG_SYS_RECOVERY_BUTTON_PIN) *)
  pio_get_value : Dev -> Z;
  kernel_size : list Z -> Z;
  check_dt_blob_valid : list Z -> Z;
  of_get_dt_total_size : list Z -> Z;
  (* (unsigned int)&spi_nor_ids[i] *)
  flash_info_addr : nat -> Z;
  (* x << s for s >= 32, which C leaves undefined *)
  shl_out_of_range : Z -> Z -> Z;
  (* cmd[4] of spinor_read_array, never written before it is sent *)
  uninit_cmd4 : Z;
  (* the byte that follows dev_id[5] in memory, read by a 6-byte memcmp *)
  dev_id_tail : Z
}.

(** ** The world: device state and what the run leaves behind *)

Inductive wire_event : Type :=
| CsActivate
| Tx (b : Z)
| CsDeactivate.

(** A data buffer argument: the NULL pointer, a buffer local to the
    caller, or a destination address in RAM. *)
Inductive buffer : Type :=
| NULL
| Local
| Ram (addr : Z).

Definition ptr (addr : Z) : buffer := if addr =? 0 then NULL else Ram addr.

Section Driver.

Context {P : platform}.

Record world : Type := mk_world {
  dev : Dev P;
  wire : list wire_event;       (* everything written to the bus, in order *)
  ram : list (Z * list Z)       (* every data phase stored to RAM *)
}.

(** *** State monad *)

Definition M (A : Type) : Type := world -> A * world.

Definition pure {A} (a : A) : M A := fun w => (a, w).
Definition bind {A B} (c : M A) (k : A -> M B) : M B :=
  fun w => let (a, w') := c w in k a w'.

Notation "x <- c ;; k" := (bind c (fun x => k))
  (at level 61, c at next level, right associativity).
Notation "' p <- c ;; k" := (bind c (fun x => let 'p := x in k))
  (at level 61, p pattern, c at next level, right associativity).
Notation "c ;;; k" := (bind c (fun _ => k))
  (at level 61, right associativity).

Definition on_dev (f : Dev P -> Dev P) : M unit :=
  fun w => (tt, mk_world (f (dev w)) (wire w) (ram w)).
Definition emit (e : wire_event) : M unit :=
  fun w => (tt, mk_world (dev w) (wire w ++ [e]) (ram w)).
Definition store (b : buffer) (data : list Z) : M unit :=
  fun w => match b with
           | Ram a => (tt, mk_world (dev w) (wire w) (ram w ++ [(a, data)]))
           | _ => (tt, w)
           end.

(** *** df_send_command *)

(* at91_spi_write_data(b); at91_spi_read_spi(); *)
Definition spi_exchange (b : Z) : M Z :=
  fun w =>
    let d1 := at91_spi_write_data P b (dev w) in
    let (v, d2) := at91_spi_read_spi P d1 in
    (v, mk_world d2 (wire w ++ [Tx b]) (ram w)).

(* for (i = 0; i < cmd_len; i++) { at91_spi_write_data( *cmd++); at91_spi_read_spi(); } *)
Fixpoint shift_out (cmd : list Z) : M unit :=
  match cmd with
  | [] => pure tt
  | b :: rest => _ <- spi_exchange b ;; shift_out rest
  end.

(* for (i = 0; i < data_len; i++) { at91_spi_write_data(0); *data++ = at91_spi_read_spi(); } *)
Fixpoint shift_in (n : nat) : M (list Z) :=
  match n with
  | O => pure []
  | S n' => v <- spi_exchange 0 ;; rest <- shift_in n' ;; pure (u8 v :: rest)
  end.

Definition df_send_command (cmd : option (list Z)) (cmd_len : Z)
    (data : buffer) (data_len : Z) : M (Z * list Z) :=
  match cmd with
  | None => pure (-1, [])
  | Some bytes =>
    if cmd_len =? 0 then pure (-1, [])
    else if negb (data_len =? 0) && (match data with NULL => true | _ => false end)
    then pure (-1, [])
    else
      on_dev (at91_spi_cs_activate P) ;;;
      emit CsActivate ;;;
      (* read spi status to clear events *)
      on_dev (at91_spi_read_sr P) ;;;
      shift_out (firstn (Z.to_nat cmd_len) bytes) ;;;
      got <- shift_in (Z.to_nat data_len) ;;
      store data got ;;;
      on_dev (at91_spi_cs_deactivate P) ;;;
      emit CsDeactivate ;;;
      pure (0, got)
  end.


(** An early exit: run [c]; a non-zero result is returned at once
    ([if (ret) return ret;]), zero continues with [k]. *)
Definition or_return (c : M Z) (k : M Z) : M Z :=
  r <- c ;; if r =? 0 then k else pure r.

Notation "'TRY' c ;; k" := (or_return c k)
  (at level 61, c at next level, right associativity).

(** *** The read path *)

(** Modelled from the spec: [division] of div.h, which is not part of the
    sources at hand: "integer division with remainder",
    [page_index = logical_offset div page_size] and
    [byte_in_page = logical_offset mod page_size]. *)
Definition division (num den : Z) : Z * Z := (num / den, num mod den).

(* x << s on unsigned int *)
Definition shl32 (x s : Z) : Z :=
  if s <? 32 then u32 (Z.shiftl x s) else shl_out_of_range P x s.

(* dataflash_read_array, the computation of [address] *)
Definition dataflash_address (df_desc : dataflash_descriptor) (offset : Z) : Z :=
  if is_power_2 df_desc =? 0 then
    let page_shift := page_offset df_desc in
    let page_size := page_size df_desc in
    let '(page_addr, byte_addr) := division offset page_size in
    u32 (shl32 page_addr page_shift + byte_addr)
  else offset.

(* dataflash_read_array, the contents of cmd[5] *)
Definition dataflash_read_cmd (df_desc : dataflash_descriptor) (offset : Z) : list Z :=
  let address := dataflash_address df_desc offset in
  if pages df_desc >? 16384 then
    [CMD_READ_ARRAY_FAST;
     u8 (Z.shiftr address 24); u8 (Z.shiftr address 16);
     u8 (Z.shiftr address 8); u8 address]
  else
    [CMD_READ_ARRAY_FAST;
     u8 (Z.shiftr address 16); u8 (Z.shiftr address 8); u8 address;
     0x00].

(** The read functions return the C result together with the bytes the
    data phase put into [buf]. *)
Definition dataflash_read_array (df_desc : dataflash_descriptor)
    (offset len : Z) (buf : buffer) : M (Z * list Z) :=
  let cmd := dataflash_read_cmd df_desc offset in
  let cmd_len := 5 in
  '(r, got) <- df_send_command (Some cmd) cmd_len buf len ;;
  if r =? 0 then pure (0, got) else pure (-1, got).

(* spinor_read_array, the contents of cmd[5]: cmd[4] is not assigned *)
Definition spinor_read_cmd (offset : Z) : list Z :=
  let address := offset in
  [CMD_READ_ARRAY_FAST;
   u8 (Z.shiftr address 16); u8 (Z.shiftr address 8); u8 address;
   uninit_cmd4 P].

Definition spinor_read_array (df_desc : dataflash_descriptor)
    (offset len : Z) (buf : buffer) : M (Z * list Z) :=
  let cmd := spinor_read_cmd offset in
  let cmd_len := 5 in (* 5th command is for dummy cycle *)
  '(r, got) <- df_send_command (Some cmd) cmd_len buf len ;;
  if r =? 0 then pure (0, got) else pure (-1, got).

Definition read_array (df_desc : dataflash_descriptor)
    (offset len : Z) (buf : buffer) : M (Z * list Z) :=
  if is_spinor df_desc =? 0 then dataflash_read_array df_desc offset len buf
  else spinor_read_array df_desc offset len buf.

(** The command the read path puts on the bus, and the address in it. *)
Definition read_cmd (df_desc : dataflash_descriptor) (offset : Z) : list Z :=
  if is_spinor df_desc =? 0 then dataflash_read_cmd df_desc offset
  else spinor_read_cmd offset.

Definition read_address (df_desc : dataflash_descriptor) (offset : Z) : Z :=
  if is_spinor df_desc =? 0 then dataflash_address df_desc offset
  else offset.

(** *** Image length resolver (CONFIG_LOAD_LINUX || CONFIG_LOAD_ANDROID) *)

Inductive image_kind : Type := KERNEL_IMAGE | DT_BLOB.

(** The parsers inspect the memory at [dest]; the model hands them the
    page that the read has just stored there. *)
Definition update_image_length (CONFIG_OF_LIBFDT : bool)
    (df_desc : dataflash_descriptor) (offset : Z) (dest : buffer)
    (flag : image_kind) : M Z :=
  let length := page_size df_desc in
  '(r, page) <- read_array df_desc offset length dest ;;
  if negb (r =? 0) then pure (-1)
  else
    match flag with
    | KERNEL_IMAGE => pure (kernel_size P page)
    | DT_BLOB =>
      if CONFIG_OF_LIBFDT then
        let r := check_dt_blob_valid P page in
        if r =? 0 then pure (of_get_dt_total_size P page) else pure (-1)
      else pure (-1)
    end.

(** *** Status readers *)

(** Both return [(ret, status)]: the result, an unsigned char, and the
    byte stored through the [status] pointer. *)
Definition df_read_status_at45 : M (Z * Z) :=
  let cmd := CMD_READ_STATUS_AT45 in
  '(r, got) <- df_send_command (Some [cmd]) 1 Local 1 ;;
  if negb (r =? 0) then pure (u8 r, hd 0 got) else pure (0, hd 0 got).

Definition df_read_status_at25 : M (Z * Z) :=
  let cmd := CMD_READ_STATUS_AT25 in
  '(r, got) <- df_send_command (Some [cmd]) 1 Local 1 ;;
  if negb (r =? 0) then pure (u8 r, hd 0 got) else pure (0, hd 0 got).

(** *** Recovery engine (CONFIG_DATAFLASH_RECOVERY) *)

Definition at25_cmd_write_enbale : M Z :=
  let cmd := CMD_WRITE_ENABLE_AT25 in
  '(r, _) <- df_send_command (Some [cmd]) 1 NULL 0 ;;
  if negb (r =? 0) then pure r else pure 0.

Definition at25_cmd_write_status_register (status : Z) : M Z :=
  let cmd := [CMD_WRITE_STATUS_AT25; status] in
  '(r, _) <- df_send_command (Some cmd) 2 NULL 0 ;;
  if negb (r =? 0) then pure r else pure 0.

Definition at25_unprotect : M Z :=
  (* read status register *)
  '(r, status) <- df_read_status_at25 ;;
  if negb (r =? 0) then pure r
  (* all sectors are software unprotected *)
  else if Z.land status STATUS_SWP_AT25 =? 0 then pure 0
  else
    TRY (if negb (Z.land status STATUS_SPRL_AT25 =? 0) then
           (* Unprotect Sector Protection Registers *)
           TRY at25_cmd_write_enbale ;;
           at25_cmd_write_status_register 0
         else pure 0) ;;
    (* a global unprotect command *)
    TRY at25_cmd_write_enbale ;;
    TRY at25_cmd_write_status_register 0 ;;
    (* check Status Register SPRL & SWP bits *)
    '(r, status) <- df_read_status_at25 ;;
    if negb (r =? 0) then pure r
    else if negb (Z.land status (Z.lor STATUS_SPRL_AT25 STATUS_SWP_AT25) =? 0)
    then pure (-1)
    else pure 0.

(** How a polling loop is left: by [return ret] from inside the body, or
    by falling out of the loop with the current [timeout] and the last
    [status] read. *)
Inductive poll_exit : Type :=
| PollReturn (r : Z)
| PollLeft (timeout : Z) (status : Z).

(** [do { ... } while (--timeout)] of dataflash_page0_erase_at25.  The
    argument is the value [--timeout] takes after this pass of the body,
    so that [timeout] is [remaining + 1] while the body runs. *)
Fixpoint at25_poll_loop (remaining : nat) : M poll_exit :=
  '(r, status) <- df_read_status_at25 ;;
  if negb (r =? 0) then pure (PollReturn r)
  else if Z.land status STATUS_READY_AT25 =? 0
  then pure (PollLeft (Z.of_nat (S remaining)) status) (* break *)
  else match remaining with
       | O => pure (PollLeft 0 status)
       | S remaining' => at25_poll_loop remaining'
       end.

(** The tail of dataflash_page0_erase_at25, from [udelay(33000)] on:
    [timeout] starts at 1000. *)
Definition at25_erase_poll : M Z :=
  let timeout := 1000%nat in
  e <- at25_poll_loop (Nat.pred timeout) ;;
  match e with
  | PollReturn r => pure r
  | PollLeft timeout _ => if timeout =? 0 then pure (-1) else pure 0
  end.

Definition dataflash_page0_erase_at25 : M Z :=
  TRY at25_unprotect ;;
  TRY at25_cmd_write_enbale ;;
  (* Erase page0 *)
  let cmd := [CMD_ERASE_BLOCK4K_AT25; 0; 0; 0] in
  '(r, _) <- df_send_command (Some cmd) 4 NULL 0 ;;
  if negb (r =? 0) then pure r
  else at25_erase_poll.

(** [do { ... } while (--timeout)] of dataflash_page0_erase_at45. *)
Fixpoint at45_poll_loop (remaining : nat) : M poll_exit :=
  '(r, status) <- df_read_status_at45 ;;
  if negb (r =? 0) then pure (PollReturn r)
  else if negb (Z.land status STATUS_READY_AT45 =? 0)
  then pure (PollLeft (Z.of_nat (S remaining)) status) (* break *)
  else match remaining with
       | O => pure (PollLeft 0 status)
       | S remaining' => at45_poll_loop remaining'
       end.

(** The tail of dataflash_page0_erase_at45, from [udelay(33000)] on: the
    test after the loop is on [status], not on [timeout]. *)
Definition at45_erase_poll : M Z :=
  let timeout := 1000%nat in
  e <- at45_poll_loop (Nat.pred timeout) ;;
  match e with
  | PollReturn r => pure r
  | PollLeft _ status =>
    if Z.land status STATUS_READY_AT45 =? 0 then pure (-1) else pure 0
  end.

Definition dataflash_page0_erase_at45 : M Z :=
  let cmd := [CMD_ERASE_PAGE_AT45; 0; 0; 0] in
  '(r, _) <- df_send_command (Some cmd) 4 NULL 0 ;;
  if negb (r =? 0) then pure r
  else at45_erase_poll.

Definition read_recovery_pin : M Z := fun w => (pio_get_value P (dev w), w).

Definition dataflash_recovery (df_desc : dataflash_descriptor) : M Z :=
  pin <- read_recovery_pin ;;
  if pin =? 0 then
    r <- (if (family df_desc =? DF_FAMILY_AT26F)
             || (family df_desc =? DF_FAMILY_AT26DF)
          then dataflash_page0_erase_at25
          else dataflash_page0_erase_at45) ;;
    if negb (r =? 0) then pure r
    else pure 0
  else pure (-1).

(** *** Descriptor initialisers of the family dispatch *)

Definition w_25q128_desc_init (df_desc : dataflash_descriptor)
  : Z * dataflash_descriptor :=
  (0, set_is_spinor 1 (set_page_offset 0 (set_page_size 256 (set_pages 346 df_desc)))).

Definition df_n25q_desc_init (df_desc : dataflash_descriptor)
  : Z * dataflash_descriptor :=
  (0, set_is_spinor 1 (set_page_offset 0 (set_page_size 256 (set_pages 16384 df_desc)))).

(* the assignments of one case of the density switch *)
Definition at45_geometry (n size shift : Z) (d : dataflash_descriptor) :=
  set_page_offset shift (set_page_size size (set_pages n d)).

Definition df_at45_desc_init (df_desc : dataflash_descriptor)
  : M (Z * dataflash_descriptor) :=
  '(r, status) <- df_read_status_at45 ;;
  if negb (r =? 0) then pure (r, df_desc)
  else
    let df_desc :=
      if negb (Z.land status STATUS_PAGE_SIZE_AT45 =? 0)
      then set_is_power_2 1 df_desc
      else set_is_power_2 0 df_desc in
    let density := u8 (Z.land status 0x3c) in
    if density =? DENSITY_AT45DB011D then pure (0, at45_geometry 512 264 9 df_desc)
    else if density =? DENSITY_AT45DB021D then pure (0, at45_geometry 1024 264 9 df_desc)
    else if density =? DENSITY_AT45DB041D then pure (0, at45_geometry 2048 264 9 df_desc)
    else if density =? DENSITY_AT45DB081D then pure (0, at45_geometry 4096 264 9 df_desc)
    else if density =? DENSITY_AT45DB161D then pure (0, at45_geometry 4096 528 10 df_desc)
    else if density =? DENSITY_AT45DB321D then pure (0, at45_geometry 8192 528 10 df_desc)
    else if density =? DENSITY_AT45DB642D then pure (0, at45_geometry 8192 1056 11 df_desc)
    (* the cases of AT45DB1282D, AT45DB2562D and AT45DB5122D are commented out *)
    else pure (-1, df_desc).

Definition df_at25_desc_init (df_desc : dataflash_descriptor)
  : Z * dataflash_descriptor :=
  (* AT25DF321 *)
  (0, set_page_offset 0 (set_page_size 256 (set_pages 16384 (set_is_power_2 1 df_desc)))).

(** The parameter [family] of the C function is [family_code] here: the
    name is taken by the field. *)
Definition df_desc_init (df_desc : dataflash_descriptor)
    (vendor family_code : Z) : M (Z * dataflash_descriptor) :=
  let df_desc := set_family family_code df_desc in
  if vendor =? MANUFACTURER_ID_ATMEL then
    if (family df_desc =? DF_FAMILY_AT26F) || (family df_desc =? DF_FAMILY_AT26DF)
    then
      let '(r, df_desc) := df_at25_desc_init df_desc in
      if negb (r =? 0) then pure (r, df_desc) else pure (0, df_desc)
    else if family df_desc =? DF_FAMILY_AT45 then
      '(r, df_desc) <- df_at45_desc_init df_desc ;;
      if negb (r =? 0) then pure (r, df_desc) else pure (0, df_desc)
    else pure (-1, df_desc)
  else if vendor =? MANUFACTURER_ID_MICRON then
    if family df_desc =? DF_FAMILY_M25P then
      let '(r, df_desc) := df_n25q_desc_init df_desc in
      if negb (r =? 0) then pure (r, df_desc) else pure (0, df_desc)
    else if family df_desc =? DF_FAMILY_N25Q then
      let '(r, df_desc) := df_n25q_desc_init df_desc in
      if negb (r =? 0) then pure (r, df_desc) else pure (0, df_desc)
    else pure (-1, df_desc)
  else if vendor =? MANUFACTURER_ID_WINBOND then
    if family df_desc =? WINBOND_W25Q128JV then
      let '(r, df_desc) := w_25q128_desc_init df_desc in
      if negb (r =? 0) then pure (r, df_desc) else pure (0, df_desc)
    else pure (-1, df_desc)
  else
    (* default: Unsupported Manufactorer ID *)
    pure (-1, df_desc).

(** *** Probe *)

(* !memcmp(a, b, n): the first n bytes are equal *)
Fixpoint memcmp_eq (a b : list Z) (n : nat) : bool :=
  match n with
  | O => true
  | S n' =>
    match a, b with
    | x :: a', y :: b' => (x =? y) && memcmp_eq a' b' n'
    | _, _ => false
    end
  end.

(** [info->id_len && !memcmp(info->id, dev_id, info->id_len)].  The
    buffer [dev_id] holds the five bytes read, followed in memory by
    [dev_id_tail]. *)
Definition id_matches (info : flash_info.t) (dev_id : list Z) : bool :=
  negb (flash_info.id_len info =? 0)
  && memcmp_eq (flash_info.id info) (dev_id ++ [dev_id_tail P])
               (Z.to_nat (flash_info.id_len info)).

(** [for (; info->name; info++)] over the table, [idx] being the index
    of [info]. *)
Fixpoint probe_table (tbl : list flash_info.t) (idx : nat) (dev_id : list Z)
    (df_desc : dataflash_descriptor) : Z * dataflash_descriptor :=
  match tbl with
  | [] => (1, df_desc)
  | info :: rest =>
    match flash_info.name info with
    | None => (1, df_desc)
    | Some _ =>
      if id_matches info dev_id then
        (0, set_page_offset (u32 (flash_info_addr P idx))
              (set_page_size (flash_info.page_size info)
                 (set_pages (flash_info.n_sectors info) df_desc)))
      else probe_table rest (S idx) dev_id df_desc
    end
  end.

(** The call of [df_desc_init] that used to follow the table loop is
    commented out in the source: an ID that the table does not hold ends
    in [return 1]. *)
Definition dataflash_probe_atmel (cfg : config)
    (df_desc : dataflash_descriptor) : M (Z * dataflash_descriptor) :=
  let cmd := CMD_READ_DEV_ID in
  (* Read device ID *)
  '(r, dev_id) <- df_send_command (Some [cmd]) 1 Local 5 ;;
  if negb (r =? 0) then pure (r, df_desc)
  else pure (probe_table (spi_nor_ids cfg) 0 dev_id df_desc).

(** *** Load orchestrator *)

(* err_exit: at91_spi_disable(); return ret; *)
Definition err_exit (r : Z) (image : image_info.t) : M (Z * image_info.t) :=
  on_dev (at91_spi_disable P) ;;;
  pure (r, image).

(** The device-tree part of spi_flash_loadimage (CONFIG_OF_LIBFDT);
    [r] is the value [ret] holds when the block is reached. *)
Definition load_dt_blob (cfg : config) (df_desc : dataflash_descriptor)
    (r : Z) (image : image_info.t) : M (Z * image_info.t) :=
  if CONFIG_OF_LIBFDT cfg then
    length <- update_image_length (CONFIG_OF_LIBFDT cfg) df_desc
                (image_info.of_offset image) (ptr (image_info.of_dest image))
                DT_BLOB ;;
    if length =? -1 then pure (-1, image)
    else
      let image := image_info.set_of_length (u32 length) image in
      '(r, _) <- read_array df_desc (image_info.of_offset image)
                   (image_info.of_length image) (ptr (image_info.of_dest image)) ;;
      if negb (r =? 0) then err_exit (-1) image
      else err_exit r image
  else err_exit r image.

(** spi_flash_loadimage after the recovery block: the kernel payload,
    then the device-tree payload. *)
Definition load_payloads (cfg : config) (df_desc : dataflash_descriptor)
    (image : image_info.t) : M (Z * image_info.t) :=
  let kernel_copy (image : image_info.t) : M (Z * image_info.t) :=
    '(r, _) <- read_array df_desc (image_info.offset image)
                 (image_info.length image) (ptr (image_info.dest image)) ;;
    if negb (r =? 0) then err_exit (-1) image
    else load_dt_blob cfg df_desc r image in
  if CONFIG_LOAD_LINUX cfg then
    length <- update_image_length (CONFIG_OF_LIBFDT cfg) df_desc
                (image_info.offset image) (ptr (image_info.dest image))
                KERNEL_IMAGE ;;
    if length =? -1 then pure (-1, image)
    else kernel_copy (image_info.set_length (u32 length) image)
  else kernel_copy image.

(** spi_flash_loadimage after a successful probe: the recovery block
    (CONFIG_DATAFLASH_RECOVERY), then the payloads. *)
Definition load_after_probe (cfg : config) (df_desc : dataflash_descriptor)
    (image : image_info.t) : M (Z * image_info.t) :=
  if CONFIG_DATAFLASH_RECOVERY cfg then
    r <- dataflash_recovery df_desc ;;
    if r =? 0 then err_exit (-2) image
    else load_payloads cfg df_desc image
  else load_payloads cfg df_desc image.

Definition spi_flash_loadimage (cfg : config) (image : image_info.t)
  : M (Z * image_info.t) :=
  let df_desc := desc_zero in
  on_dev (at91_spi0_hw_init P) ;;;
  r <- (fun w => let (r, d) := at91_spi_init P (dev w) in
                 (r, mk_world d (wire w) (ram w))) ;;
  if negb (r =? 0) then pure (-1, image)
  else
    on_dev (at91_spi_enable P) ;;;
    '(r, df_desc) <- dataflash_probe_atmel cfg df_desc ;;
    if negb (r =? 0) then err_exit (-1) image
    else load_after_probe cfg df_desc image.

(** *** Observations used in the statements *)

(** The status byte that the [i]-th of a run of consecutive status reads
    returns ([i] counted from 0), for a status reader [rd]. *)
Fixpoint nth_status (rd : M (Z * Z)) (i : nat) (w : world) : Z :=
  match i with
  | O => snd (fst (rd w))
  | S i' => nth_status rd i' (snd (rd w))
  end.

(** The bus events of one transaction with command [cmd] and a data
    phase of [n] bytes: the data phase clocks out zeros. *)
Definition transaction_events (cmd : list Z) (n : nat) : list wire_event :=
  CsActivate :: map Tx cmd ++ repeat (Tx 0) n ++ [CsDeactivate].

(** A computation that stores nothing to RAM. *)
Definition keeps_ram {A} (c : M A) : Prop :=
  forall w : world, ram (snd (c w)) = ram w.

(** A data buffer that passes the checks of [df_send_command]. *)
Definition buffer_ok (data : buffer) (data_len : Z) : Prop :=
  data_len = 0 \/ data <> NULL.

End Driver.

Arguments world : clear implicits.
Arguments M : clear implicits.

(** ** A simulated board

    A flash part that answers the ID read with [sim_id], reports
    [sim_status_busy] on the first [sim_busy] status reads and
    [sim_status_ready] afterwards, and returns 0xff for array data.  It
    instantiates [platform] for the concrete runs below. *)

Record sim_state : Type := mk_sim {
  sim_id : list Z;
  sim_busy : nat;
  sim_status_busy : Z;
  sim_status_ready : Z;
  sim_pin : Z;            (* level of the recovery pin *)
  sim_rx : list Z         (* bytes received since chip select went active *)
}.

Definition sim_cs (s : sim_state) : sim_state :=
  mk_sim (sim_id s) (sim_busy s) (sim_status_busy s) (sim_status_ready s)
         (sim_pin s) [].

Definition sim_write (b : Z) (s : sim_state) : sim_state :=
  mk_sim (sim_id s) (sim_busy s) (sim_status_busy s) (sim_status_ready s)
         (sim_pin s) (sim_rx s ++ [b]).

Definition sim_read (s : sim_state) : Z * sim_state :=
  match sim_rx s with
  | [] => (0, s)
  | _ :: [] => (0, s)
  | c :: args =>
    if c =? CMD_READ_DEV_ID then (nth (Nat.pred (List.length args)) (sim_id s) 0, s)
    else if (c =? CMD_READ_STATUS_AT25) || (c =? CMD_READ_STATUS_AT45) then
      match sim_busy s with
      | O => (sim_status_ready s, s)
      | S n => (sim_status_busy s,
                mk_sim (sim_id s) n (sim_status_busy s) (sim_status_ready s)
                       (sim_pin s) (sim_rx s))
      end
    else if c =? CMD_READ_ARRAY_FAST then (0xff, s)
    else (0, s)
  end.

(** The parsers of the simulated board give fixed answers. *)
Definition sim (ksize dt_valid dt_size : Z) : platform := {|
  Dev := sim_state;
  at91_spi0_hw_init := fun s => s;
  at91_spi_init := fun s => (0, s);
  at91_spi_enable := fun s => s;
  at91_spi_disable := fun s => s;
  at91_spi_cs_activate := sim_cs;
  at91_spi_cs_deactivate := sim_cs;
  at91_spi_read_sr := fun s => s;
  at91_spi_write_data := sim_write;
  at91_spi_read_spi := sim_read;
  pio_get_value := sim_pin;
  kernel_size := fun _ => ksize;
  check_dt_blob_valid := fun _ => dt_valid;
  of_get_dt_total_size := fun _ => dt_size;
  flash_info_addr := fun i => 0x00300000 + 28 * Z.of_nat i;
  shl_out_of_range := fun _ _ => 0;
  uninit_cmd4 := 0;
  dev_id_tail := 0
|}.

(** The world at power-on: nothing on the bus yet, nothing stored. *)
Definition sim_world (k v s : Z) (st : sim_state) : world (sim k v s) :=
  mk_world (P := sim k v s) st [] [].

(** A build with the Winbond part of the table, Linux loading, the
    recovery engine, and no device tree. *)
Definition cfg_winbond : config := {|
  CONFIG_DATAFLASH_RECOVERY := true;
  CONFIG_LOAD_LINUX := true;
  CONFIG_OF_LIBFDT := false;
  CONFIG_SPI_FLASH_ATMEL := false;
  CONFIG_SPI_FLASH_EON := false;
  CONFIG_SPI_FLASH_GIGADEVICE := false;
  CONFIG_SPI_FLASH_ISSI := false;
  CONFIG_SPI_FLASH_MACRONIX := false;
  CONFIG_SPI_FLASH_STMICRO := false;
  CONFIG_SPI_FLASH_SPANSION := false;
  CONFIG_SPI_FLASH_SST := false;
  CONFIG_SPI_FLASH_WINBOND := true;
  CONFIG_SPI_FLASH_XMC := false;
  CONFIG_SPI_FLASH_CUSTOM := None
|}.

(** The same build with the device tree enabled. *)
Definition cfg_winbond_dt : config := {|
  CONFIG_DATAFLASH_RECOVERY := true;
  CONFIG_LOAD_LINUX := true;
  CONFIG_OF_LIBFDT := true;
  CONFIG_SPI_FLASH_ATMEL := false;
  CONFIG_SPI_FLASH_EON := false;
  CONFIG_SPI_FLASH_GIGADEVICE := false;
  CONFIG_SPI_FLASH_ISSI := false;
  CONFIG_SPI_FLASH_MACRONIX := false;
  CONFIG_SPI_FLASH_STMICRO := false;
  CONFIG_SPI_FLASH_SPANSION := false;
  CONFIG_SPI_FLASH_SST := false;
  CONFIG_SPI_FLASH_WINBOND := true;
  CONFIG_SPI_FLASH_XMC := false;
  CONFIG_SPI_FLASH_CUSTOM := None
|}.

(** A W25Q128JV: JEDEC ID ef 70 18, status 0x01 while busy. *)
Definition w25q128jv (busy : nat) (pin : Z) : sim_state :=
  mk_sim [0xef; 0x70; 0x18; 0x00; 0x00] busy 0x01 0x00 pin [].

(** An AT45DB021D in its 264-byte page mode: status 0x94 when ready. *)
Definition at45db021d (busy : nat) (pin : Z) : sim_state :=
  mk_sim [0x1f; 0x23; 0x00; 0x00; 0x00] busy 0x14 0x94 pin [].

(** An AT45DB1282D, whose density code the decoder does not list. *)
Definition at45db1282d (busy : nat) (pin : Z) : sim_state :=
  mk_sim [0x1f; 0x29; 0x00; 0x00; 0x00] busy 0x10 0x90 pin [].

(** An AT26DF321: Atmel, family code 0x40. *)
Definition at26df321 (busy : nat) (pin : Z) : sim_state :=
  mk_sim [0x1f; 0x47; 0x00; 0x00; 0x00] busy 0x01 0x00 pin [].

(** The sizes of the data phases stored to RAM, with their addresses. *)
Definition stored_sizes (l : list (Z * list Z)) : list (Z * nat) :=
  map (fun e => (fst e, List.length (snd e))) l.

Definition kernel_request : image_info.t :=
  image_info.mk 0x8000 0x22000000 0 0x6000 0x21000000 0.

(** ** Further observations *)

(** The value of a byte string read most significant byte first. *)
Definition be_value (bytes : list Z) : Z :=
  fold_left (fun acc b => acc * 256 + b) bytes 0.

(** The bus events of [k] consecutive status reads with opcode [cmd]. *)
Definition status_reads (cmd : Z) (k : nat) : list wire_event :=
  List.concat (repeat (transaction_events [cmd] 1) k).

(** What a table entry must satisfy for the facts about the built-in
    part table: a name, three, five or six ID bytes, 256-byte pages and
    between 1 and 4096 sectors. *)
Definition builtin_entry (info : flash_info.t) : bool :=
  match flash_info.name info with Some _ => true | None => false end
  && ((flash_info.id_len info =? 3) || (flash_info.id_len info =? 5)
      || (flash_info.id_len info =? 6))
  && (List.length (flash_info.id info) =? 6)%nat
  && (flash_info.page_size info =? 256)
  && (1 <=? flash_info.n_sectors info) && (flash_info.n_sectors info <=? 4096).

(** * Properties *)

Section DriverFacts.

Context {P : platform}.

(** ** The transaction primitive *)

Ltac monad_unfold :=
  unfold or_return, bind, pure, on_dev, emit, store in *; simpl in *.

Lemma spi_exchange_wire (b : Z) (w : world P) :
  wire (snd (spi_exchange b w)) = wire w ++ [Tx b]
  /\ ram (snd (spi_exchange b w)) = ram w.
Proof.
  unfold spi_exchange.
  destruct (at91_spi_read_spi P (at91_spi_write_data P b (dev w))); simpl; auto.
Qed.

Lemma shift_out_wire (cmd : list Z) : forall w : world P,
  wire (snd (shift_out cmd w)) = wire w ++ map Tx cmd
  /\ ram (snd (shift_out cmd w)) = ram w.
Proof.
  induction cmd as [|b rest IH]; intros w; simpl.
  - unfold pure; simpl. now rewrite app_nil_r.
  - unfold bind.
    destruct (spi_exchange_wire b w) as [Hw Hr].
    destruct (spi_exchange b w) as [v w1]; simpl in *.
    destruct (IH w1) as [Hw' Hr'].
    rewrite Hw', Hr', Hw, Hr, <- app_assoc. auto.
Qed.

Lemma shift_in_wire (n : nat) : forall w : world P,
  wire (snd (shift_in n w)) = wire w ++ repeat (Tx 0) n
  /\ ram (snd (shift_in n w)) = ram w
  /\ List.length (fst (shift_in n w)) = n.
Proof.
  induction n as [|n IH]; intros w; simpl.
  - unfold pure; simpl. now rewrite app_nil_r.
  - unfold bind, pure.
    destruct (spi_exchange_wire 0 w) as [Hw Hr].
    destruct (spi_exchange 0 w) as [v w1]; simpl in *.
    destruct (IH w1) as (Hw' & Hr' & Hl).
    destruct (shift_in n w1) as [got w2]; simpl in *.
    rewrite Hw', Hr', Hw, Hr, <- app_assoc. simpl. auto.
Qed.

(** A well-formed call of [df_send_command] returns 0, puts exactly one
    transaction on the bus and stores the data phase where [data]
    points. *)
Lemma df_send_command_ok (bytes : list Z) (cmd_len : Z) (data : buffer)
    (data_len : Z) (w : world P) :
  cmd_len <> 0 -> buffer_ok data data_len ->
  let res := df_send_command (Some bytes) cmd_len data data_len w in
  fst (fst res) = 0
  /\ wire (snd res) = wire w ++
       transaction_events (firstn (Z.to_nat cmd_len) bytes) (Z.to_nat data_len)
  /\ ram (snd res) = ram w ++
       match data with Ram a => [(a, snd (fst res))] | _ => [] end
  /\ List.length (snd (fst res)) = Z.to_nat data_len.
Proof.
  intros Hc Hb. unfold df_send_command.
  apply Z.eqb_neq in Hc. rewrite Hc.
  assert (Hg : negb (data_len =? 0)
               && match data with NULL => true | _ => false end = false).
  { destruct Hb as [-> | Hn]; [reflexivity|].
    destruct data; try congruence; now rewrite andb_false_r. }
  rewrite Hg. cbv zeta. monad_unfold.
  set (w1 := mk_world _ _ _).
  destruct (shift_out_wire (firstn (Z.to_nat cmd_len) bytes) w1) as [Hw1 Hr1].
  destruct (shift_out _ w1) as [[] w2]; simpl in *.
  destruct (shift_in_wire (Z.to_nat data_len) w2) as (Hw2 & Hr2 & Hl).
  destruct (shift_in _ w2) as [got w3]; simpl in *.
  unfold transaction_events. subst w1; simpl in *.
  destruct data; simpl; rewrite ?Hw2, ?Hr2, ?Hw1, ?Hr1, <- ?app_assoc;
    simpl; rewrite ?app_nil_r; auto.
Qed.

(** ** Address translation *)

Lemma lor_shiftl_add (q s r : Z) :
  0 <= s -> 0 <= r < 2 ^ s ->
  Z.lor (Z.shiftl q s) r = Z.shiftl q s + r.
Proof.
  intros Hs Hr.
  assert (Hland : Z.land (Z.shiftl q s) r = 0).
  { apply Z.bits_inj'. intros n Hn. rewrite Z.land_spec, Z.bits_0.
    destruct (Z.lt_ge_cases n s) as [Hlt | Hge].
    - rewrite Z.shiftl_spec_low by assumption. reflexivity.
    - destruct (Z.eq_dec r 0) as [-> | Hr0].
      + rewrite Z.bits_0. apply andb_false_r.
      + rewrite (Z.bits_above_log2 r n); [apply andb_false_r | lia |].
        apply Z.lt_le_trans with s; [|assumption].
        apply Z.log2_lt_pow2; lia. }
  rewrite <- Z.lxor_lor by assumption.
  symmetry. apply Z.add_nocarry_lxor. assumption.
Qed.

(** The address of the paged branch, for a geometry whose page fits
    the shift and whose composite addresses fit 32 bits. *)
Lemma dataflash_address_paged (d : dataflash_descriptor) (o : Z) :
  is_power_2 d = 0 ->
  page_offset d < 32 ->
  0 < page_size d <= 2 ^ page_offset d ->
  pages d * 2 ^ page_offset d <= 2 ^ 32 ->
  0 <= o < pages d * page_size d ->
  dataflash_address (P := P) d o
  = Z.lor (Z.shiftl (o / page_size d) (page_offset d)) (o mod page_size d).
Proof.
  intros Hp2 Hs32 Hps Hfit Ho.
  assert (Hs : 0 <= page_offset d).
  { destruct (Z.lt_ge_cases (page_offset d) 0) as [Hneg | ]; [|assumption].
    rewrite Z.pow_neg_r in Hps by assumption. lia. }
  unfold dataflash_address, division, shl32. rewrite Hp2. simpl.
  apply Z.ltb_lt in Hs32. rewrite Hs32.
  pose proof (Z.mod_pos_bound o (page_size d) ltac:(lia)) as Hr.
  assert (Hq : 0 <= o / page_size d < pages d).
  { split; [apply Z.div_pos; lia|]. apply Z.div_lt_upper_bound; lia. }
  rewrite lor_shiftl_add by lia.
  rewrite Z.shiftl_mul_pow2 by assumption.
  assert (H2 : 0 < 2 ^ page_offset d) by (apply Z.pow_pos_nonneg; lia).
  assert (Hb : 0 <= o / page_size d * 2 ^ page_offset d + o mod page_size d
               < 4294967296) by nia.
  unfold u32.
  rewrite (Z.mod_small (o / page_size d * 2 ^ page_offset d)) by nia.
  apply Z.mod_small. exact Hb.
Qed.

(** ** Status readers *)

Lemma df_read_status_at45_ok (w : world P) :
  fst (fst (df_read_status_at45 w)) = 0
  /\ ram (snd (df_read_status_at45 w)) = ram w.
Proof.
  unfold df_read_status_at45, bind, pure.
  pose proof (df_send_command_ok [CMD_READ_STATUS_AT45] 1 Local 1 w
                ltac:(discriminate) ltac:(right; discriminate)) as H.
  cbv zeta in H.
  destruct (df_send_command _ 1 Local 1 w) as [[r got] w1]; simpl in *.
  destruct H as (-> & _ & Hr & _). simpl. rewrite Hr, app_nil_r. auto.
Qed.

Lemma df_read_status_at25_ok (w : world P) :
  fst (fst (df_read_status_at25 w)) = 0
  /\ ram (snd (df_read_status_at25 w)) = ram w.
Proof.
  unfold df_read_status_at25, bind, pure.
  pose proof (df_send_command_ok [CMD_READ_STATUS_AT25] 1 Local 1 w
                ltac:(discriminate) ltac:(right; discriminate)) as H.
  cbv zeta in H.
  destruct (df_send_command _ 1 Local 1 w) as [[r got] w1]; simpl in *.
  destruct H as (-> & _ & Hr & _). simpl. rewrite Hr, app_nil_r. auto.
Qed.

(** ** The AT45 status decoder *)

(** The geometries of the density switch. *)
Lemma df_at45_desc_init_geometry (d0 : dataflash_descriptor) (w : world P) :
  fst (fst (df_at45_desc_init d0 w)) = 0 ->
  let d := snd (fst (df_at45_desc_init d0 w)) in
  In (pages d, page_size d, page_offset d)
     [(512, 264, 9); (1024, 264, 9); (2048, 264, 9); (4096, 264, 9);
      (4096, 528, 10); (8192, 528, 10); (8192, 1056, 11)]
  /\ family d = family d0 /\ is_spinor d = is_spinor d0.
Proof.
  unfold df_at45_desc_init, bind, pure.
  destruct (df_read_status_at45_ok w) as [Hr _].
  destruct (df_read_status_at45 w) as [[r st] w1]; simpl in Hr; subst r.
  simpl negb. cbv iota.
  repeat match goal with
         | |- context [if ?c =? ?k then _ else _] =>
             destruct (c =? k)
         end; simpl; intros H; try discriminate H;
    (split; [simpl; tauto|]);
    destruct (Z.land st STATUS_PAGE_SIZE_AT45 =? 0); simpl; auto.
Qed.

(** C1 (as amended).  On the paged branch of the read path (a descriptor
    with is_power_2 = 0 that is not a NOR descriptor), for a page size P and a
    page offset S with 0 < P <= 2^S whose composite addresses fit the
    32-bit address, and for every offset o in [0, pages*P) written as
    o = q*P + r with 0 <= r < P, the device address is (q << S) | r: the
    sum the code forms is the bitwise or.  Every geometry that the AT45
    status decoder produces meets these conditions. *)
Theorem read_address_page_split :
  (forall (d : dataflash_descriptor) (o q r : Z),
      is_spinor d = 0 -> is_power_2 d = 0 ->
      page_offset d < 32 ->
      0 < page_size d <= 2 ^ page_offset d ->
      pages d * 2 ^ page_offset d <= 2 ^ 32 ->
      0 <= o < pages d * page_size d ->
      o = q * page_size d + r -> 0 <= r < page_size d ->
      read_address (P := P) d o = Z.lor (Z.shiftl q (page_offset d)) r)
  /\
  (forall (d0 : dataflash_descriptor) (w : world P),
      fst (fst (df_at45_desc_init d0 w)) = 0 ->
      let d := snd (fst (df_at45_desc_init d0 w)) in
      page_offset d < 32
      /\ 0 < page_size d <= 2 ^ page_offset d
      /\ pages d * 2 ^ page_offset d <= 2 ^ 32).
Proof.
  split.
  - intros d o q r Hnor Hp2 Hs32 Hps Hfit Ho Hsplit Hr.
    unfold read_address. rewrite Hnor. simpl.
    rewrite dataflash_address_paged by assumption.
    assert (Hq : o / page_size d = q).
    { symmetry. apply Z.div_unique with r; lia. }
    assert (Hm : o mod page_size d = r).
    { symmetry. apply Z.mod_unique with q; lia. }
    now rewrite Hq, Hm.
  - intros d0 w H0 d.
    destruct (df_at45_desc_init_geometry d0 w H0) as [Hin _].
    fold d in Hin. simpl in Hin.
    repeat destruct Hin as [Hin | Hin]; try contradiction;
      injection Hin as Hn Hsz Hoff; rewrite <- Hn, <- Hsz, <- Hoff;
      repeat split; try lia; vm_compute; discriminate.
Qed.

(** C3 (as amended).  An AT45 status byte whose density bits
    (status & 0x3c) are 0x14, with the page-size bit clear, decodes to
    pages = 1024, page_size = 264, page_offset = 9 and is_power_2 = 0;
    offset 270 through that descriptor is page 1, byte 6, device address
    (1 << 9) | 6 = 518, sent as the command 0b 00 02 06 00. *)
Theorem at45_status_0x14_decodes_1024_pages
    (d0 : dataflash_descriptor) (w : world P) :
  is_spinor d0 = 0 ->
  Z.land (snd (fst (df_read_status_at45 w))) 0x3c = 0x14 ->
  Z.land (snd (fst (df_read_status_at45 w))) STATUS_PAGE_SIZE_AT45 = 0 ->
  let res := df_at45_desc_init d0 w in
  let d := snd (fst res) in
  fst (fst res) = 0
  /\ pages d = 1024 /\ page_size d = 264 /\ page_offset d = 9
  /\ is_power_2 d = 0
  /\ division 270 (page_size d) = (1, 6)
  /\ read_address (P := P) d 270 = 518
  /\ 518 = Z.lor (Z.shiftl 1 9) 6
  /\ read_cmd (P := P) d 270 = [CMD_READ_ARRAY_FAST; 0x00; 0x02; 0x06; 0x00].
Proof.
  intros Hnor Hden Hps.
  unfold df_at45_desc_init, bind, pure.
  destruct (df_read_status_at45_ok w) as [Hr _].
  destruct (df_read_status_at45 w) as [[r st] w1]; simpl in *; subst r.
  rewrite Hden, Hps. simpl.
  unfold read_address, read_cmd, dataflash_read_cmd, dataflash_address.
  simpl. rewrite Hnor. simpl.
  repeat split; reflexivity.
Qed.

(** C6.  The AT45 decoder fails (returns -1) on a status byte whose
    density code is that of the AT45DB1282D, AT45DB2562D or AT45DB5122D,
    and the family dispatch fails (returns -1) under a vendor byte that
    is none of Atmel, Micron and Winbond, and under a family code that
    its vendor does not list; in each case no geometry is written: the
    fields pages, page_size and page_offset stay as they were. *)
Theorem unsupported_parts_fail :
  (forall (d0 : dataflash_descriptor) (w : world P),
      let st := snd (fst (df_read_status_at45 w)) in
      Z.land st 0x3c = DENSITY_AT45DB1282D
      \/ Z.land st 0x3c = DENSITY_AT45DB2562D
      \/ Z.land st 0x3c = DENSITY_AT45DB5122D ->
      let res := df_at45_desc_init d0 w in
      let d := snd (fst res) in
      fst (fst res) = -1
      /\ pages d = pages d0 /\ page_size d = page_size d0
      /\ page_offset d = page_offset d0)
  /\
  (forall (d0 : dataflash_descriptor) (vendor family_code : Z) (w : world P),
      vendor <> MANUFACTURER_ID_ATMEL ->
      vendor <> MANUFACTURER_ID_MICRON ->
      vendor <> MANUFACTURER_ID_WINBOND ->
      df_desc_init d0 vendor family_code w
      = ((-1, set_family family_code d0), w))
  /\
  (forall (d0 : dataflash_descriptor) (vendor family_code : Z) (w : world P),
      (vendor = MANUFACTURER_ID_ATMEL
       /\ family_code <> DF_FAMILY_AT26F /\ family_code <> DF_FAMILY_AT26DF
       /\ family_code <> DF_FAMILY_AT45)
      \/ (vendor = MANUFACTURER_ID_MICRON
          /\ family_code <> DF_FAMILY_M25P /\ family_code <> DF_FAMILY_N25Q)
      \/ (vendor = MANUFACTURER_ID_WINBOND
          /\ family_code <> WINBOND_W25Q128JV) ->
      df_desc_init d0 vendor family_code w
      = ((-1, set_family family_code d0), w)).
Proof.
  split; [|split].
  - intros d0 w st Hden.
    unfold df_at45_desc_init, bind, pure.
    destruct (df_read_status_at45_ok w) as [Hr _].
    subst st.
    destruct (df_read_status_at45 w) as [[r s] w1]; simpl in *; subst r.
    destruct Hden as [H | [H | H]]; rewrite H; simpl;
      destruct (Z.land s STATUS_PAGE_SIZE_AT45 =? 0); simpl; auto.
  - intros d0 vendor fc w Ha Hm Hw.
    unfold df_desc_init.
    apply Z.eqb_neq in Ha, Hm, Hw. rewrite Ha, Hm, Hw. reflexivity.
  - intros d0 vendor fc w H.
    unfold df_desc_init.
    destruct H as [(-> & H1 & H2 & H3) | [(-> & H1 & H2) | (-> & H1)]];
      simpl;
      repeat match goal with
             | H : _ <> _ |- _ => apply Z.eqb_neq in H; rewrite H; clear H
             end; reflexivity.
Qed.

(** ** The erase polling loops *)

Lemma bounded_search (p : nat -> bool) (n : nat) :
  (exists i, (i <= n)%nat /\ p i = true)
  \/ (forall i, (i <= n)%nat -> p i = false).
Proof.
  induction n as [|n [(i & Hi & Hp) | Hall]].
  - destruct (p O) eqn:H0.
    + left. exists O. auto.
    + right. intros i Hi. replace i with O by lia. assumption.
  - left. exists i. split; [lia | assumption].
  - destruct (p (S n)) eqn:H0.
    + left. exists (S n). auto.
    + right. intros i Hi.
      destruct (Nat.eq_dec i (S n)) as [-> | Hne]; [assumption|].
      apply Hall. lia.
Qed.

(** One status read, with the facts about [nth_status] that follow
    from it. *)
Ltac read_status rd rd_ok w st w1 :=
  let r := fresh "r" in
  let Hr := fresh "Hr" in
  let E := fresh "E" in
  pose proof (proj1 (rd_ok w)) as Hr;
  destruct (rd w) as [[r st] w1] eqn:E; simpl in Hr; subst r;
  assert (Hn0 : nth_status rd 0 w = st) by (simpl; rewrite E; reflexivity);
  assert (HnS : forall i, nth_status rd (S i) w = nth_status rd i w1)
    by (intros; simpl; rewrite E; reflexivity);
  clear E.

(** The AT25 loop leaves with a non-zero [timeout] when one of its
    [remaining + 1] status reads shows the busy bit low, and with
    [timeout = 0] when none does. *)
Lemma at25_poll_loop_outcome (remaining : nat) : forall w : world P,
  ((exists i, (i <= remaining)%nat
              /\ Z.land (nth_status df_read_status_at25 i w) STATUS_READY_AT25 = 0) ->
   exists t st, fst (at25_poll_loop remaining w) = PollLeft t st /\ t <> 0)
  /\
  ((forall i, (i <= remaining)%nat ->
              Z.land (nth_status df_read_status_at25 i w) STATUS_READY_AT25 <> 0) ->
   exists st, fst (at25_poll_loop remaining w) = PollLeft 0 st).
Proof.
  induction remaining as [|n IH]; intros w;
    simpl at25_poll_loop; unfold bind, pure;
    read_status (@df_read_status_at25 P) df_read_status_at25_ok w st w1;
    simpl negb; cbv iota;
    destruct (Z.land st STATUS_READY_AT25 =? 0) eqn:Hst;
    [apply Z.eqb_eq in Hst | apply Z.eqb_neq in Hst
    |apply Z.eqb_eq in Hst | apply Z.eqb_neq in Hst]; simpl; split.
  - intros _. exists 1, st. split; [reflexivity | lia].
  - intros Hbusy. specialize (Hbusy O (le_n _)). rewrite Hn0 in Hbusy.
    contradiction.
  - intros (i & Hi & Hready). replace i with O in Hready by lia.
    rewrite Hn0 in Hready. contradiction.
  - intros _. eauto.
  - intros _. eexists _, st. split; [reflexivity | lia].
  - intros Hbusy. specialize (Hbusy O ltac:(lia)). rewrite Hn0 in Hbusy.
    contradiction.
  - intros (i & Hi & Hready). destruct i as [|i].
    + rewrite Hn0 in Hready. contradiction.
    + apply (proj1 (IH w1)). exists i. rewrite HnS in Hready.
      split; [lia | assumption].
  - intros Hbusy. apply (proj2 (IH w1)). intros i Hi.
    rewrite <- HnS. apply Hbusy. lia.
Qed.

(** The AT45 loop leaves with a [status] whose ready bit is set when one
    of its [remaining + 1] status reads shows it, and with a [status]
    whose ready bit is clear when none does. *)
Lemma at45_poll_loop_outcome (remaining : nat) : forall w : world P,
  ((exists i, (i <= remaining)%nat
              /\ Z.land (nth_status df_read_status_at45 i w) STATUS_READY_AT45 <> 0) ->
   exists t st, fst (at45_poll_loop remaining w) = PollLeft t st
                /\ Z.land st STATUS_READY_AT45 <> 0)
  /\
  ((forall i, (i <= remaining)%nat ->
              Z.land (nth_status df_read_status_at45 i w) STATUS_READY_AT45 = 0) ->
   exists t st, fst (at45_poll_loop remaining w) = PollLeft t st
                /\ Z.land st STATUS_READY_AT45 = 0).
Proof.
  induction remaining as [|n IH]; intros w;
    simpl at45_poll_loop; unfold bind, pure;
    read_status (@df_read_status_at45 P) df_read_status_at45_ok w st w1;
    simpl negb; cbv iota;
    destruct (Z.land st STATUS_READY_AT45 =? 0) eqn:Hst;
    [apply Z.eqb_eq in Hst | apply Z.eqb_neq in Hst
    |apply Z.eqb_eq in Hst | apply Z.eqb_neq in Hst]; simpl; split.
  - intros (i & Hi & Hready). replace i with O in Hready by lia.
    rewrite Hn0 in Hready. contradiction.
  - intros _. eauto.
  - intros _. eauto.
  - intros Hbusy. specialize (Hbusy O (le_n _)). rewrite Hn0 in Hbusy.
    contradiction.
  - intros (i & Hi & Hready). destruct i as [|i].
    + rewrite Hn0 in Hready. contradiction.
    + apply (proj1 (IH w1)). exists i. rewrite HnS in Hready.
      split; [lia | assumption].
  - intros Hbusy. apply (proj2 (IH w1)). intros i Hi.
    rewrite <- HnS. apply Hbusy. lia.
  - intros _. eauto.
  - intros Hbusy. specialize (Hbusy O ltac:(lia)). rewrite Hn0 in Hbusy.
    contradiction.
Qed.

(** C7.  With a bound of 1000 status reads, the AT25 erase poll returns
    0 exactly when one of these reads shows the ready bit (bit 0) low,
    and -1 (the time-out) exactly when all 1000 show it high; the AT45
    erase poll returns 0 exactly when one of its 1000 reads shows the
    ready bit (bit 7) high, and -1 exactly when none does.  [i] numbers
    the status reads from 0. *)
Theorem erase_poll_outcome (w : world P) :
  (fst (at25_erase_poll w) = 0 <->
   exists i, (i < 1000)%nat
             /\ Z.land (nth_status df_read_status_at25 i w) STATUS_READY_AT25 = 0)
  /\ (fst (at25_erase_poll w) = -1 <->
      forall i, (i < 1000)%nat ->
                Z.land (nth_status df_read_status_at25 i w) STATUS_READY_AT25 <> 0)
  /\ (fst (at45_erase_poll w) = 0 <->
      exists i, (i < 1000)%nat
                /\ Z.land (nth_status df_read_status_at45 i w) STATUS_READY_AT45 <> 0)
  /\ (fst (at45_erase_poll w) = -1 <->
      forall i, (i < 1000)%nat ->
                Z.land (nth_status df_read_status_at45 i w) STATUS_READY_AT45 = 0).
Proof.
  assert (Hlt : forall i, (i < 1000)%nat <-> (i <= 999)%nat)
    by (intros i; apply Nat.lt_succ_r).
  assert (H25 : (exists i, (i < 1000)%nat /\
                   Z.land (nth_status df_read_status_at25 i w) STATUS_READY_AT25 = 0)
                /\ fst (at25_erase_poll w) = 0
                \/ (forall i, (i < 1000)%nat ->
                   Z.land (nth_status df_read_status_at25 i w) STATUS_READY_AT25 <> 0)
                /\ fst (at25_erase_poll w) = -1).
  { unfold at25_erase_poll, bind, pure.
    change (Nat.pred 1000) with 999%nat.
    destruct (at25_poll_loop_outcome 999 w) as [Hready Hbusy].
    destruct (bounded_search
                (fun i => Z.land (nth_status df_read_status_at25 i w)
                                 STATUS_READY_AT25 =? 0) 999)
      as [(i & Hi & Hf) | Hall].
    - left. apply Z.eqb_eq in Hf.
      split; [exists i; split; [apply Hlt|]; assumption|].
      destruct Hready as (t & st & He & Ht); [eauto|].
      destruct (at25_poll_loop 999 w) as [e w']; simpl in He; subst e.
      apply Z.eqb_neq in Ht. rewrite Ht. reflexivity.
    - assert (Hall' : forall i, (i <= 999)%nat ->
                Z.land (nth_status df_read_status_at25 i w) STATUS_READY_AT25 <> 0)
        by (intros i Hi; apply Z.eqb_neq, Hall, Hi).
      right. split; [intros i Hi; apply Hall', Hlt, Hi|].
      destruct Hbusy as (st & He); [assumption|].
      destruct (at25_poll_loop 999 w) as [e w']; simpl in He; subst e.
      reflexivity. }
  assert (H45 : (exists i, (i < 1000)%nat /\
                   Z.land (nth_status df_read_status_at45 i w) STATUS_READY_AT45 <> 0)
                /\ fst (at45_erase_poll w) = 0
                \/ (forall i, (i < 1000)%nat ->
                   Z.land (nth_status df_read_status_at45 i w) STATUS_READY_AT45 = 0)
                /\ fst (at45_erase_poll w) = -1).
  { unfold at45_erase_poll, bind, pure.
    change (Nat.pred 1000) with 999%nat.
    destruct (at45_poll_loop_outcome 999 w) as [Hready Hbusy].
    destruct (bounded_search
                (fun i => negb (Z.land (nth_status df_read_status_at45 i w)
                                       STATUS_READY_AT45 =? 0)) 999)
      as [(i & Hi & Hf) | Hall].
    - left. apply negb_true_iff, Z.eqb_neq in Hf.
      split; [exists i; split; [apply Hlt|]; assumption|].
      destruct Hready as (t & st & He & Ht); [eauto|].
      destruct (at45_poll_loop 999 w) as [e w']; simpl in He; subst e.
      apply Z.eqb_neq in Ht. rewrite Ht. reflexivity.
    - assert (Hall' : forall i, (i <= 999)%nat ->
                Z.land (nth_status df_read_status_at45 i w) STATUS_READY_AT45 = 0)
        by (intros i Hi; apply Z.eqb_eq, negb_false_iff, Hall, Hi).
      right. split; [intros i Hi; apply Hall', Hlt, Hi|].
      destruct Hbusy as (t & st & He & Ht); [assumption|].
      destruct (at45_poll_loop 999 w) as [e w']; simpl in He; subst e.
      rewrite Ht. reflexivity. }
  repeat split.
  - intros H0. destruct H25 as [[Hex _] | [_ Hm]]; [assumption | congruence].
  - intros Hex. destruct H25 as [[_ H0] | [Hall _]]; [assumption|].
    destruct Hex as (i & Hi & Hf). exfalso. exact (Hall i Hi Hf).
  - intros Hm. destruct H25 as [[_ H0] | [Hall _]]; [congruence | assumption].
  - intros Hall. destruct H25 as [[(i & Hi & Hf) _] | [_ Hm]]; [|assumption].
    exfalso. exact (Hall i Hi Hf).
  - intros H0. destruct H45 as [[Hex _] | [_ Hm]]; [assumption | congruence].
  - intros Hex. destruct H45 as [[_ H0] | [Hall _]]; [assumption|].
    destruct Hex as (i & Hi & Hf). exfalso. exact (Hf (Hall i Hi)).
  - intros Hm. destruct H45 as [[_ H0] | [Hall _]]; [congruence | assumption].
  - intros Hall. destruct H45 as [[(i & Hi & Hf) _] | [_ Hm]]; [|assumption].
    exfalso. exact (Hf (Hall i Hi)).
Qed.

(** ** The read path on the bus *)

Lemma read_cmd_length (d : dataflash_descriptor) (o : Z) :
  List.length (read_cmd (P := P) d o) = 5%nat.
Proof.
  unfold read_cmd, dataflash_read_cmd, spinor_read_cmd.
  destruct (is_spinor d =? 0); [destruct (pages d >? 16384)|]; reflexivity.
Qed.

(** A read whose buffer passes the checks returns 0, puts the one
    transaction of [read_cmd] on the bus and stores its data phase. *)
Lemma read_array_ok (d : dataflash_descriptor) (o len : Z) (buf : buffer)
    (w : world P) :
  buffer_ok buf len ->
  let res := read_array d o len buf w in
  fst (fst res) = 0
  /\ wire (snd res) = wire w ++ transaction_events (read_cmd (P := P) d o) (Z.to_nat len)
  /\ ram (snd res) = ram w ++
       match buf with Ram a => [(a, snd (fst res))] | _ => [] end.
Proof.
  intros Hb.
  pose proof (read_cmd_length d o) as Hlen.
  pose proof (df_send_command_ok (read_cmd (P := P) d o) 5 buf len w
                ltac:(discriminate) Hb) as H.
  cbv zeta in H.
  rewrite firstn_all2 in H by (rewrite Hlen; apply Nat.le_refl).
  unfold read_array, read_cmd, dataflash_read_array, spinor_read_array,
    bind, pure in *.
  destruct (is_spinor d =? 0);
    destruct (df_send_command _ 5 buf len w) as [[r got] w1];
    simpl in *; destruct H as (-> & Hw & Hr & _); simpl; auto.
Qed.

(** A read into NULL of a non-zero length fails before it touches the
    bus. *)
Lemma read_array_null (d : dataflash_descriptor) (o len : Z) (w : world P) :
  len <> 0 -> read_array d o len NULL w = ((-1, []), w).
Proof.
  intros Hl. apply Z.eqb_neq in Hl.
  unfold read_array, dataflash_read_array, spinor_read_array,
    df_send_command, bind, pure.
  destruct (is_spinor d =? 0); simpl; rewrite Hl; reflexivity.
Qed.

(** C5 (as amended).  The read path emits one 5-byte command.  For a
    descriptor with is_spinor = 0 its layout is selected by the page
    count: with pages <= 16384 the fast-read opcode, a 3-byte MSB-first
    address and a trailing dummy byte 0; with pages > 16384 the opcode
    and a 4-byte MSB-first address, no dummy byte.  For a descriptor with
    is_spinor <> 0 the command is the opcode, a 3-byte MSB-first address
    and a fifth byte that the code does not assign, whatever the page
    count. *)
Theorem read_command_layout (d : dataflash_descriptor) (o len : Z)
    (buf : buffer) (w : world P) :
  buffer_ok buf len ->
  let a := read_address (P := P) d o in
  wire (snd (read_array d o len buf w))
  = wire w ++ transaction_events (read_cmd (P := P) d o) (Z.to_nat len)
  /\ List.length (read_cmd (P := P) d o) = 5%nat
  /\ (is_spinor d = 0 -> pages d <= 16384 ->
      read_cmd (P := P) d o
      = [CMD_READ_ARRAY_FAST;
         u8 (Z.shiftr a 16); u8 (Z.shiftr a 8); u8 a; 0])
  /\ (is_spinor d = 0 -> pages d > 16384 ->
      read_cmd (P := P) d o
      = [CMD_READ_ARRAY_FAST;
         u8 (Z.shiftr a 24); u8 (Z.shiftr a 16); u8 (Z.shiftr a 8); u8 a])
  /\ (is_spinor d <> 0 ->
      read_cmd (P := P) d o
      = [CMD_READ_ARRAY_FAST;
         u8 (Z.shiftr o 16); u8 (Z.shiftr o 8); u8 o; uninit_cmd4 P]).
Proof.
  intros Hb a.
  destruct (read_array_ok d o len buf w Hb) as (_ & Hw & _).
  split; [exact Hw|]. split; [apply read_cmd_length|].
  subst a. unfold read_cmd, read_address, dataflash_read_cmd, spinor_read_cmd.
  repeat split.
  - intros Hnor Hpages. rewrite Hnor. simpl.
    destruct (Z.gtb_spec (pages d) 16384); [lia | reflexivity].
  - intros Hnor Hpages. rewrite Hnor. simpl.
    destruct (Z.gtb_spec (pages d) 16384); [reflexivity | lia].
  - intros Hnor. apply Z.eqb_neq in Hnor. rewrite Hnor. reflexivity.
Qed.

(** ** The probe *)

Lemma probe_table_no_match (dev_id : list Z) (d : dataflash_descriptor) :
  forall (tbl : list flash_info.t) (idx : nat),
    (forall info, In info tbl -> id_matches (P := P) info dev_id = false) ->
    probe_table (P := P) tbl idx dev_id d = (1, d).
Proof.
  induction tbl as [|info rest IH]; intros idx Hno; simpl.
  - reflexivity.
  - destruct (flash_info.name info); [|reflexivity].
    rewrite (Hno info (or_introl eq_refl)).
    apply IH. intros i Hi. apply Hno. now right.
Qed.

(** The table loop writes the geometry fields only. *)
Lemma probe_table_keeps (dev_id : list Z) (d : dataflash_descriptor) :
  forall (tbl : list flash_info.t) (idx : nat),
    let d' := snd (probe_table (P := P) tbl idx dev_id d) in
    family d' = family d /\ is_power_2 d' = is_power_2 d
    /\ is_spinor d' = is_spinor d.
Proof.
  induction tbl as [|info rest IH]; intros idx; simpl.
  - auto.
  - destruct (flash_info.name info); [|simpl; auto].
    destruct (id_matches info dev_id); [simpl; auto | apply IH].
Qed.

Lemma dataflash_probe_atmel_unfold (cfg : config) (d0 : dataflash_descriptor)
    (w : world P) :
  let rd := df_send_command (Some [CMD_READ_DEV_ID]) 1 Local 5 w in
  dataflash_probe_atmel cfg d0 w
  = (probe_table (P := P) (spi_nor_ids cfg) 0 (snd (fst rd)) d0, snd rd)
  /\ ram (snd rd) = ram w.
Proof.
  pose proof (df_send_command_ok [CMD_READ_DEV_ID] 1 Local 5 w
                ltac:(discriminate) ltac:(right; discriminate)) as H.
  cbv zeta in *. unfold dataflash_probe_atmel, bind, pure.
  destruct (df_send_command _ 1 Local 5 w) as [[r got] w1]; simpl in *.
  destruct H as (-> & _ & Hr & _). rewrite Hr, app_nil_r. auto.
Qed.

(** C4 (as amended).  For a device ID that matches no entry of the
    static part table the probe returns 1, a failure, and leaves the
    descriptor as it was: no family dispatch follows the table.  The
    dispatch function itself, given a vendor byte and a family code,
    resolves Atmel AT26F and AT26DF parts to the fixed power-of-2 geometry
    of 16384 pages of 256 bytes without a bus transaction, Atmel AT45
    parts by the status decoder, and Micron M25P and N25Q parts to the
    fixed NOR geometry of 16384 pages of 256 bytes. *)
Theorem no_table_match_no_dispatch :
  (forall (cfg : config) (d0 : dataflash_descriptor) (w : world P),
      let dev_id := snd (fst (df_send_command (Some [CMD_READ_DEV_ID]) 1 Local 5 w)) in
      (forall info, In info (spi_nor_ids cfg) ->
                    id_matches (P := P) info dev_id = false) ->
      fst (dataflash_probe_atmel cfg d0 w) = (1, d0))
  /\
  (forall (d0 : dataflash_descriptor) (family_code : Z) (w : world P),
      family_code = DF_FAMILY_AT26F \/ family_code = DF_FAMILY_AT26DF ->
      df_desc_init d0 MANUFACTURER_ID_ATMEL family_code w
      = ((0, mk_desc family_code 16384 256 0 1 (is_spinor d0)), w))
  /\
  (forall (d0 : dataflash_descriptor) (w : world P),
      df_desc_init d0 MANUFACTURER_ID_ATMEL DF_FAMILY_AT45 w
      = df_at45_desc_init (set_family DF_FAMILY_AT45 d0) w)
  /\
  (forall (d0 : dataflash_descriptor) (family_code : Z) (w : world P),
      family_code = DF_FAMILY_M25P \/ family_code = DF_FAMILY_N25Q ->
      df_desc_init d0 MANUFACTURER_ID_MICRON family_code w
      = ((0, mk_desc family_code 16384 256 0 (is_power_2 d0) 1), w)).
Proof.
  repeat split.
  - intros cfg d0 w dev_id Hno.
    destruct (dataflash_probe_atmel_unfold cfg d0 w) as [-> _]. simpl.
    apply probe_table_no_match. exact Hno.
  - intros d0 fc w [-> | ->]; reflexivity.
  - intros d0 w. unfold df_desc_init. simpl. unfold bind, pure.
    destruct (df_at45_desc_init _ w) as [[r d] w1].
    destruct (Z.eqb_spec r 0) as [-> | Hne]; reflexivity.
  - intros d0 fc w [-> | ->]; reflexivity.
Qed.

(** ** What the recovery engine leaves in RAM: nothing *)

Lemma keeps_ram_pure {A} (a : A) : keeps_ram (P := P) (pure a).
Proof. intros w. reflexivity. Qed.

Lemma keeps_ram_bind {A B} (c : M P A) (k : A -> M P B) :
  keeps_ram c -> (forall a, keeps_ram (k a)) -> keeps_ram (bind c k).
Proof.
  intros Hc Hk w. unfold bind.
  specialize (Hc w). destruct (c w) as [a w1]; simpl in Hc.
  now rewrite Hk.
Qed.

Lemma keeps_ram_or_return (c k : M P Z) :
  keeps_ram c -> keeps_ram k -> keeps_ram (or_return c k).
Proof.
  intros Hc Hk. apply keeps_ram_bind; [assumption|].
  intros r. destruct (r =? 0); [assumption | apply keeps_ram_pure].
Qed.

Lemma keeps_ram_send (cmd : option (list Z)) (cmd_len : Z) (data : buffer)
    (data_len : Z) :
  (forall a, data <> Ram a) ->
  keeps_ram (P := P) (df_send_command cmd cmd_len data data_len).
Proof.
  intros Hd w. unfold df_send_command.
  destruct cmd as [bytes|]; [|reflexivity].
  destruct (cmd_len =? 0); [reflexivity|].
  destruct (negb (data_len =? 0) && _); [reflexivity|].
  monad_unfold.
  set (w1 := mk_world _ _ _).
  destruct (shift_out_wire (firstn (Z.to_nat cmd_len) bytes) w1) as [_ Hr1].
  destruct (shift_out _ w1) as [[] w2]; simpl in *.
  destruct (shift_in_wire (Z.to_nat data_len) w2) as (_ & Hr2 & _).
  destruct (shift_in _ w2) as [got w3]; simpl in *.
  destruct data as [| |a]; simpl; try congruence.
  exfalso. exact (Hd a eq_refl).
Qed.

Ltac keeps_ram_step :=
  first
    [ assumption
    | apply keeps_ram_send; intros; discriminate
    | apply keeps_ram_pure
    | apply keeps_ram_or_return
    | apply keeps_ram_bind; [|intros] ].

Ltac keeps_ram_auto :=
  repeat (keeps_ram_step
          || match goal with
             | |- keeps_ram (let '(_, _) := ?x in _) => destruct x
             | |- keeps_ram (if ?c then _ else _) => destruct c
             | |- keeps_ram (match ?e with _ => _ end) => destruct e
             end).

Lemma keeps_ram_status_at25 : keeps_ram (P := P) df_read_status_at25.
Proof. unfold df_read_status_at25. keeps_ram_auto. Qed.

Lemma keeps_ram_status_at45 : keeps_ram (P := P) df_read_status_at45.
Proof. unfold df_read_status_at45. keeps_ram_auto. Qed.

Lemma keeps_ram_write_enable : keeps_ram (P := P) at25_cmd_write_enbale.
Proof. unfold at25_cmd_write_enbale. keeps_ram_auto. Qed.

Lemma keeps_ram_write_status (status : Z) :
  keeps_ram (P := P) (at25_cmd_write_status_register status).
Proof. unfold at25_cmd_write_status_register. keeps_ram_auto. Qed.

Lemma keeps_ram_unprotect : keeps_ram (P := P) at25_unprotect.
Proof.
  pose proof keeps_ram_status_at25. pose proof keeps_ram_write_enable.
  pose proof (keeps_ram_write_status 0).
  unfold at25_unprotect. keeps_ram_auto.
Qed.

Lemma keeps_ram_at25_poll_loop (remaining : nat) :
  keeps_ram (P := P) (at25_poll_loop remaining).
Proof.
  pose proof keeps_ram_status_at25.
  induction remaining; simpl; keeps_ram_auto.
Qed.

Lemma keeps_ram_at45_poll_loop (remaining : nat) :
  keeps_ram (P := P) (at45_poll_loop remaining).
Proof.
  pose proof keeps_ram_status_at45.
  induction remaining; simpl; keeps_ram_auto.
Qed.

Lemma keeps_ram_erase_at25 : keeps_ram (P := P) dataflash_page0_erase_at25.
Proof.
  pose proof keeps_ram_unprotect. pose proof keeps_ram_write_enable.
  pose proof (keeps_ram_at25_poll_loop 999).
  unfold dataflash_page0_erase_at25, at25_erase_poll.
  change (Nat.pred 1000) with 999%nat. keeps_ram_auto.
Qed.

Lemma keeps_ram_erase_at45 : keeps_ram (P := P) dataflash_page0_erase_at45.
Proof.
  pose proof (keeps_ram_at45_poll_loop 999).
  unfold dataflash_page0_erase_at45, at45_erase_poll.
  change (Nat.pred 1000) with 999%nat. keeps_ram_auto.
Qed.

Lemma keeps_ram_recovery (d : dataflash_descriptor) :
  keeps_ram (P := P) (dataflash_recovery d).
Proof.
  pose proof keeps_ram_erase_at25. pose proof keeps_ram_erase_at45.
  unfold dataflash_recovery. apply keeps_ram_bind; [intros w; reflexivity|].
  intros pin. keeps_ram_auto.
Qed.

(** ** The probe against the Winbond part of the table *)

(** C2 (what the code does).  In a build with CONFIG_SPI_FLASH_WINBOND, a
    part that answers the ID read with ef 70 18 00 00 matches the table
    entry of the w25q128jv: the probe succeeds with pages = 256 and
    page_size = 256, and is_spinor keeps the value 0 of the zeroed
    descriptor: the matching branch does not assign it. *)
Theorem probe_w25q128jv_leaves_is_spinor_clear (cfg : config) (w : world P) :
  CONFIG_SPI_FLASH_WINBOND cfg = true ->
  snd (fst (df_send_command (Some [CMD_READ_DEV_ID]) 1 Local 5 w))
  = [0xef; 0x70; 0x18; 0x00; 0x00] ->
  let res := dataflash_probe_atmel cfg desc_zero w in
  let d := snd (fst res) in
  fst (fst res) = 0
  /\ pages d = 256 /\ page_size d = 256 /\ is_spinor d = 0.
Proof.
  intros Hwb Hid.
  destruct (dataflash_probe_atmel_unfold cfg desc_zero w) as [-> _].
  cbv zeta. cbn [fst snd]. rewrite Hid.
  unfold spi_nor_ids. rewrite Hwb.
  destruct (CONFIG_SPI_FLASH_ATMEL cfg), (CONFIG_SPI_FLASH_EON cfg),
    (CONFIG_SPI_FLASH_GIGADEVICE cfg), (CONFIG_SPI_FLASH_ISSI cfg),
    (CONFIG_SPI_FLASH_MACRONIX cfg), (CONFIG_SPI_FLASH_STMICRO cfg),
    (CONFIG_SPI_FLASH_SPANSION cfg), (CONFIG_SPI_FLASH_SST cfg);
    vm_compute; repeat split; reflexivity.
Qed.

(** ** Recovery after a table match *)

Lemma dataflash_recovery_pressed (d : dataflash_descriptor) (w : world P) :
  pio_get_value P (dev w) = 0 ->
  dataflash_recovery d w
  = (if (family d =? DF_FAMILY_AT26F) || (family d =? DF_FAMILY_AT26DF)
     then dataflash_page0_erase_at25 w
     else dataflash_page0_erase_at45 w).
Proof.
  intros Hpin. unfold dataflash_recovery, read_recovery_pin, bind, pure.
  rewrite Hpin. simpl.
  destruct ((family d =? DF_FAMILY_AT26F) || (family d =? DF_FAMILY_AT26DF)).
  - destruct (dataflash_page0_erase_at25 w) as [r w1].
    destruct (Z.eqb_spec r 0) as [-> | Hne]; reflexivity.
  - destruct (dataflash_page0_erase_at45 w) as [r w1].
    destruct (Z.eqb_spec r 0) as [-> | Hne]; reflexivity.
Qed.

Lemma dataflash_recovery_released (d : dataflash_descriptor) (w : world P) :
  pio_get_value P (dev w) <> 0 -> dataflash_recovery d w = (-1, w).
Proof.
  intros Hpin. apply Z.eqb_neq in Hpin.
  unfold dataflash_recovery, read_recovery_pin, bind, pure.
  rewrite Hpin. reflexivity.
Qed.

(** C10.  The probe does not assign the family field: the descriptor of
    a successful table match still has the family 0 of the zeroed
    descriptor, which is DF_FAMILY_AT26F; when the recovery engine runs
    on it (recovery pin asserted) it is the AT25 erase, never the AT45
    page erase, whichever part the table matched. *)
Theorem table_match_recovers_as_at25 (cfg : config) (w : world P) :
  let res := dataflash_probe_atmel cfg desc_zero w in
  let d := snd (fst res) in
  fst (fst res) = 0 ->
  family d = 0 /\ family d = DF_FAMILY_AT26F
  /\ forall w' : world P,
       pio_get_value P (dev w') = 0 ->
       dataflash_recovery d w' = dataflash_page0_erase_at25 w'.
Proof.
  intros res d _. subst d res.
  destruct (dataflash_probe_atmel_unfold cfg desc_zero w) as [-> _].
  cbv zeta. cbn [fst snd].
  destruct (probe_table_keeps
              (snd (fst (df_send_command (Some [CMD_READ_DEV_ID]) 1 Local 5 w)))
              desc_zero (spi_nor_ids cfg) 0) as (Hfam & _ & _).
  cbv zeta in Hfam. change (family desc_zero) with 0 in Hfam.
  repeat split; try exact Hfam.
  intros w' Hpin. rewrite dataflash_recovery_pressed by assumption.
  rewrite Hfam. reflexivity.
Qed.

(** ** The load orchestrator *)

(** What one read can add to RAM: nothing, or its data phase at the
    address of the buffer. *)
Lemma read_array_ram (d : dataflash_descriptor) (o len : Z) (buf : buffer)
    (w : world P) :
  ram (snd (read_array d o len buf w)) = ram w
  \/ exists a page, buf = Ram a
                    /\ ram (snd (read_array d o len buf w)) = ram w ++ [(a, page)].
Proof.
  destruct (Z.eq_dec len 0) as [Hl | Hl].
  - destruct (read_array_ok d o len buf w (or_introl Hl)) as (_ & _ & Hr).
    destruct buf as [| |a]; [left | left | right];
      rewrite Hr; rewrite ?app_nil_r; eauto.
  - destruct buf as [| |a].
    + left. now rewrite read_array_null.
    + destruct (read_array_ok d o len Local w) as (_ & _ & Hr);
        [right; discriminate|].
      left. now rewrite Hr, app_nil_r.
    + destruct (read_array_ok d o len (Ram a) w) as (_ & _ & Hr);
        [right; discriminate|].
      right. eauto.
Qed.

(** The load call either fails before the recovery block, with -1 and
    nothing stored, or continues as [load_after_probe] on the probed
    descriptor. *)
Lemma spi_flash_loadimage_cases (cfg : config) (image : image_info.t)
    (w : world P) :
  let res := spi_flash_loadimage cfg image w in
  (fst res = (-1, image) /\ ram (snd res) = ram w)
  \/ exists d w1, ram w1 = ram w /\ res = load_after_probe cfg d image w1.
Proof.
  cbv zeta. unfold spi_flash_loadimage, bind, on_dev, pure, err_exit.
  cbn [fst snd dev wire ram].
  destruct (at91_spi_init P _) as [r dv].
  destruct (Z.eqb_spec r 0) as [-> | Hne]; cbn [negb]; [|left; auto].
  match goal with
  | |- context [dataflash_probe_atmel cfg desc_zero ?w0] =>
      destruct (dataflash_probe_atmel_unfold cfg desc_zero w0) as [Hp Hr];
      cbv zeta in Hp, Hr; rewrite Hp; clear Hp
  end.
  cbn [ram] in Hr.
  destruct (probe_table _ _ _ _) as [r d].
  destruct (Z.eqb_spec r 0) as [-> | Hne]; cbn [negb].
  - right. eauto.
  - left. cbn [fst snd ram]. auto.
Qed.

(** C8 (as amended).  When the recovery engine runs (recovery pin
    asserted) it returns the result of the erase of the descriptor's
    family: 0 for a completed erase, the non-zero code of the erase when
    it fails.  After a successful probe, a non-zero result of the
    recovery engine does not abort the load: the call goes on with the
    payloads, from the state the engine left.  It is the result 0, which
    only a completed erase gives, that ends the call, with -2 and
    nothing copied. *)
Theorem erase_failure_goes_on_loading (cfg : config)
    (d : dataflash_descriptor) (image : image_info.t) (w : world P) :
  CONFIG_DATAFLASH_RECOVERY cfg = true ->
  let rc := dataflash_recovery d w in
  (pio_get_value P (dev w) = 0 ->
   rc = (if (family d =? DF_FAMILY_AT26F) || (family d =? DF_FAMILY_AT26DF)
         then dataflash_page0_erase_at25 w
         else dataflash_page0_erase_at45 w))
  /\ (fst rc <> 0 ->
      load_after_probe cfg d image w = load_payloads cfg d image (snd rc))
  /\ (fst rc = 0 ->
      pio_get_value P (dev w) = 0
      /\ fst (load_after_probe cfg d image w) = (-2, image)
      /\ ram (snd (load_after_probe cfg d image w)) = ram w).
Proof.
  intros Hcfg rc. split; [|split].
  - apply dataflash_recovery_pressed.
  - intros Hfail. unfold load_after_probe, bind. rewrite Hcfg.
    subst rc. destruct (dataflash_recovery d w) as [r w1]; simpl in *.
    apply Z.eqb_neq in Hfail. now rewrite Hfail.
  - intros Hdone. split.
    + destruct (Z.eq_dec (pio_get_value P (dev w)) 0) as [H0 | H0]; [assumption|].
      subst rc. rewrite dataflash_recovery_released in Hdone by assumption.
      discriminate Hdone.
    + pose proof (keeps_ram_recovery d w) as Hram.
      unfold load_after_probe, bind, err_exit, on_dev, pure. rewrite Hcfg.
      subst rc. destruct (dataflash_recovery d w) as [r w1]; simpl in *.
      subst r. simpl. auto.
Qed.

(** The kernel branch of the length resolver returns what the header
    parser returns, or -1 when the read fails. *)
Lemma load_payloads_length_failure (cfg : config) (d : dataflash_descriptor)
    (image : image_info.t) (w : world P) :
  CONFIG_LOAD_LINUX cfg = true ->
  let rd := read_array d (image_info.offset image) (page_size d)
              (ptr (image_info.dest image)) w in
  kernel_size P (snd (fst rd)) = -1 ->
  load_payloads cfg d image w = ((-1, image), snd rd).
Proof.
  intros Hcfg rd Hk. subst rd.
  unfold load_payloads, update_image_length, bind, pure. rewrite Hcfg.
  destruct (read_array d _ _ _ w) as [[r page] w1]; simpl in *.
  destruct (r =? 0); simpl; [rewrite Hk|]; reflexivity.
Qed.

(** C9.  When the parser selected for a payload fails on the page read
    at the payload's offset (the kernel header parser returns -1, the
    device-tree validator returns non-zero), the length resolver returns
    -1, not 0.  For the kernel payload the load call then returns -1
    in the state the read of that one page left: it makes no kernel copy
    and no read for the device tree.  With a header parser that rejects
    every page, the whole load call returns a non-zero code and stores at
    most that one page, at the kernel's destination. *)
Theorem parser_failure_is_length_failure :
  (forall (fdt : bool) (d : dataflash_descriptor) (offset : Z) (dest : buffer)
          (w : world P),
      kernel_size P (snd (fst (read_array d offset (page_size d) dest w))) = -1 ->
      fst (update_image_length fdt d offset dest KERNEL_IMAGE w) = -1)
  /\
  (forall (fdt : bool) (d : dataflash_descriptor) (offset : Z) (dest : buffer)
          (w : world P),
      check_dt_blob_valid P
        (snd (fst (read_array d offset (page_size d) dest w))) <> 0 ->
      fst (update_image_length fdt d offset dest DT_BLOB w) = -1)
  /\
  (forall (cfg : config) (d : dataflash_descriptor) (image : image_info.t)
          (w : world P),
      CONFIG_LOAD_LINUX cfg = true ->
      let rd := read_array d (image_info.offset image) (page_size d)
                  (ptr (image_info.dest image)) w in
      kernel_size P (snd (fst rd)) = -1 ->
      load_payloads cfg d image w = ((-1, image), snd rd))
  /\
  (forall (cfg : config) (image : image_info.t) (w : world P),
      CONFIG_LOAD_LINUX cfg = true ->
      (forall page, kernel_size P page = -1) ->
      let res := spi_flash_loadimage cfg image w in
      fst (fst res) <> 0
      /\ (ram (snd res) = ram w
          \/ exists page,
               ram (snd res) = ram w ++ [(image_info.dest image, page)])).
Proof.
  split; [|split; [|split]].
  - intros fdt d offset dest w Hk.
    unfold update_image_length, bind, pure.
    destruct (read_array d offset _ dest w) as [[r page] w1]; simpl in *.
    destruct (r =? 0); simpl; [exact Hk | reflexivity].
  - intros fdt d offset dest w Hv.
    unfold update_image_length, bind, pure.
    destruct (read_array d offset _ dest w) as [[r page] w1]; simpl in *.
    apply Z.eqb_neq in Hv.
    destruct (r =? 0); simpl; [|reflexivity].
    destruct fdt; [rewrite Hv|]; reflexivity.
  - apply load_payloads_length_failure.
  - intros cfg image w Hcfg Hk res.
    assert (Hpay : forall d (w1 : world P), ram w1 = ram w ->
              let r := load_payloads cfg d image w1 in
              fst (fst r) <> 0
              /\ (ram (snd r) = ram w
                  \/ exists page,
                       ram (snd r) = ram w ++ [(image_info.dest image, page)])).
    { intros d w1 Hw1 r. subst r.
      rewrite load_payloads_length_failure by auto.
      split; [discriminate|]. cbn [fst snd].
      destruct (read_array_ram d (image_info.offset image) (page_size d)
                  (ptr (image_info.dest image)) w1)
        as [Hr | (a & page & Hbuf & Hr)]; rewrite Hr, Hw1; [now left|].
      right. exists page. unfold ptr in Hbuf.
      destruct (image_info.dest image =? 0); [discriminate|].
      now injection Hbuf as <-. }
    destruct (spi_flash_loadimage_cases cfg image w)
      as [[Hres Hram] | (d & w1 & Hw1 & Hres)]; fold res in Hres.
    + fold res in Hram. rewrite Hres. split; [discriminate | now left].
    + rewrite Hres. unfold load_after_probe, bind, err_exit, on_dev, pure.
      destruct (CONFIG_DATAFLASH_RECOVERY cfg); [|apply Hpay; assumption].
      pose proof (keeps_ram_recovery d w1) as Hrec.
      destruct (dataflash_recovery d w1) as [r w2]; simpl in Hrec.
      destruct (r =? 0).
      * simpl. split; [discriminate|]. left. congruence.
      * apply Hpay. congruence.
Qed.

End DriverFacts.

(** * Concrete runs on the simulated board *)

(** C1 at the AT45DB021D geometry: offset 270 = 1 * 264 + 6. *)
Lemma read_address_page_split_at_270 :
  let d := mk_desc DF_FAMILY_AT45 1024 264 9 0 0 in
  (is_spinor d = 0 /\ is_power_2 d = 0 /\ page_offset d < 32
   /\ 0 < page_size d <= 2 ^ page_offset d
   /\ pages d * 2 ^ page_offset d <= 2 ^ 32
   /\ 0 <= 270 < pages d * page_size d
   /\ 270 = 1 * page_size d + 6 /\ 0 <= 6 < page_size d)
  /\ read_address (P := sim 4 0 0) d 270 = Z.lor (Z.shiftl 1 (page_offset d)) 6.
Proof.
  cbv zeta. split.
  - simpl. lia.
  - apply (proj1 (read_address_page_split (P := sim 4 0 0))); simpl; lia.
Defined.

(** Bit s of (1 << s) | 1 is set, for s > 0: the value is not 1. *)
Lemma lor_shiftl_one_not_one (s : Z) : 0 < s -> Z.lor (Z.shiftl 1 s) 1 <> 1.
Proof.
  intros Hs H.
  assert (Hbit : Z.testbit (Z.lor (Z.shiftl 1 s) 1) s = Z.testbit 1 s)
    by (rewrite H; reflexivity).
  rewrite Z.lor_spec, Z.shiftl_spec, Z.sub_diag in Hbit by lia.
  rewrite (Z.bits_above_log2 1 s) in Hbit by (simpl; lia).
  discriminate Hbit.
Qed.

(** C1, the claim as stated fails, on three descriptors with
    is_power_2 = 0.  The descriptor that the probe of a W25Q128JV yields
    has is_spinor = 0, P = 256 <= 2^S and pages = 256, with the address of
    the table entry as S = 3146260: at offset 257 = 1 * 256 + 1 the read
    path gives a 32-bit address, 1 on this board, and not (1 << S) | 1.
    The descriptor of df_n25q_desc_init has is_spinor = 1, P = 256 and
    S = 0: at offset 257 the read path gives 257, and (1 << 0) | 1 is 1.
    A paged descriptor of 2^24 pages with P = 256 and S = 9 has
    pages * 2^S = 2^33: at offset 2^31 = 2^23 * 256 the 32-bit address of
    the read path is 0, and 2^23 << 9 is 2^32. *)
Lemma page_split_fails_outside_paged_geometries :
  let probed := mk_desc 0 256 256 3146260 0 0 in
  let nor := mk_desc 0 16384 256 0 0 1 in
  let wide := mk_desc 0 16777216 256 9 0 0 in
  (fst (dataflash_probe_atmel cfg_winbond desc_zero
          (sim_world 4 0 0 (w25q128jv 0 1))) = (0, probed)
   /\ is_power_2 probed = 0
   /\ 0 < page_size probed <= 2 ^ page_offset probed
   /\ 0 <= 257 < pages probed * page_size probed
   /\ 257 = 1 * page_size probed + 1 /\ 0 <= 1 < page_size probed
   /\ read_address (P := sim 4 0 0) probed 257 = 1
   /\ read_address (P := sim 4 0 0) probed 257
      <> Z.lor (Z.shiftl 1 (page_offset probed)) 1)
  /\
  (df_n25q_desc_init desc_zero = (0, nor)
   /\ is_power_2 nor = 0
   /\ 0 <= 257 < pages nor * page_size nor
   /\ 257 = 1 * page_size nor + 1 /\ 0 <= 1 < page_size nor
   /\ read_address (P := sim 4 0 0) nor 257 = 257
   /\ Z.lor (Z.shiftl 1 (page_offset nor)) 1 = 1
   /\ read_address (P := sim 4 0 0) nor 257
      <> Z.lor (Z.shiftl 1 (page_offset nor)) 1)
  /\
  (is_power_2 wide = 0 /\ is_spinor wide = 0
   /\ 0 < page_size wide <= 2 ^ page_offset wide
   /\ 0 <= 2147483648 < pages wide * page_size wide
   /\ 2147483648 = 8388608 * page_size wide + 0
   /\ 0 <= 0 < page_size wide
   /\ read_address (P := sim 4 0 0) wide 2147483648 = 0
   /\ Z.lor (Z.shiftl 8388608 (page_offset wide)) 0 = 4294967296
   /\ read_address (P := sim 4 0 0) wide 2147483648
      <> Z.lor (Z.shiftl 8388608 (page_offset wide)) 0).
Proof.
  cbv zeta. cbn [is_power_2 is_spinor page_size page_offset pages].
  assert (Hread : read_address (P := sim 4 0 0)
                    (mk_desc 0 256 256 3146260 0 0) 257 = 1)
    by (vm_compute; reflexivity).
  split; [|split].
  - split; [vm_compute; reflexivity|].
    split; [reflexivity|].
    split.
    { split; [reflexivity|].
      change 256 with (2 ^ 8). apply Z.pow_le_mono_r; [reflexivity|].
      intro Hcmp; discriminate Hcmp. }
    split; [split; [intro Hcmp; discriminate Hcmp | reflexivity]|].
    split; [reflexivity|].
    split; [split; [intro Hcmp; discriminate Hcmp | reflexivity]|].
    split; [exact Hread|].
    rewrite Hread. intro H. symmetry in H. revert H.
    apply lor_shiftl_one_not_one. reflexivity.
  - split; [reflexivity|].
    split; [reflexivity|].
    split; [split; [intro Hcmp; discriminate Hcmp | reflexivity]|].
    split; [reflexivity|].
    split; [split; [intro Hcmp; discriminate Hcmp | reflexivity]|].
    split; [reflexivity|].
    split; [reflexivity|].
    vm_compute. intro H. discriminate H.
  - split; [reflexivity|].
    split; [reflexivity|].
    split; [split; [reflexivity | intro Hcmp; discriminate Hcmp]|].
    split; [split; [intro Hcmp; discriminate Hcmp | reflexivity]|].
    split; [reflexivity|].
    split; [split; [intro Hcmp; discriminate Hcmp | reflexivity]|].
    split; [vm_compute; reflexivity|].
    split; [reflexivity|].
    vm_compute. intro H. discriminate H.
Qed.

(** C2 on the simulated W25Q128JV. *)
Lemma probe_w25q128jv_on_board :
  let w := sim_world 4 0 0 (w25q128jv 0 1) in
  (CONFIG_SPI_FLASH_WINBOND cfg_winbond = true
   /\ snd (fst (df_send_command (Some [CMD_READ_DEV_ID]) 1 Local 5 w))
      = [0xef; 0x70; 0x18; 0x00; 0x00])
  /\ fst (fst (dataflash_probe_atmel cfg_winbond desc_zero w)) = 0
  /\ pages (snd (fst (dataflash_probe_atmel cfg_winbond desc_zero w))) = 256
  /\ page_size (snd (fst (dataflash_probe_atmel cfg_winbond desc_zero w))) = 256
  /\ is_spinor (snd (fst (dataflash_probe_atmel cfg_winbond desc_zero w))) = 0.
Proof.
  cbv zeta. split.
  - split; reflexivity.
  - apply (probe_w25q128jv_leaves_is_spinor_clear cfg_winbond
             (sim_world 4 0 0 (w25q128jv 0 1))); reflexivity.
Defined.

(** C3, the claim as stated fails: the status byte 0x94 has the density
    bits 0x14 and the page-size bit clear, and decodes to 1024 pages,
    not 512. *)
Lemma at45_status_0x14_pages_not_512 :
  let w := sim_world 4 0 0 (at45db021d 0 1) in
  let st := snd (fst (df_read_status_at45 w)) in
  let d := snd (fst (df_at45_desc_init desc_zero w)) in
  Z.land st 0x3c = 0x14 /\ Z.land st STATUS_PAGE_SIZE_AT45 = 0
  /\ fst (fst (df_at45_desc_init desc_zero w)) = 0
  /\ pages d = 1024 /\ pages d <> 512.
Proof.
  vm_compute. repeat split; try reflexivity. discriminate.
Qed.

(** C3 as amended, on the simulated AT45DB021D. *)
Lemma at45_status_0x14_on_board :
  let w := sim_world 4 0 0 (at45db021d 0 1) in
  let d := snd (fst (df_at45_desc_init desc_zero w)) in
  (is_spinor desc_zero = 0
   /\ Z.land (snd (fst (df_read_status_at45 w))) 0x3c = 0x14
   /\ Z.land (snd (fst (df_read_status_at45 w))) STATUS_PAGE_SIZE_AT45 = 0)
  /\ pages d = 1024 /\ page_size d = 264 /\ page_offset d = 9
  /\ is_power_2 d = 0 /\ read_address (P := sim 4 0 0) d 270 = 518.
Proof.
  cbv zeta. split.
  - repeat split; reflexivity.
  - pose proof (at45_status_0x14_decodes_1024_pages desc_zero
                  (sim_world 4 0 0 (at45db021d 0 1))
                  eq_refl eq_refl eq_refl) as H.
    cbv zeta in H. tauto.
Defined.

(** C4, the claim as stated fails: in the Winbond build the table does
    not hold the ID of an Atmel AT26DF321 (vendor 0x1f, family code
    0x47 & 0xe0 = 0x40); the probe returns 1 with the zeroed descriptor
    instead of the geometry of 16384 pages of 256 bytes. *)
Lemma at26df_without_table_entry_fails :
  let w := sim_world 4 0 0 (at26df321 0 1) in
  let dev_id := snd (fst (df_send_command (Some [CMD_READ_DEV_ID]) 1 Local 5 w)) in
  let res := dataflash_probe_atmel cfg_winbond desc_zero w in
  dev_id = [0x1f; 0x47; 0x00; 0x00; 0x00]
  /\ forallb (fun info => negb (id_matches (P := sim 4 0 0) info dev_id))
             (spi_nor_ids cfg_winbond) = true
  /\ nth 0 dev_id 0 = MANUFACTURER_ID_ATMEL
  /\ Z.land (nth 1 dev_id 0) 0xe0 = DF_FAMILY_AT26DF
  /\ fst res = (1, desc_zero)
  /\ fst (fst res) <> 0
  /\ (pages (snd (fst res)), page_size (snd (fst res))) <> (16384, 256).
Proof.
  vm_compute. repeat split; try reflexivity; discriminate.
Qed.

(** C4 as amended, on the same board. *)
Lemma no_table_match_on_board :
  let w := sim_world 4 0 0 (at26df321 0 1) in
  (forall info, In info (spi_nor_ids cfg_winbond) ->
     id_matches (P := sim 4 0 0) info
       (snd (fst (df_send_command (Some [CMD_READ_DEV_ID]) 1 Local 5 w))) = false)
  /\ fst (dataflash_probe_atmel cfg_winbond desc_zero w) = (1, desc_zero).
Proof.
  cbv zeta.
  assert (Hno : forall info, In info (spi_nor_ids cfg_winbond) ->
     id_matches (P := sim 4 0 0) info
       (snd (fst (df_send_command (Some [CMD_READ_DEV_ID]) 1 Local 5
                    (sim_world 4 0 0 (at26df321 0 1))))) = false).
  { intros info Hin. apply negb_true_iff.
    revert info Hin. apply forallb_forall. vm_compute. reflexivity. }
  split; [exact Hno|].
  apply (proj1 (no_table_match_no_dispatch (P := sim 4 0 0))). exact Hno.
Defined.

(** C5, the claim as stated fails: a NOR descriptor with 32768 pages.
    The command on the bus for offset 256 carries the 3-byte address
    00 01 00 and a fifth byte, not the 4-byte address 00 00 01 00. *)
Lemma spinor_read_ignores_page_count :
  let d := mk_desc 0 32768 256 0 0 1 in
  let w := sim_world 4 0 0 (w25q128jv 0 1) in
  pages d > 16384
  /\ wire (snd (read_array d 256 0 NULL w))
     = [CsActivate; Tx 0x0b; Tx 0x00; Tx 0x01; Tx 0x00; Tx 0x00; CsDeactivate]
  /\ wire (snd (read_array d 256 0 NULL w))
     <> transaction_events
          [CMD_READ_ARRAY_FAST; u8 (Z.shiftr 256 24); u8 (Z.shiftr 256 16);
           u8 (Z.shiftr 256 8); u8 256] 0.
Proof.
  vm_compute. repeat split; try reflexivity; discriminate.
Qed.

(** C5 as amended, for a read of 4 bytes at offset 270 of the
    AT45DB021D. *)
Lemma read_command_layout_on_board :
  let d := mk_desc DF_FAMILY_AT45 1024 264 9 0 0 in
  let w := sim_world 4 0 0 (at45db021d 0 1) in
  buffer_ok (Ram 0x22000000) 4
  /\ wire (snd (read_array d 270 4 (Ram 0x22000000) w))
     = transaction_events [0x0b; 0x00; 0x02; 0x06; 0x00] 4.
Proof.
  cbv zeta. split.
  - right. discriminate.
  - exact (proj1 (read_command_layout (P := sim 4 0 0)
                    (mk_desc DF_FAMILY_AT45 1024 264 9 0 0) 270 4
                    (Ram 0x22000000) (sim_world 4 0 0 (at45db021d 0 1))
                    (or_intror (fun H => eq_ind (Ram 0x22000000)
                       (fun b => match b with NULL => False | _ => True end)
                       I NULL H)))).
Defined.

(** C6 on a simulated AT45DB1282D, and under the vendor byte 0xc2. *)
Lemma unsupported_parts_fail_on_board :
  let w := sim_world 4 0 0 (at45db1282d 0 1) in
  (Z.land (snd (fst (df_read_status_at45 w))) 0x3c = DENSITY_AT45DB1282D
   /\ 0xc2 <> MANUFACTURER_ID_ATMEL /\ 0xc2 <> MANUFACTURER_ID_MICRON
   /\ 0xc2 <> MANUFACTURER_ID_WINBOND)
  /\ fst (fst (df_at45_desc_init desc_zero w)) = -1
  /\ df_desc_init desc_zero 0xc2 0x20 w = ((-1, set_family 0x20 desc_zero), w).
Proof.
  cbv zeta. split.
  - repeat split; try reflexivity; discriminate.
  - split.
    + apply (proj1 (unsupported_parts_fail (P := sim 4 0 0))).
      left. reflexivity.
    + apply (proj1 (proj2 (unsupported_parts_fail (P := sim 4 0 0))));
        discriminate.
Defined.

(** C7 on the board: a part that is busy for three status reads lets
    the AT25 poll succeed; one that is busy for 5000 reads times out. *)
Lemma erase_poll_outcome_on_board :
  fst (at25_erase_poll (sim_world 4 0 0 (w25q128jv 3 0))) = 0
  /\ fst (at45_erase_poll (sim_world 4 0 0 (at45db021d 3 0))) = 0.
Proof.
  split.
  - apply (proj1 (erase_poll_outcome (sim_world 4 0 0 (w25q128jv 3 0)))).
    exists 3%nat. split; [repeat constructor | reflexivity].
  - apply (proj1 (proj2 (proj2
             (erase_poll_outcome (sim_world 4 0 0 (at45db021d 3 0)))))).
    exists 3%nat. split; [repeat constructor | discriminate].
Defined.

(** C8, the claim as stated fails: a W25Q128JV that stays busy, with the
    recovery pin asserted.  The recovery engine runs, the AT25 erase of
    the zero family times out (-1), and the load call goes on: it
    resolves the kernel length, copies the kernel and returns 0.  (The
    read goes through the paged branch with the table address as the
    shift; its data does not depend on the address on this board.) *)
Lemma failed_erase_load_succeeds :
  let w := sim_world 4 0 0 (w25q128jv 5000 0) in
  let probed := dataflash_probe_atmel cfg_winbond desc_zero w in
  let res := spi_flash_loadimage cfg_winbond kernel_request w in
  CONFIG_DATAFLASH_RECOVERY cfg_winbond = true
  /\ pio_get_value (sim 4 0 0) (dev w) = 0
  /\ fst (fst probed) = 0
  /\ fst (dataflash_page0_erase_at25 (snd probed)) = -1
  /\ fst (dataflash_recovery (snd (fst probed)) (snd probed)) = -1
  /\ fst (fst res) = 0
  /\ image_info.length (snd (fst res)) = 4
  /\ stored_sizes (ram (snd res))
     = [(0x22000000, 256%nat); (0x22000000, 4%nat)].
Proof.
  vm_compute. repeat split; reflexivity.
Qed.

(** C8 as amended, on the same run: the failed erase hands over to the
    payloads. *)
Lemma erase_failure_on_board :
  let w := sim_world 4 0 0 (w25q128jv 5000 0) in
  let d := mk_desc 0 256 256 3146260 0 0 in
  (CONFIG_DATAFLASH_RECOVERY cfg_winbond = true
   /\ fst (dataflash_recovery d w) <> 0)
  /\ load_after_probe cfg_winbond d kernel_request w
     = load_payloads cfg_winbond d kernel_request (snd (dataflash_recovery d w)).
Proof.
  cbv zeta.
  assert (Hfail : fst (dataflash_recovery (mk_desc 0 256 256 3146260 0 0)
                         (sim_world 4 0 0 (w25q128jv 5000 0))) <> 0)
    by (vm_compute; discriminate).
  split; [split; [reflexivity | exact Hfail]|].
  exact (proj1 (proj2 (erase_failure_goes_on_loading cfg_winbond
                         (mk_desc 0 256 256 3146260 0 0) kernel_request
                         (sim_world 4 0 0 (w25q128jv 5000 0)) eq_refl)) Hfail).
Defined.

(** C9 on a board whose header parser rejects the page: the call
    returns -1 and the only data stored is the header page, at the
    kernel's destination; the device tree is enabled in this build. *)
Lemma parser_failure_on_board :
  let w := sim_world (-1) 0 64 (w25q128jv 0 1) in
  let res := spi_flash_loadimage cfg_winbond_dt kernel_request w in
  (CONFIG_LOAD_LINUX cfg_winbond_dt = true
   /\ forall page, kernel_size (sim (-1) 0 64) page = -1)
  /\ fst (fst res) <> 0
  /\ (ram (snd res) = ram w
      \/ exists page,
           ram (snd res) = ram w ++ [(image_info.dest kernel_request, page)]).
Proof.
  cbv zeta. split.
  - split; [reflexivity | intros page; reflexivity].
  - apply (proj2 (proj2 (proj2 (parser_failure_is_length_failure
                                  (P := sim (-1) 0 64))))).
    + reflexivity.
    + intros page. reflexivity.
Defined.

(** C10 on the board: after the match of the W25Q128JV the recovery
    engine is the AT25 erase. *)
Lemma table_match_recovers_as_at25_on_board :
  let w := sim_world 4 0 0 (w25q128jv 3 0) in
  let res := dataflash_probe_atmel cfg_winbond desc_zero w in
  (fst (fst res) = 0 /\ pio_get_value (sim 4 0 0) (dev (snd res)) = 0)
  /\ family (snd (fst res)) = DF_FAMILY_AT26F
  /\ dataflash_recovery (snd (fst res)) (snd res)
     = dataflash_page0_erase_at25 (snd res).
Proof.
  cbv zeta.
  destruct (table_match_recovers_as_at25 cfg_winbond
              (sim_world 4 0 0 (w25q128jv 3 0)) eq_refl) as (_ & Hfam & Hrec).
  split; [split; reflexivity|].
  split; [exact Hfam|].
  apply Hrec. reflexivity.
Defined.

(** * Further properties of the driver *)

Section DriverCoverage.

Context {P : platform}.

(** ** The transaction primitive *)

Lemma shift_in_bytes (n : nat) : forall w : world P,
  Forall (fun b => 0 <= b < 256) (fst (shift_in n w)).
Proof.
  induction n as [|n IH]; intros w; simpl.
  - constructor.
  - unfold bind, pure.
    destruct (spi_exchange 0 w) as [v w1].
    specialize (IH w1). destruct (shift_in n w1) as [got w2]; simpl in *.
    constructor; [apply Z.mod_pos_bound; reflexivity | exact IH].
Qed.

(** X1.  [df_send_command] returns -1 exactly for a call with a NULL
    command, a zero command length, or a non-zero data length with a
    NULL data buffer; such a call leaves the bus, the device and RAM
    untouched.  Every other call returns 0. *)
Theorem df_send_command_rejects (cmd : option (list Z)) (cmd_len : Z)
    (data : buffer) (data_len : Z) (w : world P) :
  let res := df_send_command cmd cmd_len data data_len w in
  (fst (fst res) = -1 <->
   cmd = None \/ cmd_len = 0 \/ (data_len <> 0 /\ data = NULL))
  /\ (fst (fst res) = -1 -> res = ((-1, []), w))
  /\ (fst (fst res) = -1 \/ fst (fst res) = 0).
Proof.
  cbv zeta. destruct cmd as [bytes|].
  2:{ simpl. repeat split; auto. }
  destruct (Z.eq_dec cmd_len 0) as [-> | Hc].
  { simpl. repeat split; auto. }
  destruct (Z.eq_dec data_len 0) as [Hd | Hd].
  - pose proof (df_send_command_ok bytes cmd_len data data_len w Hc
                  ltac:(left; exact Hd)) as H.
    cbv zeta in H. destruct H as (H0 & _). rewrite H0.
    repeat split; try discriminate; auto.
    intros [H | [H | [H _]]]; congruence.
  - destruct data as [| |a].
    + unfold df_send_command. apply Z.eqb_neq in Hc, Hd. rewrite Hc, Hd.
      simpl. repeat split; auto.
      intros _. right. right. split; [now apply Z.eqb_neq | reflexivity].
    + pose proof (df_send_command_ok bytes cmd_len Local data_len w Hc
                    ltac:(right; discriminate)) as H.
      cbv zeta in H. destruct H as (H0 & _). rewrite H0.
      repeat split; try discriminate; auto.
      intros [H | [H | [_ H]]]; congruence.
    + pose proof (df_send_command_ok bytes cmd_len (Ram a) data_len w Hc
                    ltac:(right; discriminate)) as H.
      cbv zeta in H. destruct H as (H0 & _). rewrite H0.
      repeat split; try discriminate; auto.
      intros [H | [H | [_ H]]]; congruence.
Qed.

(** X2.  A call of [df_send_command] that passes the checks puts exactly
    one transaction on the bus: chip select, the first [cmd_len] command
    bytes, [data_len] zero bytes, chip select off.  It yields exactly
    [data_len] data bytes, each in 0..255, and stores them in RAM only
    when the buffer is a RAM address. *)
Theorem df_send_command_transaction (bytes : list Z) (cmd_len : Z)
    (data : buffer) (data_len : Z) (w : world P) :
  cmd_len <> 0 -> buffer_ok data data_len ->
  let res := df_send_command (Some bytes) cmd_len data data_len w in
  let got := snd (fst res) in
  fst (fst res) = 0
  /\ wire (snd res)
     = wire w ++ [CsActivate]
       ++ map Tx (firstn (Z.to_nat cmd_len) bytes)
       ++ repeat (Tx 0) (Z.to_nat data_len) ++ [CsDeactivate]
  /\ List.length got = Z.to_nat data_len
  /\ Forall (fun b => 0 <= b < 256) got
  /\ ram (snd res) = ram w ++ match data with Ram a => [(a, got)] | _ => [] end.
Proof.
  intros Hc Hb.
  pose proof (df_send_command_ok bytes cmd_len data data_len w Hc Hb) as H.
  cbv zeta in *. destruct H as (H0 & Hw & Hr & Hl).
  repeat split; try assumption.
  unfold df_send_command.
  apply Z.eqb_neq in Hc. rewrite Hc.
  assert (Hg : negb (data_len =? 0)
               && match data with NULL => true | _ => false end = false).
  { destruct Hb as [-> | Hn]; [reflexivity|].
    destruct data; try congruence; now rewrite andb_false_r. }
  rewrite Hg. unfold bind, pure, on_dev, emit, store.
  match goal with
  | |- context [shift_out ?l ?w0] => destruct (shift_out l w0) as [[] w2]
  end.
  pose proof (shift_in_bytes (Z.to_nat data_len) w2) as Hbytes.
  destruct (shift_in _ w2) as [got w3]; simpl in *.
  destruct data; simpl; exact Hbytes.
Qed.

(** ** Addresses on the bus *)

Lemma be_value_3 (a : Z) :
  0 <= a < 16777216 ->
  be_value [u8 (Z.shiftr a 16); u8 (Z.shiftr a 8); u8 a] = a.
Proof.
  intros Ha. unfold be_value, u8. cbn [fold_left].
  rewrite !Z.shiftr_div_pow2 by lia.
  change (2 ^ 16) with 65536. change (2 ^ 8) with 256.
  Z.div_mod_to_equations. lia.
Qed.

Lemma be_value_4 (a : Z) :
  0 <= a < 4294967296 ->
  be_value [u8 (Z.shiftr a 24); u8 (Z.shiftr a 16); u8 (Z.shiftr a 8); u8 a] = a.
Proof.
  intros Ha. unfold be_value, u8. cbn [fold_left].
  rewrite !Z.shiftr_div_pow2 by lia.
  change (2 ^ 24) with 16777216.
  change (2 ^ 16) with 65536. change (2 ^ 8) with 256.
  Z.div_mod_to_equations. lia.
Qed.

(** X3.  The address bytes of the read command, read back most
    significant byte first, are the device address: all four bytes after
    the opcode in the 4-byte form (pages > 16384) for an address below
    2^32, the three bytes after the opcode in the 3-byte form for an
    address below 2^24.  For a NOR or a power-of-2 descriptor the device
    address is the logical offset itself. *)
Theorem read_cmd_address_round_trip (d : dataflash_descriptor) (o : Z) :
  let a := read_address (P := P) d o in
  (is_spinor d = 0 -> pages d > 16384 -> 0 <= a < 2 ^ 32 ->
   be_value (tl (read_cmd (P := P) d o)) = a)
  /\ (is_spinor d = 0 -> pages d <= 16384 -> 0 <= a < 2 ^ 24 ->
      be_value (firstn 3 (tl (read_cmd (P := P) d o))) = a)
  /\ (is_spinor d <> 0 -> 0 <= a < 2 ^ 24 ->
      be_value (firstn 3 (tl (read_cmd (P := P) d o))) = a)
  /\ (is_spinor d <> 0 \/ is_power_2 d <> 0 -> a = o).
Proof.
  cbv zeta.
  unfold read_cmd, read_address, dataflash_read_cmd, spinor_read_cmd,
    dataflash_address.
  repeat split.
  - intros Hnor Hp Ha. rewrite Hnor in *. simpl in *.
    destruct (Z.gtb_spec (pages d) 16384); [|lia].
    simpl tl. apply be_value_4. exact Ha.
  - intros Hnor Hp Ha. rewrite Hnor in *. simpl in *.
    destruct (Z.gtb_spec (pages d) 16384); [lia|].
    simpl tl. simpl firstn. apply be_value_3. exact Ha.
  - intros Hnor Ha. apply Z.eqb_neq in Hnor. rewrite Hnor in *.
    simpl tl. simpl firstn. apply be_value_3. exact Ha.
  - intros [Hnor | Hp2].
    + apply Z.eqb_neq in Hnor. now rewrite Hnor.
    + apply Z.eqb_neq in Hp2. rewrite Hp2. now destruct (is_spinor d =? 0).
Qed.

Lemma address_bytes_wrap (o : Z) :
  u8 (Z.shiftr (o + 16777216) 16) = u8 (Z.shiftr o 16)
  /\ u8 (Z.shiftr (o + 16777216) 8) = u8 (Z.shiftr o 8)
  /\ u8 (o + 16777216) = u8 o.
Proof.
  unfold u8. rewrite !Z.shiftr_div_pow2 by lia.
  change (2 ^ 16) with 65536. change (2 ^ 8) with 256.
  repeat split; Z.div_mod_to_equations; lia.
Qed.

(** X4.  The 3-byte form carries the low 24 bits of the address only.
    For a NOR descriptor, and for a power-of-2 descriptor of at most
    16384 pages, the offsets o and o + 2^24 give the same command and the
    same read: the read path never sends address bits 24 and up for
    them. *)
Theorem three_byte_address_wraps (d : dataflash_descriptor) (o len : Z)
    (buf : buffer) (w : world P) :
  is_spinor d <> 0 \/ (is_power_2 d <> 0 /\ pages d <= 16384) ->
  read_cmd (P := P) d (o + 2 ^ 24) = read_cmd (P := P) d o
  /\ read_array d (o + 2 ^ 24) len buf w = read_array d o len buf w.
Proof.
  intros H. change (2 ^ 24) with 16777216.
  destruct (address_bytes_wrap o) as (H2 & H1 & H0).
  assert (Hcmd : is_spinor d <> 0 ->
                 spinor_read_cmd (P := P) (o + 16777216)
                 = spinor_read_cmd (P := P) o).
  { intros _. unfold spinor_read_cmd. now rewrite H2, H1, H0. }
  assert (Hdf : is_power_2 d <> 0 -> pages d <= 16384 ->
                dataflash_read_cmd (P := P) d (o + 16777216)
                = dataflash_read_cmd (P := P) d o).
  { intros Hp2 Hp. unfold dataflash_read_cmd, dataflash_address.
    apply Z.eqb_neq in Hp2. rewrite Hp2.
    destruct (Z.gtb_spec (pages d) 16384); [lia|].
    now rewrite H2, H1, H0. }
  unfold read_cmd, read_array, dataflash_read_array, spinor_read_array.
  destruct (Z.eqb_spec (is_spinor d) 0) as [Hnor | Hnor].
  - destruct H as [H | [Hp2 Hp]]; [contradiction|].
    rewrite (Hdf Hp2 Hp). auto.
  - rewrite (Hcmd Hnor). auto.
Qed.

(** X5.  A descriptor decoded from an AT45 status byte in its paged mode
    (is_power_2 = 0) sends every in-range offset o as a 3-byte command
    whose address bytes, read back, are (o / P) * 2^S + o mod P: the
    composite address is below 2^24 for each of the seven geometries, so
    no address bit is lost on the bus. *)
Theorem at45_paged_read_on_the_bus (d0 : dataflash_descriptor) (w : world P)
    (o : Z) :
  is_spinor d0 = 0 ->
  fst (fst (df_at45_desc_init d0 w)) = 0 ->
  let d := snd (fst (df_at45_desc_init d0 w)) in
  is_power_2 d = 0 ->
  0 <= o < pages d * page_size d ->
  let a := (o / page_size d) * 2 ^ page_offset d + o mod page_size d in
  0 <= a < 2 ^ 24
  /\ read_cmd (P := P) d o
     = [CMD_READ_ARRAY_FAST; u8 (Z.shiftr a 16); u8 (Z.shiftr a 8); u8 a; 0]
  /\ be_value (firstn 3 (tl (read_cmd (P := P) d o))) = a.
Proof.
  intros Hnor H0 d Hp2 Ho a.
  destruct (df_at45_desc_init_geometry d0 w H0) as (Hin & _ & Hsp).
  fold d in Hin, Hsp. rewrite Hnor in Hsp.
  assert (Hgeo : page_offset d < 32
                 /\ 0 < page_size d <= 2 ^ page_offset d
                 /\ pages d * 2 ^ page_offset d <= 2 ^ 24
                 /\ pages d <= 16384 /\ 0 <= page_offset d).
  { simpl in Hin.
    repeat destruct Hin as [Hin | Hin]; try contradiction;
      injection Hin as Hn Hsz Hoff; rewrite <- Hn, <- Hsz, <- Hoff;
      repeat split; try lia; vm_compute; discriminate. }
  destruct Hgeo as (Hs32 & Hps & Hfit & Hpg & Hs0).
  assert (Haddr : read_address (P := P) d o = a).
  { unfold read_address. rewrite Hsp. simpl.
    rewrite dataflash_address_paged; try assumption.
    - rewrite lor_shiftl_add.
      + now rewrite Z.shiftl_mul_pow2.
      + assumption.
      + pose proof (Z.mod_pos_bound o (page_size d) ltac:(lia)). lia.
    - change (2 ^ 32) with 4294967296. change (2 ^ 24) with 16777216 in Hfit.
      lia. }
  assert (Ha : 0 <= a < 2 ^ 24).
  { subst a.
    pose proof (Z.mod_pos_bound o (page_size d) ltac:(lia)) as Hr.
    assert (Hq : 0 <= o / page_size d < pages d).
    { split; [apply Z.div_pos; lia|]. apply Z.div_lt_upper_bound; lia. }
    assert (H2 : 0 < 2 ^ page_offset d) by (apply Z.pow_pos_nonneg; lia).
    split; [nia|]. nia. }
  split; [exact Ha|].
  assert (Hcmd : read_cmd (P := P) d o
     = [CMD_READ_ARRAY_FAST; u8 (Z.shiftr a 16); u8 (Z.shiftr a 8); u8 a; 0]).
  { rewrite <- Haddr.
    unfold read_cmd, read_address, dataflash_read_cmd. rewrite Hsp. simpl.
    destruct (Z.gtb_spec (pages d) 16384); [lia | reflexivity]. }
  split; [exact Hcmd|].
  rewrite Hcmd. simpl tl. simpl firstn. apply be_value_3. exact Ha.
Qed.

(** ** Status reads and the AT45 status decoder *)

Lemma status_read_trace (cmd : Z) (w : world P) :
  let res := df_send_command (Some [cmd]) 1 Local 1 w in
  fst (fst res) = 0
  /\ wire (snd res) = wire w ++ transaction_events [cmd] 1
  /\ ram (snd res) = ram w
  /\ 0 <= hd 0 (snd (fst res)) < 256.
Proof.
  pose proof (df_send_command_transaction [cmd] 1 Local 1 w
                ltac:(discriminate) ltac:(right; discriminate)) as H.
  cbv zeta in *. destruct H as (H0 & Hw & Hl & Hb & Hr).
  rewrite app_nil_r in Hr.
  repeat split; try assumption.
  - destruct (snd (fst (df_send_command (Some [cmd]) 1 Local 1 w)));
      simpl; [lia | now inversion Hb].
  - destruct (snd (fst (df_send_command (Some [cmd]) 1 Local 1 w)));
      simpl; [lia | now inversion Hb].
Qed.

Lemma df_read_status_at25_trace (w : world P) :
  let res := df_read_status_at25 w in
  fst (fst res) = 0
  /\ wire (snd res) = wire w ++ transaction_events [CMD_READ_STATUS_AT25] 1
  /\ ram (snd res) = ram w
  /\ 0 <= snd (fst res) < 256.
Proof.
  pose proof (status_read_trace CMD_READ_STATUS_AT25 w) as H.
  cbv zeta in *. unfold df_read_status_at25, bind, pure.
  destruct (df_send_command _ 1 Local 1 w) as [[r got] w1]; simpl in *.
  destruct H as (-> & Hw & Hr & Hb). simpl. auto.
Qed.

Lemma df_read_status_at45_trace (w : world P) :
  let res := df_read_status_at45 w in
  fst (fst res) = 0
  /\ wire (snd res) = wire w ++ transaction_events [CMD_READ_STATUS_AT45] 1
  /\ ram (snd res) = ram w
  /\ 0 <= snd (fst res) < 256.
Proof.
  pose proof (status_read_trace CMD_READ_STATUS_AT45 w) as H.
  cbv zeta in *. unfold df_read_status_at45, bind, pure.
  destruct (df_send_command _ 1 Local 1 w) as [[r got] w1]; simpl in *.
  destruct H as (-> & Hw & Hr & Hb). simpl. auto.
Qed.

Lemma density_is_a_byte (st : Z) : u8 (Z.land st 0x3c) = Z.land st 0x3c.
Proof.
  unfold u8. change 256 with (2 ^ 8).
  rewrite <- Z.land_ones by lia.
  rewrite <- Z.land_assoc. reflexivity.
Qed.

(** X6.  The AT45 decoder makes one status read (opcode d7, one data
    byte) and stores nothing.  It succeeds exactly when the density bits
    (status & 0x3c) are one of the seven listed codes and returns -1
    otherwise; in both cases is_power_2 is set from the page-size bit
    (bit 0), and family and is_spinor are left alone. *)
Theorem df_at45_desc_init_decides (d0 : dataflash_descriptor) (w : world P) :
  let st := snd (fst (df_read_status_at45 w)) in
  let res := df_at45_desc_init d0 w in
  let d := snd (fst res) in
  (fst (fst res) = 0 <->
   In (Z.land st 0x3c) [0x0C; 0x14; 0x1C; 0x24; 0x2C; 0x34; 0x3C])
  /\ (fst (fst res) = 0 \/ fst (fst res) = -1)
  /\ is_power_2 d = (if Z.land st STATUS_PAGE_SIZE_AT45 =? 0 then 0 else 1)
  /\ family d = family d0 /\ is_spinor d = is_spinor d0
  /\ wire (snd res) = wire w ++ transaction_events [CMD_READ_STATUS_AT45] 1
  /\ ram (snd res) = ram w.
Proof.
  cbv zeta.
  pose proof (df_read_status_at45_trace w) as H. cbv zeta in H.
  unfold df_at45_desc_init, bind, pure.
  destruct (df_read_status_at45 w) as [[r st] w1]; simpl in H.
  destruct H as (-> & Hw & Hr & Hb). cbn [fst snd negb Z.eqb].
  rewrite density_is_a_byte.
  unfold DENSITY_AT45DB011D, DENSITY_AT45DB021D, DENSITY_AT45DB041D,
    DENSITY_AT45DB081D, DENSITY_AT45DB161D, DENSITY_AT45DB321D,
    DENSITY_AT45DB642D.
  destruct (Z.land st STATUS_PAGE_SIZE_AT45 =? 0);
    repeat match goal with
           | |- context [if ?c =? ?k then _ else _] =>
               destruct (Z.eqb_spec c k)
           end; cbn [fst snd]; (split; [split | repeat split; auto]).
  all: try (intros _;
            match goal with e : Z.land _ 60 = _ |- _ => rewrite e end;
            simpl; tauto).
  all: try (intros _; reflexivity).
  all: try (intros H0; discriminate H0).
  all: intros Hin; simpl in Hin; exfalso;
    repeat destruct Hin as [Hin | Hin]; try contradiction; congruence.
Qed.

(** ** The recovery engine on the bus *)

Lemma at25_cmd_write_enbale_trace (w : world P) :
  let res := at25_cmd_write_enbale w in
  fst res = 0
  /\ wire (snd res) = wire w ++ transaction_events [CMD_WRITE_ENABLE_AT25] 0
  /\ ram (snd res) = ram w.
Proof.
  pose proof (df_send_command_ok [CMD_WRITE_ENABLE_AT25] 1 NULL 0 w
                ltac:(discriminate) ltac:(left; reflexivity)) as H.
  cbv zeta in *. unfold at25_cmd_write_enbale, bind, pure.
  destruct (df_send_command _ 1 NULL 0 w) as [[r got] w1].
  cbn [fst snd] in *. destruct H as (-> & Hw & Hr & _).
  rewrite app_nil_r in Hr. cbn [Z.eqb negb fst snd]. auto.
Qed.

Lemma at25_cmd_write_status_register_trace (status : Z) (w : world P) :
  let res := at25_cmd_write_status_register status w in
  fst res = 0
  /\ wire (snd res)
     = wire w ++ transaction_events [CMD_WRITE_STATUS_AT25; status] 0
  /\ ram (snd res) = ram w.
Proof.
  pose proof (df_send_command_ok [CMD_WRITE_STATUS_AT25; status] 2 NULL 0 w
                ltac:(discriminate) ltac:(left; reflexivity)) as H.
  cbv zeta in *. unfold at25_cmd_write_status_register, bind, pure.
  destruct (df_send_command _ 2 NULL 0 w) as [[r got] w1].
  cbn [fst snd] in *. destruct H as (-> & Hw & Hr & _).
  rewrite app_nil_r in Hr. cbn [Z.eqb negb fst snd]. auto.
Qed.

Ltac tidy := cbv beta iota zeta; cbn [fst snd Z.eqb negb].

Ltac run_status25 s w' :=
  tidy;
  match goal with
  | |- context [df_read_status_at25 ?w0] =>
      let H := fresh "H" in
      pose proof (df_read_status_at25_trace w0) as H; cbv zeta in H;
      destruct (df_read_status_at25 w0) as [[? s] w'];
      cbn [fst snd] in H |- *;
      let Hw := fresh "Hw" in let Hr := fresh "Hr" in
      destruct H as (-> & Hw & Hr & _); tidy
  end.

Ltac run_write_enable w' :=
  tidy;
  match goal with
  | |- context [at25_cmd_write_enbale ?w0] =>
      let H := fresh "H" in
      pose proof (at25_cmd_write_enbale_trace w0) as H; cbv zeta in H;
      destruct (at25_cmd_write_enbale w0) as [? w'];
      cbn [fst snd] in H |- *;
      let Hw := fresh "Hw" in let Hr := fresh "Hr" in
      destruct H as (-> & Hw & Hr); tidy
  end.

Ltac run_write_status w' :=
  tidy;
  match goal with
  | |- context [at25_cmd_write_status_register 0 ?w0] =>
      let H := fresh "H" in
      pose proof (at25_cmd_write_status_register_trace 0 w0) as H;
      cbv zeta in H;
      destruct (at25_cmd_write_status_register 0 w0) as [? w'];
      cbn [fst snd] in H |- *;
      let Hw := fresh "Hw" in let Hr := fresh "Hr" in
      destruct H as (-> & Hw & Hr); tidy
  end.

(** X7.  The AT25 unprotect sequence.  When the first status read shows
    the software-protection bits (bits 2-3) clear, nothing else is sent
    and the result is 0.  Otherwise the sequence is: write enable and
    write status 0 if the lock bit (bit 7) is set, then write enable and
    write status 0, then a second status read; the result is 0 when that
    read shows bits 7, 3 and 2 clear and -1 when it does not.  Nothing is
    stored to RAM. *)
Theorem at25_unprotect_sequence (w : world P) :
  let rd := df_read_status_at25 w in
  let s0 := snd (fst rd) in
  let w1 := snd rd in
  let clear_status (w' : world P) :=
    snd (at25_cmd_write_status_register 0 (snd (at25_cmd_write_enbale w'))) in
  let w2 := if Z.land s0 STATUS_SPRL_AT25 =? 0 then w1 else clear_status w1 in
  let rd' := df_read_status_at25 (clear_status w2) in
  let s1 := snd (fst rd') in
  let unlock :=
    transaction_events [CMD_WRITE_ENABLE_AT25] 0
    ++ transaction_events [CMD_WRITE_STATUS_AT25; 0] 0 in
  (Z.land s0 STATUS_SWP_AT25 = 0 ->
   at25_unprotect w = (0, w1)
   /\ wire w1 = wire w ++ transaction_events [CMD_READ_STATUS_AT25] 1)
  /\ (Z.land s0 STATUS_SWP_AT25 <> 0 ->
      at25_unprotect w
      = (if Z.land s1 (Z.lor STATUS_SPRL_AT25 STATUS_SWP_AT25) =? 0
         then 0 else -1, snd rd')
      /\ wire (snd rd')
         = wire w ++ transaction_events [CMD_READ_STATUS_AT25] 1
           ++ (if Z.land s0 STATUS_SPRL_AT25 =? 0 then [] else unlock)
           ++ unlock
           ++ transaction_events [CMD_READ_STATUS_AT25] 1)
  /\ ram (snd (at25_unprotect w)) = ram w.
Proof.
  cbv zeta. split; [|split].
  - intros Hswp.
    pose proof (df_read_status_at25_trace w) as H. cbv zeta in H.
    unfold at25_unprotect, bind, pure.
    destruct (df_read_status_at25 w) as [[r s0] w1]. cbn [fst snd] in *.
    destruct H as (-> & Hw & _). cbn [Z.eqb negb].
    rewrite Hswp. cbn [Z.eqb]. auto.
  - intros Hswp.
    unfold at25_unprotect, or_return, bind, pure.
    run_status25 s0 w1. cbn [Z.eqb negb]. cbn [fst snd] in Hswp.
    apply Z.eqb_neq in Hswp. rewrite Hswp.
    destruct (Z.land s0 STATUS_SPRL_AT25 =? 0); tidy.
    + run_write_enable wa. cbn [Z.eqb].
      run_write_status wb. cbn [Z.eqb].
      run_status25 s1 wc. cbn [Z.eqb negb].
      split.
      * destruct (Z.land s1 _ =? 0); reflexivity.
      * rewrite Hw2, Hw1, Hw0, Hw. rewrite <- !app_assoc. reflexivity.
    + run_write_enable wa. cbn [Z.eqb].
      run_write_status wb. cbn [Z.eqb].
      run_write_enable wc. cbn [Z.eqb].
      run_write_status wd. cbn [Z.eqb].
      run_status25 s1 we. cbn [Z.eqb negb].
      split.
      * destruct (Z.land s1 _ =? 0); reflexivity.
      * rewrite Hw4, Hw3, Hw2, Hw1, Hw0, Hw. rewrite <- !app_assoc.
        reflexivity.
  - apply keeps_ram_unprotect.
Qed.

Lemma status_reads_succ (cmd : Z) (k : nat) :
  status_reads cmd (S k) = transaction_events [cmd] 1 ++ status_reads cmd k.
Proof. reflexivity. Qed.

Lemma status_reads_one (cmd : Z) :
  status_reads cmd 1 = transaction_events [cmd] 1.
Proof. reflexivity. Qed.

(** One pass of a polling loop: the status read, with what it means for
    [nth_status] and for the bus. *)
Ltac poll_read rd rd_trace w st w1 :=
  let H := fresh "H" in
  let E := fresh "E" in
  pose proof (rd_trace w) as H; cbv zeta in H;
  destruct (rd w) as [[? st] w1] eqn:E; cbn [fst snd] in H;
  destruct H as (-> & Hw & _ & _);
  assert (Hn0 : nth_status rd 0 w = st) by (simpl; rewrite E; reflexivity);
  assert (HnS : forall i, nth_status rd (S i) w = nth_status rd i w1)
    by (intros; simpl; rewrite E; reflexivity);
  clear E; tidy.

Lemma at25_poll_loop_trace (remaining : nat) : forall w : world P,
  exists k,
    (1 <= k <= S remaining)%nat
    /\ wire (snd (at25_poll_loop remaining w))
       = wire w ++ status_reads CMD_READ_STATUS_AT25 k
    /\ (forall i, (S i < k)%nat ->
          Z.land (nth_status df_read_status_at25 i w) STATUS_READY_AT25 <> 0)
    /\ ((Z.land (nth_status df_read_status_at25 (Nat.pred k) w)
           STATUS_READY_AT25 = 0
         /\ exists t st, fst (at25_poll_loop remaining w) = PollLeft t st
                         /\ t <> 0)
        \/ (Z.land (nth_status df_read_status_at25 (Nat.pred k) w)
              STATUS_READY_AT25 <> 0
            /\ k = S remaining
            /\ exists st, fst (at25_poll_loop remaining w) = PollLeft 0 st)).
Proof.
  induction remaining as [|n IH]; intros w;
    simpl at25_poll_loop; unfold bind, pure;
    poll_read (@df_read_status_at25 P) df_read_status_at25_trace w st w1;
    destruct (Z.eqb_spec (Z.land st STATUS_READY_AT25) 0) as [Hst | Hst];
    tidy.
  - exists 1%nat. rewrite Hw, status_reads_one. repeat split; auto; try lia.
    left. simpl Nat.pred. rewrite Hn0. split; [assumption|].
    exists 1, st. split; [reflexivity | lia].
  - exists 1%nat. rewrite Hw, status_reads_one. repeat split; auto; try lia.
    right. simpl Nat.pred. rewrite Hn0. repeat split; eauto.
  - exists 1%nat. rewrite Hw, status_reads_one. repeat split; auto; try lia.
    left. simpl Nat.pred. rewrite Hn0. split; [assumption|].
    eexists _, st. split; [reflexivity | lia].
  - destruct (IH w1) as (k & Hk & Hwk & Hbusy & Hend).
    exists (S k). rewrite status_reads_succ, Hwk, Hw, <- app_assoc.
    split; [lia|]. split; [reflexivity|]. split.
    + intros i Hi. destruct i as [|i]; [now rewrite Hn0|].
      rewrite HnS. apply Hbusy. lia.
    + destruct k as [|k]; [lia|]. simpl Nat.pred in *. rewrite HnS.
      destruct Hend as [[Hr He] | (Hb & -> & He)]; [left | right]; auto.
Qed.

Lemma at45_poll_loop_trace (remaining : nat) : forall w : world P,
  exists k,
    (1 <= k <= S remaining)%nat
    /\ wire (snd (at45_poll_loop remaining w))
       = wire w ++ status_reads CMD_READ_STATUS_AT45 k
    /\ (forall i, (S i < k)%nat ->
          Z.land (nth_status df_read_status_at45 i w) STATUS_READY_AT45 = 0)
    /\ ((Z.land (nth_status df_read_status_at45 (Nat.pred k) w)
           STATUS_READY_AT45 <> 0
         /\ exists t st, fst (at45_poll_loop remaining w) = PollLeft t st
                         /\ Z.land st STATUS_READY_AT45 <> 0)
        \/ (Z.land (nth_status df_read_status_at45 (Nat.pred k) w)
              STATUS_READY_AT45 = 0
            /\ k = S remaining
            /\ exists t st, fst (at45_poll_loop remaining w) = PollLeft t st
                            /\ Z.land st STATUS_READY_AT45 = 0)).
Proof.
  induction remaining as [|n IH]; intros w;
    simpl at45_poll_loop; unfold bind, pure;
    poll_read (@df_read_status_at45 P) df_read_status_at45_trace w st w1;
    destruct (Z.eqb_spec (Z.land st STATUS_READY_AT45) 0) as [Hst | Hst];
    tidy.
  - exists 1%nat. rewrite Hw, status_reads_one. repeat split; auto; try lia.
    right. simpl Nat.pred. rewrite Hn0. repeat split; eauto.
  - exists 1%nat. rewrite Hw, status_reads_one. repeat split; auto; try lia.
    left. simpl Nat.pred. rewrite Hn0. split; eauto.
  - destruct (IH w1) as (k & Hk & Hwk & Hbusy & Hend).
    exists (S k). rewrite status_reads_succ, Hwk, Hw, <- app_assoc.
    split; [lia|]. split; [reflexivity|]. split.
    + intros i Hi. destruct i as [|i]; [now rewrite Hn0|].
      rewrite HnS. apply Hbusy. lia.
    + destruct k as [|k]; [lia|]. simpl Nat.pred in *. rewrite HnS.
      destruct Hend as [[Hr He] | (Hb & -> & He)]; [left | right]; auto.
  - exists 1%nat. rewrite Hw, status_reads_one. repeat split; auto; try lia.
    left. simpl Nat.pred. rewrite Hn0. split; eauto.
Qed.

Lemma erase_poll_trace_at25 (w : world P) :
  exists k, (1 <= k <= 1000)%nat
            /\ wire (snd (at25_erase_poll w))
               = wire w ++ status_reads CMD_READ_STATUS_AT25 k.
Proof.
  destruct (at25_poll_loop_trace 999 w) as (k & Hk & Hw & _).
  exists k. split; [exact Hk|].
  unfold at25_erase_poll, bind, pure. change (Nat.pred 1000) with 999%nat.
  destruct (at25_poll_loop 999 w) as [e w']. cbn [fst snd] in *.
  destruct e as [r | t st]; [|destruct (t =? 0)]; exact Hw.
Qed.

Lemma erase_poll_trace_at45 (w : world P) :
  exists k, (1 <= k <= 1000)%nat
            /\ wire (snd (at45_erase_poll w))
               = wire w ++ status_reads CMD_READ_STATUS_AT45 k.
Proof.
  destruct (at45_poll_loop_trace 999 w) as (k & Hk & Hw & _).
  exists k. split; [exact Hk|].
  unfold at45_erase_poll, bind, pure. change (Nat.pred 1000) with 999%nat.
  destruct (at45_poll_loop 999 w) as [e w']. cbn [fst snd] in *.
  destruct e as [r | t st]; [|destruct (Z.land st STATUS_READY_AT45 =? 0)];
    exact Hw.
Qed.

(** X8.  Each erase poll makes k status reads, 1 <= k <= 1000, and
    nothing else on the bus.  It stops at the first read that shows the
    part ready (bit 0 clear for the AT25, bit 7 set for the AT45) and
    then returns 0; when no read does, k = 1000 and the result is -1. *)
Theorem erase_poll_reads (w : world P) :
  (exists k,
      (1 <= k <= 1000)%nat
      /\ wire (snd (at25_erase_poll w))
         = wire w ++ status_reads CMD_READ_STATUS_AT25 k
      /\ (forall i, (S i < k)%nat ->
            Z.land (nth_status df_read_status_at25 i w) STATUS_READY_AT25 <> 0)
      /\ ((Z.land (nth_status df_read_status_at25 (Nat.pred k) w)
             STATUS_READY_AT25 = 0
           /\ fst (at25_erase_poll w) = 0)
          \/ (Z.land (nth_status df_read_status_at25 (Nat.pred k) w)
                STATUS_READY_AT25 <> 0
              /\ k = 1000%nat /\ fst (at25_erase_poll w) = -1)))
  /\
  (exists k,
      (1 <= k <= 1000)%nat
      /\ wire (snd (at45_erase_poll w))
         = wire w ++ status_reads CMD_READ_STATUS_AT45 k
      /\ (forall i, (S i < k)%nat ->
            Z.land (nth_status df_read_status_at45 i w) STATUS_READY_AT45 = 0)
      /\ ((Z.land (nth_status df_read_status_at45 (Nat.pred k) w)
             STATUS_READY_AT45 <> 0
           /\ fst (at45_erase_poll w) = 0)
          \/ (Z.land (nth_status df_read_status_at45 (Nat.pred k) w)
                STATUS_READY_AT45 = 0
              /\ k = 1000%nat /\ fst (at45_erase_poll w) = -1))).
Proof.
  split.
  - destruct (at25_poll_loop_trace 999 w) as (k & Hk & Hw & Hbusy & Hend).
    exists k. unfold at25_erase_poll, bind, pure.
    change (Nat.pred 1000) with 999%nat.
    destruct (at25_poll_loop 999 w) as [e w']. cbn [fst snd] in *.
    split; [exact Hk|].
    destruct Hend as [(Hr & t & st & -> & Ht) | (Hb & -> & st & ->)].
    + apply Z.eqb_neq in Ht. rewrite Ht. cbn [fst snd]. auto.
    + cbn [Z.eqb fst snd]. split; [assumption|]. split; [assumption|].
      right. auto.
  - destruct (at45_poll_loop_trace 999 w) as (k & Hk & Hw & Hbusy & Hend).
    exists k. unfold at45_erase_poll, bind, pure.
    change (Nat.pred 1000) with 999%nat.
    destruct (at45_poll_loop 999 w) as [e w']. cbn [fst snd] in *.
    split; [exact Hk|].
    destruct Hend as [(Hr & t & st & -> & Ht) | (Hb & -> & t & st & -> & Ht)].
    + apply Z.eqb_neq in Ht. rewrite Ht. cbn [fst snd]. auto.
    + rewrite Ht. cbn [Z.eqb fst snd]. split; [assumption|].
      split; [assumption|]. right. auto.
Qed.

(** X9.  What the two erase functions send.  The AT45 erase sends the
    page-erase command 81 00 00 00 and then only status reads (opcode
    d7), at most 1000.  The AT25 erase of a part whose first status read
    shows the protection bits clear sends that status read, write enable
    (06), the 4 KiB block erase 20 00 00 00 and then only status reads
    (opcode 05), at most 1000.  Neither stores anything to RAM. *)
Theorem page0_erase_commands (w : world P) :
  (exists k,
      (1 <= k <= 1000)%nat
      /\ wire (snd (dataflash_page0_erase_at45 w))
         = wire w ++ transaction_events [CMD_ERASE_PAGE_AT45; 0; 0; 0] 0
           ++ status_reads CMD_READ_STATUS_AT45 k)
  /\ (Z.land (snd (fst (df_read_status_at25 w))) STATUS_SWP_AT25 = 0 ->
      exists k,
        (1 <= k <= 1000)%nat
        /\ wire (snd (dataflash_page0_erase_at25 w))
           = wire w ++ transaction_events [CMD_READ_STATUS_AT25] 1
             ++ transaction_events [CMD_WRITE_ENABLE_AT25] 0
             ++ transaction_events [CMD_ERASE_BLOCK4K_AT25; 0; 0; 0] 0
             ++ status_reads CMD_READ_STATUS_AT25 k)
  /\ ram (snd (dataflash_page0_erase_at45 w)) = ram w
  /\ ram (snd (dataflash_page0_erase_at25 w)) = ram w.
Proof.
  split; [|split; [|split]].
  - unfold dataflash_page0_erase_at45, bind, pure.
    pose proof (df_send_command_ok [CMD_ERASE_PAGE_AT45; 0; 0; 0] 4 NULL 0 w
                  ltac:(discriminate) ltac:(left; reflexivity)) as H.
    cbv zeta in H.
    destruct (df_send_command _ 4 NULL 0 w) as [[r got] w1].
    cbn [fst snd] in *. destruct H as (-> & Hw & _). tidy.
    destruct (erase_poll_trace_at45 w1) as (k & Hk & Hwk).
    exists k. split; [exact Hk|].
    rewrite Hwk, Hw, <- app_assoc. reflexivity.
  - intros Hswp.
    unfold dataflash_page0_erase_at25, at25_unprotect, or_return, bind, pure.
    run_status25 s0 w1. cbn [fst snd] in Hswp. rewrite Hswp. tidy.
    run_write_enable w2.
    pose proof (df_send_command_ok [CMD_ERASE_BLOCK4K_AT25; 0; 0; 0] 4 NULL 0
                  w2 ltac:(discriminate) ltac:(left; reflexivity)) as H.
    cbv zeta in H.
    destruct (df_send_command _ 4 NULL 0 w2) as [[r got] w3].
    cbn [fst snd] in *. destruct H as (-> & Hw3 & _). tidy.
    destruct (erase_poll_trace_at25 w3) as (k & Hk & Hwk).
    exists k. split; [exact Hk|].
    rewrite Hwk, Hw3, Hw0, Hw, <- !app_assoc. reflexivity.
  - apply keeps_ram_erase_at45.
  - apply keeps_ram_erase_at25.
Qed.

(** ** The part table and the probe *)

Lemma memcmp_eq_firstn (n : nat) : forall a b : list Z,
  (n <= List.length a)%nat -> (n <= List.length b)%nat ->
  (memcmp_eq a b n = true <-> firstn n a = firstn n b).
Proof.
  induction n as [|n IH]; intros a b Ha Hb.
  - destruct a; simpl; split; reflexivity.
  - destruct a as [|x a]; [simpl in Ha; lia|].
    destruct b as [|y b]; [simpl in Hb; lia|].
    simpl in Ha, Hb. simpl memcmp_eq. simpl firstn.
    rewrite andb_true_iff, Z.eqb_eq, IH by lia.
    split.
    + intros [-> ->]. reflexivity.
    + intros H. injection H as -> H. auto.
Qed.

(** X10.  An entry matches an ID on its first id_len bytes, and only
    when id_len is not 0.  For an entry of at most five ID bytes the
    match is decided by the five bytes read from the part; an entry of
    six ID bytes matches only when the byte that follows the 5-byte ID
    buffer in memory equals its sixth ID byte. *)
Theorem id_matches_prefix (info : flash_info.t) (dev_id : list Z) :
  List.length (flash_info.id info) = 6%nat ->
  List.length dev_id = 5%nat ->
  0 <= flash_info.id_len info <= 6 ->
  let n := Z.to_nat (flash_info.id_len info) in
  (flash_info.id_len info = 0 -> id_matches (P := P) info dev_id = false)
  /\ (flash_info.id_len info <= 5 ->
      (id_matches (P := P) info dev_id = true <->
       flash_info.id_len info <> 0
       /\ firstn n (flash_info.id info) = firstn n dev_id))
  /\ (flash_info.id_len info = 6 ->
      (id_matches (P := P) info dev_id = true <->
       flash_info.id info = dev_id ++ [dev_id_tail P])).
Proof.
  intros Hid Hdev Hlen n.
  assert (Hspec : id_matches (P := P) info dev_id = true <->
                  flash_info.id_len info <> 0
                  /\ firstn n (flash_info.id info)
                     = firstn n (dev_id ++ [dev_id_tail P])).
  { unfold id_matches. rewrite andb_true_iff, negb_true_iff, Z.eqb_neq.
    rewrite memcmp_eq_firstn; [reflexivity | |].
    - rewrite Hid. subst n. lia.
    - rewrite length_app, Hdev. simpl. subst n. lia. }
  split; [|split].
  - intros H0. destruct (id_matches info dev_id) eqn:E; [|reflexivity].
    destruct (proj1 Hspec eq_refl) as [Hne _]. contradiction.
  - intros H5. rewrite Hspec.
    rewrite (firstn_app n dev_id).
    replace (n - List.length dev_id)%nat with 0%nat by (subst n; lia).
    simpl firstn. rewrite app_nil_r. reflexivity.
  - intros H6. rewrite Hspec. subst n. rewrite H6.
    rewrite !firstn_all2.
    + split; [tauto | split; [lia | assumption]].
    + rewrite length_app, Hdev. simpl. lia.
    + rewrite Hid. simpl. lia.
Qed.

Lemma probe_table_found (dev_id : list Z) (d : dataflash_descriptor) :
  forall (tbl : list flash_info.t) (idx : nat),
    fst (probe_table (P := P) tbl idx dev_id d) = 0 ->
    exists i info,
      nth_error tbl i = Some info
      /\ flash_info.name info <> None
      /\ id_matches (P := P) info dev_id = true
      /\ (forall j e, (j < i)%nat -> nth_error tbl j = Some e ->
            flash_info.name e <> None
            /\ id_matches (P := P) e dev_id = false)
      /\ snd (probe_table (P := P) tbl idx dev_id d)
         = mk_desc (family d) (flash_info.n_sectors info)
             (flash_info.page_size info)
             (u32 (flash_info_addr P (idx + i)))
             (is_power_2 d) (is_spinor d).
Proof.
  induction tbl as [|e rest IH]; intros idx; simpl.
  - discriminate.
  - destruct (flash_info.name e) eqn:En; [|discriminate].
    destruct (id_matches e dev_id) eqn:Em.
    + intros _. exists 0%nat, e. rewrite Nat.add_0_r.
      split; [reflexivity|]. split; [congruence|]. split; [exact Em|].
      split; [intros j e' Hj; lia | reflexivity].
    + intros H0.
      destruct (IH (S idx) H0) as (i & info & Hn & Hname & Hm & Hbefore & Hd).
      exists (S i), info. rewrite Nat.add_succ_r. simpl nth_error.
      split; [exact Hn|]. split; [exact Hname|]. split; [exact Hm|].
      split; [|exact Hd].
      intros j e' Hj Hnth. destruct j as [|j]; simpl in Hnth.
      * injection Hnth as <-. split; congruence.
      * apply (Hbefore j e'); [lia | assumption].
Qed.

Lemma probe_table_not_found (dev_id : list Z) (d : dataflash_descriptor) :
  forall (tbl : list flash_info.t) (idx : nat),
    fst (probe_table (P := P) tbl idx dev_id d) <> 0 ->
    probe_table (P := P) tbl idx dev_id d = (1, d)
    /\ exists stop,
         (stop <= List.length tbl)%nat
         /\ (forall j e, (j < stop)%nat -> nth_error tbl j = Some e ->
               flash_info.name e <> None
               /\ id_matches (P := P) e dev_id = false)
         /\ (stop = List.length tbl
             \/ exists e, nth_error tbl stop = Some e
                          /\ flash_info.name e = None).
Proof.
  induction tbl as [|e rest IH]; intros idx; simpl.
  - intros _. split; [reflexivity|]. exists 0%nat.
    split; [lia|]. split; [intros j e Hj; lia | left; reflexivity].
  - destruct (flash_info.name e) eqn:En.
    + destruct (id_matches e dev_id) eqn:Em; [simpl; congruence|].
      intros H0. destruct (IH (S idx) H0) as (Hres & stop & Hs & Hbefore & Hend).
      split; [exact Hres|]. exists (S stop).
      split; [lia|]. split.
      * intros j e' Hj Hn. destruct j as [|j]; simpl in Hn.
        -- injection Hn as <-. split; congruence.
        -- apply (Hbefore j e'); [lia | assumption].
      * destruct Hend as [-> | Hend]; [left; reflexivity | right; exact Hend].
    + intros _. split; [reflexivity|]. exists 0%nat.
      split; [lia|]. split; [intros j e' Hj; lia|].
      right. exists e. auto.
Qed.

(** X11.  The table lookup is first match in table order, up to the
    first entry without a name.  On success the descriptor takes pages
    from n_sectors and page_size from page_size of the first named entry
    that matches, every entry before it being named and not matching; the
    family, is_power_2 and is_spinor fields keep their values.  On
    failure the result is 1, the descriptor is unchanged, and no entry
    before the end of the table or the first nameless entry matches. *)
Theorem probe_table_first_match (tbl : list flash_info.t) (idx : nat)
    (dev_id : list Z) (d : dataflash_descriptor) :
  let res := probe_table (P := P) tbl idx dev_id d in
  (fst res = 0 ->
   exists i info,
     nth_error tbl i = Some info
     /\ flash_info.name info <> None
     /\ id_matches (P := P) info dev_id = true
     /\ (forall j e, (j < i)%nat -> nth_error tbl j = Some e ->
           flash_info.name e <> None /\ id_matches (P := P) e dev_id = false)
     /\ snd res
        = mk_desc (family d) (flash_info.n_sectors info)
            (flash_info.page_size info)
            (u32 (flash_info_addr P (idx + i)))
            (is_power_2 d) (is_spinor d))
  /\ (fst res <> 0 ->
      res = (1, d)
      /\ exists stop,
           (stop <= List.length tbl)%nat
           /\ (forall j e, (j < stop)%nat -> nth_error tbl j = Some e ->
                 flash_info.name e <> None
                 /\ id_matches (P := P) e dev_id = false)
           /\ (stop = List.length tbl
               \/ exists e, nth_error tbl stop = Some e
                            /\ flash_info.name e = None)).
Proof.
  cbv zeta. split.
  - apply probe_table_found.
  - apply probe_table_not_found.
Qed.

Lemma builtin_groups :
  forallb builtin_entry
    (atmel_ids ++ eon_ids ++ gigadevice_ids ++ issi_ids ++ macronix_ids
     ++ micron_ids ++ spansion_ids ++ sst_ids ++ stmicro_ids ++ winbond_ids
     ++ xmc_ids) = true.
Proof. vm_compute. reflexivity. Qed.

Lemma ifdef_incl {A} (c : bool) (l : list A) (x : A) :
  In x (ifdef c l) -> In x l.
Proof. destruct c; simpl; tauto. Qed.

(** Without a custom entry, every named entry of the table of any build
    is one of the built-in entries. *)
Lemma spi_nor_ids_builtin (cfg : config) (info : flash_info.t) :
  CONFIG_SPI_FLASH_CUSTOM cfg = None ->
  In info (spi_nor_ids cfg) ->
  flash_info.name info <> None ->
  builtin_entry info = true.
Proof.
  intros Hc Hin Hname.
  pose proof builtin_groups as Hall.
  rewrite forallb_forall in Hall. apply Hall.
  unfold spi_nor_ids in Hin. rewrite Hc in Hin. simpl custom_ids in Hin.
  repeat (apply in_app_or in Hin; destruct Hin as [Hin | Hin];
          [apply ifdef_incl in Hin; repeat (apply in_or_app; (left; exact Hin) || right); try exact Hin |]).
  simpl in Hin. destruct Hin as [<- | []].
  exfalso. apply Hname. reflexivity.
Qed.

(** X12.  In a build without a custom entry, every successful probe
    from the zeroed descriptor yields page_size = 256 and between 1 and
    4096 pages, with family, is_power_2 and is_spinor all 0.  The read
    path therefore takes the paged DataFlash branch for every built-in
    part: the offset is split by 256, the page index is shifted by
    page_offset, and the command is in the 3-byte form. *)
Theorem builtin_probe_geometry (cfg : config) (w : world P) (o : Z) :
  CONFIG_SPI_FLASH_CUSTOM cfg = None ->
  let res := dataflash_probe_atmel cfg desc_zero w in
  let d := snd (fst res) in
  fst (fst res) = 0 ->
  page_size d = 256 /\ 1 <= pages d <= 4096
  /\ family d = 0 /\ is_power_2 d = 0 /\ is_spinor d = 0
  /\ let a := u32 (shl32 (P := P) (o / 256) (page_offset d) + o mod 256) in
     read_cmd (P := P) d o
     = [CMD_READ_ARRAY_FAST; u8 (Z.shiftr a 16); u8 (Z.shiftr a 8); u8 a; 0].
Proof.
  intros Hc res d H0. subst d res.
  destruct (dataflash_probe_atmel_unfold cfg desc_zero w) as [Hp _].
  cbv zeta in Hp. rewrite Hp in *. cbn [fst snd] in *.
  destruct (probe_table_found _ _ _ _ H0)
    as (i & info & Hn & Hname & _ & _ & Hd).
  rewrite Hd. cbn [page_size pages family is_power_2 is_spinor page_offset].
  apply nth_error_In in Hn.
  pose proof (spi_nor_ids_builtin cfg info Hc Hn Hname) as Hb.
  unfold builtin_entry in Hb.
  repeat rewrite andb_true_iff in Hb.
  destruct Hb as (((((_ & _) & _) & Hps) & Hlo) & Hhi).
  apply Z.eqb_eq in Hps. apply Z.leb_le in Hlo, Hhi.
  split; [exact Hps|]. split; [lia|].
  repeat split.
  unfold read_cmd, dataflash_read_cmd, dataflash_address, division.
  cbn [page_size pages family is_power_2 is_spinor page_offset Z.eqb].
  rewrite Hps.
  destruct (Z.gtb_spec (flash_info.n_sectors info) 16384); [lia|].
  reflexivity.
Qed.

(** ** The INFO macros *)

Lemma land_ff (x : Z) : Z.land x 0xff = u8 x.
Proof.
  unfold u8. change 0xff with (Z.ones 8). rewrite Z.land_ones by lia.
  reflexivity.
Qed.

Lemma be_value_2 (a : Z) :
  0 <= a < 65536 -> be_value [u8 (Z.shiftr a 8); u8 a] = a.
Proof.
  intros Ha. unfold be_value, u8. cbn [fold_left].
  rewrite !Z.shiftr_div_pow2 by lia. change (2 ^ 8) with 256.
  Z.div_mod_to_equations. lia.
Qed.

(** X13.  The INFO macros store the IDs most significant byte first.
    For a JEDEC ID below 2^24 the first three ID bytes of an INFO or
    INFO6 entry read back to it; the two extension bytes of INFO read
    back to an extension ID below 2^16 and the three of INFO6 to one
    below 2^24.  INFO declares 0 ID bytes for the JEDEC ID 0, 3 for an
    extension ID of 0 and 5 otherwise; INFO6 always declares 6.  Both
    give a 6-byte ID array and page_size 256. *)
Theorem INFO_id_round_trip (_name : string)
    (_jedec_id _ext_id _sector_size _n_sectors _flags : Z) :
  0 <= _jedec_id < 2 ^ 24 ->
  let e := INFO _name _jedec_id _ext_id _sector_size _n_sectors _flags in
  let e6 := INFO6 _name _jedec_id _ext_id _sector_size _n_sectors _flags in
  be_value (firstn 3 (flash_info.id e)) = _jedec_id
  /\ be_value (firstn 3 (flash_info.id e6)) = _jedec_id
  /\ (0 <= _ext_id < 2 ^ 16 ->
      be_value (firstn 2 (skipn 3 (flash_info.id e))) = _ext_id)
  /\ (0 <= _ext_id < 2 ^ 24 ->
      be_value (skipn 3 (flash_info.id e6)) = _ext_id)
  /\ flash_info.id_len e
     = (if _jedec_id =? 0 then 0 else if _ext_id =? 0 then 3 else 5)
  /\ flash_info.id_len e6 = 6
  /\ List.length (flash_info.id e) = 6%nat
  /\ List.length (flash_info.id e6) = 6%nat
  /\ flash_info.page_size e = 256 /\ flash_info.page_size e6 = 256.
Proof.
  intros Hj. cbv zeta. unfold INFO, INFO6.
  cbn [flash_info.id flash_info.id_len flash_info.page_size firstn skipn
       List.length].
  rewrite !land_ff.
  change (2 ^ 24) with 16777216 in *. change (2 ^ 16) with 65536.
  split; [apply be_value_3; exact Hj|].
  split; [apply be_value_3; exact Hj|].
  split; [intros He; apply be_value_2; exact He|].
  split; [intros He; apply be_value_3; exact He|].
  split.
  - destruct (_jedec_id =? 0); [reflexivity|].
    destruct (_ext_id =? 0); reflexivity.
  - repeat split.
Qed.

(** ** The load orchestrator *)

Lemma read_array_result (d : dataflash_descriptor) (o len : Z) (buf : buffer)
    (w : world P) :
  fst (fst (read_array d o len buf w)) = 0
  \/ fst (fst (read_array d o len buf w)) = -1.
Proof.
  unfold read_array, dataflash_read_array, spinor_read_array, bind, pure.
  destruct (is_spinor d =? 0);
    destruct (df_send_command _ 5 buf len w) as [[r got] w1];
    cbn [fst snd]; destruct (r =? 0); cbn [fst snd]; auto.
Qed.

(** A read into RAM: its result, its data and what it leaves behind. *)
Lemma read_array_into_ram (d : dataflash_descriptor) (o len a : Z)
    (w : world P) :
  let res := read_array d o len (Ram a) w in
  fst (fst res) = 0
  /\ List.length (snd (fst res)) = Z.to_nat len
  /\ wire (snd res)
     = wire w ++ transaction_events (read_cmd (P := P) d o) (Z.to_nat len)
  /\ ram (snd res) = ram w ++ [(a, snd (fst res))].
Proof.
  pose proof (read_cmd_length (P := P) d o) as Hlen.
  pose proof (df_send_command_ok (read_cmd (P := P) d o) 5 (Ram a) len w
                ltac:(discriminate) ltac:(right; discriminate)) as H.
  cbv zeta in *.
  rewrite firstn_all2 in H by (rewrite Hlen; apply Nat.le_refl).
  unfold read_array, read_cmd, dataflash_read_array, spinor_read_array,
    bind, pure in *.
  destruct (is_spinor d =? 0);
    destruct (df_send_command _ 5 (Ram a) len w) as [[r got] w1];
    cbn [fst snd] in *; destruct H as (-> & Hw & Hr & Hl);
    cbn [Z.eqb fst snd]; auto.
Qed.

Lemma ptr_ram (a : Z) : a <> 0 -> ptr a = Ram a.
Proof. intros H. unfold ptr. apply Z.eqb_neq in H. now rewrite H. Qed.

Ltac run_read page w' :=
  tidy;
  match goal with
  | |- context [read_array ?d ?o ?len (Ram ?a) ?w0] =>
      let H := fresh "H" in
      pose proof (read_array_into_ram d o len a w0) as H; cbv zeta in H;
      destruct (read_array d o len (Ram a) w0) as [[? page] w'];
      cbn [fst snd] in H |- *;
      let Hl := fresh "Hl" in
      let Hw := fresh "Hw" in let Hr := fresh "Hr" in
      destruct H as (-> & Hl & Hw & Hr); tidy
  end.

(** X14.  The kernel payload, in a build without device tree.  With a
    header parser result k other than -1 the call reads page_size bytes
    at the payload offset to the destination, takes k mod 2^32 as the
    length, reads that many bytes from the same offset to the same
    destination, and returns 0: RAM has received the header page and
    then the whole payload, and the bus has seen the same read command
    twice.  A negative k other than -1 is not an error: it becomes the
    length 2^32 + k. *)
Theorem load_payloads_kernel_copy (cfg : config) (d : dataflash_descriptor)
    (image : image_info.t) (w : world P) :
  CONFIG_LOAD_LINUX cfg = true ->
  CONFIG_OF_LIBFDT cfg = false ->
  image_info.dest image <> 0 ->
  let offset := image_info.offset image in
  let dest := image_info.dest image in
  let hdr := read_array d offset (page_size d) (Ram dest) w in
  let k := kernel_size P (snd (fst hdr)) in
  k <> -1 ->
  let cp := read_array d offset (u32 k) (Ram dest) (snd hdr) in
  let res := load_payloads cfg d image w in
  fst res = (0, image_info.set_length (u32 k) image)
  /\ ram (snd res) = ram w ++ [(dest, snd (fst hdr)); (dest, snd (fst cp))]
  /\ List.length (snd (fst hdr)) = Z.to_nat (page_size d)
  /\ List.length (snd (fst cp)) = Z.to_nat (u32 k)
  /\ wire (snd res)
     = wire w
       ++ transaction_events (read_cmd (P := P) d offset) (Z.to_nat (page_size d))
       ++ transaction_events (read_cmd (P := P) d offset) (Z.to_nat (u32 k)).
Proof.
  intros Hlinux Hfdt Hdest. cbv zeta. intros Hk.
  unfold load_payloads, load_dt_blob, update_image_length, err_exit,
    bind, pure, on_dev.
  rewrite Hlinux, Hfdt.
  unfold image_info.set_length.
  cbn [image_info.offset image_info.dest image_info.length].
  rewrite !(ptr_ram _ Hdest).
  revert Hk. run_read page w1. intros Hk.
  apply Z.eqb_neq in Hk. rewrite Hk. tidy.
  run_read data w2.
  cbn [ram wire dev].
  rewrite Hr0, Hr, Hw0, Hw, <- !app_assoc.
  repeat split; assumption.
Qed.

(** X15.  The device-tree payload (CONFIG_OF_LIBFDT), reached with
    ret = 0 after the kernel copy.  The call reads page_size bytes at
    of_offset to of_dest.  When the validator rejects that page, or
    accepts it and the total size reads as -1, the call returns -1 in the
    state that read left: what was stored before stays, of_length is not
    written and nothing else is read.  Otherwise the total size n gives
    of_length = n mod 2^32, that many bytes are read from of_offset to
    of_dest, and the result is 0. *)
Theorem load_dt_blob_outcome (cfg : config) (d : dataflash_descriptor)
    (image : image_info.t) (w : world P) :
  CONFIG_OF_LIBFDT cfg = true ->
  image_info.of_dest image <> 0 ->
  let of_offset := image_info.of_offset image in
  let of_dest := image_info.of_dest image in
  let hdr := read_array d of_offset (page_size d) (Ram of_dest) w in
  let page := snd (fst hdr) in
  let n := of_get_dt_total_size P page in
  let cp := read_array d of_offset (u32 n) (Ram of_dest) (snd hdr) in
  let res := load_dt_blob cfg d 0 image w in
  ram (snd hdr) = ram w ++ [(of_dest, page)]
  /\ (check_dt_blob_valid P page <> 0 \/ n = -1 ->
      res = ((-1, image), snd hdr))
  /\ (check_dt_blob_valid P page = 0 -> n <> -1 ->
      fst res = (0, image_info.set_of_length (u32 n) image)
      /\ ram (snd res) = ram w ++ [(of_dest, page); (of_dest, snd (fst cp))]
      /\ List.length (snd (fst cp)) = Z.to_nat (u32 n)).
Proof.
  intros Hfdt Hdest. cbv zeta.
  unfold load_dt_blob, update_image_length, err_exit, bind, pure, on_dev.
  rewrite Hfdt.
  unfold image_info.set_of_length.
  cbn [image_info.of_offset image_info.of_dest image_info.of_length].
  rewrite !(ptr_ram _ Hdest).
  run_read page w1.
  split; [exact Hr|]. split.
  - intros [Hbad | Hn].
    + apply Z.eqb_neq in Hbad. rewrite Hbad. reflexivity.
    + destruct (check_dt_blob_valid P page =? 0); [|reflexivity].
      tidy. rewrite Hn. reflexivity.
  - intros Hok Hn. rewrite Hok. tidy.
    apply Z.eqb_neq in Hn. rewrite Hn. tidy.
    run_read data w2. cbn [ram wire dev].
    rewrite Hr0, Hr, <- !app_assoc. repeat split; assumption.
Qed.

Lemma load_dt_blob_result (cfg : config) (d : dataflash_descriptor)
    (image : image_info.t) (w : world P) :
  let res := load_dt_blob cfg d 0 image w in
  fst (fst res) = 0 \/ fst (fst res) = -1.
Proof.
  cbv zeta.
  unfold load_dt_blob, err_exit, bind, pure, on_dev.
  destruct (CONFIG_OF_LIBFDT cfg); [|cbn [fst snd]; auto].
  destruct (update_image_length _ _ _ _ _ w) as [len w1].
  destruct (len =? -1); [cbn [fst snd]; auto|].
  match goal with
  | |- context [read_array ?a ?b ?c ?e w1] =>
      pose proof (read_array_result a b c e w1) as Hres;
      destruct (read_array a b c e w1) as [[r got] w2]
  end.
  cbn [fst snd] in *.
  destruct Hres as [-> | ->]; cbn [Z.eqb negb fst snd]; auto.
Qed.

Lemma load_payloads_result (cfg : config) (d : dataflash_descriptor)
    (image : image_info.t) (w : world P) :
  let res := load_payloads cfg d image w in
  fst (fst res) = 0 \/ fst (fst res) = -1.
Proof.
  cbv zeta.
  assert (Hcopy : forall (img : image_info.t) (w0 : world P),
    let res :=
      (let (a, w') := read_array d (image_info.offset img)
                        (image_info.length img) (ptr (image_info.dest img)) w0 in
       (let '(r, _) := a in
        if negb (r =? 0) then err_exit (-1) img
        else load_dt_blob cfg d r img) w') in
    fst (fst res) = 0 \/ fst (fst res) = -1).
  { intros img w0. cbv zeta.
    pose proof (read_array_result d (image_info.offset img)
                  (image_info.length img) (ptr (image_info.dest img)) w0) as Hres.
    destruct (read_array d _ _ _ w0) as [[r got] w1]. cbn [fst snd] in Hres.
    destruct Hres as [-> | ->]; cbn [Z.eqb negb].
    - apply load_dt_blob_result.
    - unfold err_exit, bind, pure, on_dev. cbn [fst snd]. auto. }
  unfold load_payloads, bind, pure.
  destruct (CONFIG_LOAD_LINUX cfg).
  - destruct (update_image_length _ _ _ _ _ w) as [len w1].
    destruct (len =? -1); [cbn [fst snd]; auto|].
    apply Hcopy.
  - apply Hcopy.
Qed.

(** X16.  The load call returns 0, -1 or -2 and nothing else.  It
    returns -2 only in a build with the recovery engine, and then
    nothing has been stored to RAM and the image request is
    unchanged. *)
Theorem spi_flash_loadimage_result (cfg : config) (image : image_info.t)
    (w : world P) :
  let res := spi_flash_loadimage cfg image w in
  let r := fst (fst res) in
  (r = 0 \/ r = -1 \/ r = -2)
  /\ (r = -2 ->
      CONFIG_DATAFLASH_RECOVERY cfg = true
      /\ ram (snd res) = ram w
      /\ snd (fst res) = image).
Proof.
  cbv zeta.
  destruct (spi_flash_loadimage_cases cfg image w)
    as [[Hres Hram] | (d & w1 & Hw1 & Hres)].
  - rewrite Hres. cbn [fst]. split; [auto|]. intros H; discriminate H.
  - rewrite Hres. unfold load_after_probe, err_exit, bind, on_dev, pure.
    pose proof (load_payloads_result cfg d image) as Hpay. cbv zeta in Hpay.
    destruct (CONFIG_DATAFLASH_RECOVERY cfg).
    + pose proof (keeps_ram_recovery d w1) as Hrec.
      destruct (dataflash_recovery d w1) as [r w2]. cbn [fst snd] in Hrec.
      destruct (r =? 0).
      * cbn [fst snd ram]. split; [auto|]. intros _.
        repeat split. congruence.
      * split; [destruct (Hpay w2) as [-> | ->]; auto|].
        intros H. destruct (Hpay w2) as [H0 | H0]; rewrite H0 in H;
          discriminate H.
    + split; [destruct (Hpay w1) as [-> | ->]; auto|].
      intros H. destruct (Hpay w1) as [H0 | H0]; rewrite H0 in H;
        discriminate H.
Qed.

(** X17.  Failures before the payloads.  When at91_spi_init fails the
    call returns -1 at once: nothing is put on the bus, nothing is
    stored, and the controller is neither enabled nor disabled.  When
    the probe fails the call returns -1 after the single ID read
    (opcode 9f, five data bytes), disables the controller and stores
    nothing. *)
Theorem load_fails_early (cfg : config) (image : image_info.t) (w : world P) :
  let init := at91_spi_init P (at91_spi0_hw_init P (dev w)) in
  let w0 := mk_world (at91_spi_enable P (snd init)) (wire w) (ram w) in
  let probe := dataflash_probe_atmel cfg desc_zero w0 in
  let res := spi_flash_loadimage cfg image w in
  (fst init <> 0 ->
   res = ((-1, image), mk_world (snd init) (wire w) (ram w)))
  /\ (fst init = 0 -> fst (fst probe) <> 0 ->
      fst res = (-1, image)
      /\ wire (snd res) = wire w ++ transaction_events [CMD_READ_DEV_ID] 5
      /\ ram (snd res) = ram w
      /\ dev (snd res) = at91_spi_disable P (dev (snd probe))).
Proof.
  cbv zeta.
  unfold spi_flash_loadimage, err_exit, bind, on_dev, pure.
  cbn [dev wire ram fst snd].
  destruct (at91_spi_init P (at91_spi0_hw_init P (dev w))) as [r dv].
  cbn [fst snd]. split.
  - intros Hr. apply Z.eqb_neq in Hr. rewrite Hr. reflexivity.
  - intros -> Hprobe. cbn [Z.eqb negb dev wire ram] in *.
    pose proof (df_send_command_ok [CMD_READ_DEV_ID] 1 Local 5
                  (mk_world (at91_spi_enable P dv) (wire w) (ram w))
                  ltac:(discriminate) ltac:(right; discriminate)) as Hid.
    cbv zeta in Hid. cbn [wire ram] in Hid.
    destruct Hid as (_ & Hw & _ & _).
    destruct (dataflash_probe_atmel_unfold cfg desc_zero
                (mk_world (at91_spi_enable P dv) (wire w) (ram w)))
      as [Hp Hram].
    cbv zeta in Hp, Hram. cbn [ram] in Hram.
    rewrite Hp in *. cbn [fst snd] in *.
    destruct (probe_table _ _ _ _) as [r d]. cbn [fst snd] in *.
    apply Z.eqb_neq in Hprobe. rewrite Hprobe. cbn [negb fst snd wire ram dev].
    auto.
Qed.

Lemma df_at45_desc_init_keeps (d0 : dataflash_descriptor) (w : world P) :
  let res := df_at45_desc_init d0 w in
  (fst (fst res) = 0 \/ fst (fst res) = -1)
  /\ family (snd (fst res)) = family d0
  /\ is_spinor (snd (fst res)) = is_spinor d0.
Proof.
  cbv zeta. unfold df_at45_desc_init, bind, pure.
  pose proof (df_read_status_at45_ok w) as [Hst _].
  destruct (df_read_status_at45 w) as [[r st] w1].
  cbn [fst snd] in Hst. subst r. cbn [Z.eqb negb].
  destruct (Z.land st STATUS_PAGE_SIZE_AT45 =? 0);
    repeat match goal with
           | |- context [if ?c =? ?k then _ else _] =>
               destruct (c =? k)
           end; cbn; auto.
Qed.

Ltac failed_result :=
  repeat split; auto; try lia;
  try match goal with H : -1 = 0 |- _ => discriminate H end;
  try (intros; discriminate).

(** X18.  The family dispatch from the zeroed descriptor returns 0 or
    -1 and records the family code.  Every geometry it resolves has
    between 1 and 16384 pages, so that a read through it is in the
    3-byte form, a page size between 256 and 1056 and a page offset
    between 0 and 11; is_spinor is 1 exactly for the Micron and Winbond
    vendors.  Only the Atmel AT45 family touches the bus: every other
    call leaves the world as it was. *)
Theorem df_desc_init_resolved (vendor family_code : Z) (w : world P) :
  let res := df_desc_init desc_zero vendor family_code w in
  let d := snd (fst res) in
  (fst (fst res) = 0 \/ fst (fst res) = -1)
  /\ family d = family_code
  /\ (fst (fst res) = 0 ->
      1 <= pages d <= 16384
      /\ 256 <= page_size d <= 1056
      /\ 0 <= page_offset d <= 11
      /\ (is_spinor d = 1 <->
          vendor = MANUFACTURER_ID_MICRON \/ vendor = MANUFACTURER_ID_WINBOND)
      /\ (is_spinor d = 0 \/ is_spinor d = 1))
  /\ (vendor <> MANUFACTURER_ID_ATMEL \/ family_code <> DF_FAMILY_AT45 ->
      snd res = w).
Proof.
  cbv zeta. unfold df_desc_init.
  cbn [family set_family].
  unfold MANUFACTURER_ID_ATMEL, MANUFACTURER_ID_MICRON,
    MANUFACTURER_ID_WINBOND, DF_FAMILY_AT26F, DF_FAMILY_AT26DF,
    DF_FAMILY_AT45, DF_FAMILY_M25P, DF_FAMILY_N25Q, WINBOND_W25Q128JV.
  destruct (Z.eqb_spec vendor 31) as [Hv | Hv].
  - destruct (Z.eqb_spec family_code 0) as [Hf0 | Hf0];
      [|destruct (Z.eqb_spec family_code 64) as [Hf1 | Hf1]];
      cbn [orb].
    + unfold pure. cbn. repeat split; auto; try lia; intros [H | H]; lia.
    + unfold pure. cbn. repeat split; auto; try lia; intros [H | H]; lia.
    + destruct (Z.eqb_spec family_code 32) as [Hf2 | Hf2].
      * unfold bind, pure.
        pose proof (df_at45_desc_init_geometry
                      (set_family family_code desc_zero) w) as Hgeo.
        cbv zeta in Hgeo.
        pose proof (df_at45_desc_init_keeps
                      (set_family family_code desc_zero) w) as Hkeep.
        cbv zeta in Hkeep.
        destruct (df_at45_desc_init _ w) as [[r d1] w1].
        cbn [fst snd] in *.
        destruct Hkeep as (Hres & Hfam & Hsp).
        cbn [family is_spinor set_family desc_zero] in Hfam, Hsp.
        destruct Hres as [-> | ->]; cbn [Z.eqb negb fst snd].
        -- destruct (Hgeo eq_refl) as (Hin & _ & _).
           split; [auto|]. split; [exact Hfam|].
           split; [|intros [H | H]; congruence].
           intros _. rewrite Hsp. simpl in Hin.
           repeat destruct Hin as [Hin | Hin]; try contradiction;
             injection Hin as Hn Hsz Hoff; rewrite <- Hn, <- Hsz, <- Hoff;
             repeat split; try lia; auto; intros [H | H]; lia.
        -- split; [auto|]. split; [exact Hfam|].
           split; [intros H; discriminate H | intros [H | H]; congruence].
      * unfold pure. cbn [fst snd family set_family]. failed_result.
  - destruct (Z.eqb_spec vendor 32) as [Hm | Hm].
    + destruct (Z.eqb_spec family_code 32) as [Hf0 | Hf0];
        [|destruct (Z.eqb_spec family_code 160) as [Hf1 | Hf1]];
        unfold pure; cbn; failed_result.
    + destruct (Z.eqb_spec vendor 239) as [Hw | Hw].
      * destruct (Z.eqb_spec family_code 64) as [Hf0 | Hf0];
          unfold pure; cbn; failed_result.
      * unfold pure; cbn; failed_result.
Qed.

(** X19.  The recovery engine is gated by the pin and chooses the erase
    by family.  With the pin not asserted it returns -1 and leaves bus,
    device and RAM as they were; it returns 0 only with the pin
    asserted.  With the pin asserted, a descriptor whose family is
    neither AT26F nor AT26DF gets the AT45 page erase, the other two the
    AT25 erase.  It never stores to RAM. *)
Theorem dataflash_recovery_gate (d : dataflash_descriptor) (w : world P) :
  (pio_get_value P (dev w) <> 0 -> dataflash_recovery d w = (-1, w))
  /\ (fst (dataflash_recovery d w) = 0 -> pio_get_value P (dev w) = 0)
  /\ (pio_get_value P (dev w) = 0 ->
      family d <> DF_FAMILY_AT26F -> family d <> DF_FAMILY_AT26DF ->
      dataflash_recovery d w = dataflash_page0_erase_at45 w)
  /\ (pio_get_value P (dev w) = 0 ->
      family d = DF_FAMILY_AT26F \/ family d = DF_FAMILY_AT26DF ->
      dataflash_recovery d w = dataflash_page0_erase_at25 w)
  /\ ram (snd (dataflash_recovery d w)) = ram w.
Proof.
  split; [|split; [|split; [|split]]].
  - apply dataflash_recovery_released.
  - intros H0.
    destruct (Z.eq_dec (pio_get_value P (dev w)) 0) as [Hp | Hp]; [exact Hp|].
    rewrite dataflash_recovery_released in H0 by exact Hp. discriminate H0.
  - intros Hp H1 H2. rewrite dataflash_recovery_pressed by exact Hp.
    apply Z.eqb_neq in H1, H2. now rewrite H1, H2.
  - intros Hp [H | H]; rewrite dataflash_recovery_pressed by exact Hp;
      rewrite H; reflexivity.
  - apply keeps_ram_recovery.
Qed.

(** X20.  The length resolver reads exactly one page: page_size bytes at
    the offset, stored at the destination.  For a kernel image the
    result is what the header parser returns for that page.  For a
    device tree the result is the total size when the validator accepts
    the page, and -1 when it rejects it or when the build has no
    CONFIG_OF_LIBFDT.  With a NULL destination and a non-zero page size
    the result is -1 and the bus is not touched. *)
Theorem update_image_length_outcome (fdt : bool) (d : dataflash_descriptor)
    (offset a : Z) (flag : image_kind) (w : world P) :
  let rd := read_array d offset (page_size d) (Ram a) w in
  let page := snd (fst rd) in
  let res := update_image_length fdt d offset (Ram a) flag w in
  snd res = snd rd
  /\ wire (snd res)
     = wire w ++ transaction_events (read_cmd (P := P) d offset)
                   (Z.to_nat (page_size d))
  /\ ram (snd res) = ram w ++ [(a, page)]
  /\ List.length page = Z.to_nat (page_size d)
  /\ fst res
     = match flag with
       | KERNEL_IMAGE => kernel_size P page
       | DT_BLOB =>
         if fdt && (check_dt_blob_valid P page =? 0)
         then of_get_dt_total_size P page else -1
       end
  /\ (page_size d <> 0 ->
      update_image_length fdt d offset NULL flag w = (-1, w)).
Proof.
  cbv zeta. unfold update_image_length, bind, pure.
  split; [|split; [|split; [|split; [|split]]]].
  6:{ intros Hps. rewrite read_array_null by exact Hps. reflexivity. }
  all: run_read page w1; auto.
  all: destruct flag; [cbn [fst snd]; auto|];
    destruct fdt; [|cbn [fst snd]; auto]; cbn [andb];
    destruct (check_dt_blob_valid P page =? 0); cbn [fst snd]; auto.
Qed.

End DriverCoverage.

(** * Further concrete runs *)

Ltac by_computation :=
  vm_compute; repeat split; try reflexivity;
  let H := fresh "H" in intro H; discriminate H.

(** X1 on the board: a call without a command. *)
Lemma df_send_command_rejects_on_board :
  let w := sim_world 4 0 0 (w25q128jv 0 1) in
  df_send_command None 1 Local 1 w = ((-1, []), w).
Proof.
  cbv zeta.
  destruct (df_send_command_rejects None 1 Local 1
              (sim_world 4 0 0 (w25q128jv 0 1))) as (Hiff & Hsame & _).
  apply Hsame. apply Hiff. left. reflexivity.
Defined.

(** X2 on the board: one status read. *)
Lemma df_send_command_transaction_on_board :
  let w := sim_world 4 0 0 (w25q128jv 0 1) in
  let res := df_send_command (Some [CMD_READ_STATUS_AT25]) 1 Local 1 w in
  (1 <> 0 /\ buffer_ok Local 1)
  /\ fst (fst res) = 0
  /\ wire (snd res) = [CsActivate; Tx 0x05; Tx 0; CsDeactivate]
  /\ List.length (snd (fst res)) = 1%nat.
Proof.
  cbv zeta.
  assert (H1 : 1 <> 0) by discriminate.
  assert (Hb : buffer_ok Local 1) by (right; discriminate).
  split; [split; assumption|].
  destruct (df_send_command_transaction [CMD_READ_STATUS_AT25] 1 Local 1
              (sim_world 4 0 0 (w25q128jv 0 1)) H1 Hb)
    as (H0 & Hw & Hl & _).
  repeat split; assumption.
Defined.

(** X3 at the AT45DB021D geometry, offset 270. *)
Lemma read_cmd_address_round_trip_at_270 :
  let d := mk_desc DF_FAMILY_AT45 1024 264 9 0 0 in
  (is_spinor d = 0 /\ pages d <= 16384
   /\ 0 <= read_address (P := sim 4 0 0) d 270 < 2 ^ 24)
  /\ be_value (firstn 3 (tl (read_cmd (P := sim 4 0 0) d 270)))
     = read_address (P := sim 4 0 0) d 270.
Proof.
  cbv zeta.
  assert (Hp : pages (mk_desc DF_FAMILY_AT45 1024 264 9 0 0) <= 16384)
    by by_computation.
  assert (Ha : 0 <= read_address (P := sim 4 0 0)
                      (mk_desc DF_FAMILY_AT45 1024 264 9 0 0) 270 < 2 ^ 24)
    by by_computation.
  split; [repeat split; try assumption; apply Ha|].
  exact (proj1 (proj2 (read_cmd_address_round_trip (P := sim 4 0 0)
                         (mk_desc DF_FAMILY_AT45 1024 264 9 0 0) 270))
           eq_refl Hp Ha).
Defined.

(** X4 for a NOR descriptor, offset 5. *)
Lemma three_byte_address_wraps_at_5 :
  let d := mk_desc DF_FAMILY_N25Q 16384 256 0 0 1 in
  is_spinor d <> 0
  /\ read_cmd (P := sim 4 0 0) d (5 + 2 ^ 24) = read_cmd (P := sim 4 0 0) d 5.
Proof.
  cbv zeta.
  assert (Hnor : is_spinor (mk_desc DF_FAMILY_N25Q 16384 256 0 0 1) <> 0)
    by discriminate.
  split; [exact Hnor|].
  exact (proj1 (three_byte_address_wraps (P := sim 4 0 0)
                  (mk_desc DF_FAMILY_N25Q 16384 256 0 0 1) 5 0 NULL
                  (sim_world 4 0 0 (w25q128jv 0 1)) (or_introl Hnor))).
Defined.

(** X5 on the simulated AT45DB021D, offset 270. *)
Lemma at45_paged_read_on_board :
  let w := sim_world 4 0 0 (at45db021d 0 1) in
  let d := snd (fst (df_at45_desc_init desc_zero w)) in
  (is_spinor desc_zero = 0 /\ fst (fst (df_at45_desc_init desc_zero w)) = 0
   /\ is_power_2 d = 0 /\ 0 <= 270 < pages d * page_size d)
  /\ be_value (firstn 3 (tl (read_cmd (P := sim 4 0 0) d 270)))
     = (270 / page_size d) * 2 ^ page_offset d + 270 mod page_size d.
Proof.
  cbv zeta.
  assert (Ho : 0 <= 270 <
               pages (snd (fst (df_at45_desc_init desc_zero
                                  (sim_world 4 0 0 (at45db021d 0 1)))))
               * page_size (snd (fst (df_at45_desc_init desc_zero
                                  (sim_world 4 0 0 (at45db021d 0 1))))))
    by by_computation.
  split; [repeat split; try reflexivity; apply Ho|].
  exact (proj2 (proj2 (at45_paged_read_on_the_bus desc_zero
                         (sim_world 4 0 0 (at45db021d 0 1)) 270
                         eq_refl eq_refl eq_refl Ho))).
Defined.

(** X6 on the simulated AT45DB021D: density 0x14 is listed. *)
Lemma df_at45_desc_init_decides_on_board :
  fst (fst (df_at45_desc_init desc_zero (sim_world 4 0 0 (at45db021d 0 1)))) = 0.
Proof.
  apply (proj1 (df_at45_desc_init_decides desc_zero
                  (sim_world 4 0 0 (at45db021d 0 1)))).
  right. left. reflexivity.
Defined.

(** X7 on the board: a part without protection bits. *)
Lemma at25_unprotect_sequence_on_board :
  let w := sim_world 4 0 0 (w25q128jv 0 0) in
  Z.land (snd (fst (df_read_status_at25 w))) STATUS_SWP_AT25 = 0
  /\ at25_unprotect w = (0, snd (df_read_status_at25 w)).
Proof.
  cbv zeta. split; [reflexivity|].
  exact (proj1 (proj1 (at25_unprotect_sequence
                         (sim_world 4 0 0 (w25q128jv 0 0))) eq_refl)).
Defined.

(** X8 on the board. *)
Lemma erase_poll_reads_on_board :
  let w := sim_world 4 0 0 (w25q128jv 3 0) in
  exists k, (1 <= k <= 1000)%nat
            /\ wire (snd (at25_erase_poll w))
               = wire w ++ status_reads CMD_READ_STATUS_AT25 k.
Proof.
  cbv zeta.
  destruct (proj1 (erase_poll_reads (sim_world 4 0 0 (w25q128jv 3 0))))
    as (k & Hk & Hw & _).
  exists k. split; assumption.
Defined.

(** X9 on the board: the AT25 erase of an unprotected part. *)
Lemma page0_erase_commands_on_board :
  let w := sim_world 4 0 0 (w25q128jv 3 0) in
  Z.land (snd (fst (df_read_status_at25 w))) STATUS_SWP_AT25 = 0
  /\ exists k,
       (1 <= k <= 1000)%nat
       /\ wire (snd (dataflash_page0_erase_at25 w))
          = wire w ++ transaction_events [CMD_READ_STATUS_AT25] 1
            ++ transaction_events [CMD_WRITE_ENABLE_AT25] 0
            ++ transaction_events [CMD_ERASE_BLOCK4K_AT25; 0; 0; 0] 0
            ++ status_reads CMD_READ_STATUS_AT25 k.
Proof.
  cbv zeta. split; [reflexivity|].
  exact (proj1 (proj2 (page0_erase_commands
                         (sim_world 4 0 0 (w25q128jv 3 0)))) eq_refl).
Defined.

(** X10 for the entry of the w25q128jv and its ID. *)
Lemma id_matches_prefix_w25q128jv :
  let info := INFO "w25q128jv" 0xef7018 0 (64 * 1024) 256 0 in
  let dev_id := [0xef; 0x70; 0x18; 0x00; 0x00] in
  (List.length (flash_info.id info) = 6%nat /\ List.length dev_id = 5%nat
   /\ 0 <= flash_info.id_len info <= 6 /\ flash_info.id_len info <= 5)
  /\ id_matches (P := sim 4 0 0) info dev_id = true.
Proof.
  cbv zeta.
  assert (Hlen : 0 <= flash_info.id_len
                        (INFO "w25q128jv" 0xef7018 0 (64 * 1024) 256 0) <= 6)
    by by_computation.
  assert (H5 : flash_info.id_len
                 (INFO "w25q128jv" 0xef7018 0 (64 * 1024) 256 0) <= 5)
    by by_computation.
  split; [repeat split; try reflexivity; try apply Hlen; exact H5|].
  apply (proj1 (proj2 (id_matches_prefix (P := sim 4 0 0)
                         (INFO "w25q128jv" 0xef7018 0 (64 * 1024) 256 0)
                         [0xef; 0x70; 0x18; 0x00; 0x00]
                         eq_refl eq_refl Hlen)) H5).
  split; [discriminate | reflexivity].
Defined.

(** X11 on the Winbond table. *)
Lemma probe_table_first_match_on_board :
  let dev_id := [0xef; 0x70; 0x18; 0x00; 0x00] in
  let res := probe_table (P := sim 4 0 0) (spi_nor_ids cfg_winbond) 0
               dev_id desc_zero in
  fst res = 0
  /\ exists i info,
       nth_error (spi_nor_ids cfg_winbond) i = Some info
       /\ id_matches (P := sim 4 0 0) info dev_id = true
       /\ pages (snd res) = flash_info.n_sectors info.
Proof.
  cbv zeta. split; [reflexivity|].
  destruct (proj1 (probe_table_first_match (P := sim 4 0 0)
                     (spi_nor_ids cfg_winbond) 0
                     [0xef; 0x70; 0x18; 0x00; 0x00] desc_zero) eq_refl)
    as (i & info & Hn & _ & Hm & _ & Hd).
  exists i, info. split; [exact Hn|]. split; [exact Hm|].
  rewrite Hd. reflexivity.
Defined.

(** X12 on the board. *)
Lemma builtin_probe_geometry_on_board :
  let w := sim_world 4 0 0 (w25q128jv 0 1) in
  let res := dataflash_probe_atmel cfg_winbond desc_zero w in
  (CONFIG_SPI_FLASH_CUSTOM cfg_winbond = None /\ fst (fst res) = 0)
  /\ page_size (snd (fst res)) = 256
  /\ 1 <= pages (snd (fst res)) <= 4096.
Proof.
  cbv zeta. split; [split; reflexivity|].
  destruct (builtin_probe_geometry cfg_winbond
              (sim_world 4 0 0 (w25q128jv 0 1)) 0 eq_refl eq_refl)
    as (Hps & Hpg & _).
  split; assumption.
Defined.

(** X13 for the JEDEC ID of the w25q128jv. *)
Lemma INFO_id_round_trip_w25q128jv :
  0 <= 0xef7018 < 2 ^ 24
  /\ be_value (firstn 3 (flash_info.id
                 (INFO "w25q128jv" 0xef7018 0 (64 * 1024) 256 0))) = 0xef7018.
Proof.
  assert (Hj : 0 <= 0xef7018 < 2 ^ 24) by by_computation.
  split; [exact Hj|].
  exact (proj1 (INFO_id_round_trip "w25q128jv" 0xef7018 0 (64 * 1024) 256 0 Hj)).
Defined.

(** X14 on the board: a kernel of 4 bytes. *)
Lemma load_payloads_kernel_copy_on_board :
  let w := sim_world 4 0 0 (w25q128jv 0 1) in
  let d := mk_desc 0 256 256 3146260 0 0 in
  (CONFIG_LOAD_LINUX cfg_winbond = true /\ CONFIG_OF_LIBFDT cfg_winbond = false
   /\ image_info.dest kernel_request <> 0)
  /\ fst (load_payloads cfg_winbond d kernel_request w)
     = (0, image_info.set_length 4 kernel_request).
Proof.
  cbv zeta.
  assert (Hd : image_info.dest kernel_request <> 0) by discriminate.
  split; [repeat split; exact Hd|].
  refine (proj1 (load_payloads_kernel_copy cfg_winbond
                   (mk_desc 0 256 256 3146260 0 0) kernel_request
                   (sim_world 4 0 0 (w25q128jv 0 1)) eq_refl eq_refl Hd _)).
  discriminate.
Defined.

(** X15 on a board whose validator rejects the page. *)
Lemma load_dt_blob_outcome_on_board :
  let w := sim_world 4 1 64 (w25q128jv 0 1) in
  let d := mk_desc 0 256 256 3146260 0 0 in
  let hdr := read_array d (image_info.of_offset kernel_request) (page_size d)
               (Ram (image_info.of_dest kernel_request)) w in
  (CONFIG_OF_LIBFDT cfg_winbond_dt = true
   /\ image_info.of_dest kernel_request <> 0
   /\ check_dt_blob_valid (sim 4 1 64) (snd (fst hdr)) <> 0)
  /\ load_dt_blob cfg_winbond_dt d 0 kernel_request w
     = ((-1, kernel_request), snd hdr).
Proof.
  cbv zeta.
  assert (Hd : image_info.of_dest kernel_request <> 0) by discriminate.
  assert (Hbad : check_dt_blob_valid (sim 4 1 64)
            (snd (fst (read_array (mk_desc 0 256 256 3146260 0 0)
                         (image_info.of_offset kernel_request)
                         (page_size (mk_desc 0 256 256 3146260 0 0))
                         (Ram (image_info.of_dest kernel_request))
                         (sim_world 4 1 64 (w25q128jv 0 1))))) <> 0)
    by discriminate.
  split; [repeat split; assumption|].
  exact (proj1 (proj2 (load_dt_blob_outcome cfg_winbond_dt
                         (mk_desc 0 256 256 3146260 0 0) kernel_request
                         (sim_world 4 1 64 (w25q128jv 0 1)) eq_refl Hd))
           (or_introl Hbad)).
Defined.

(** X16 on the board. *)
Lemma spi_flash_loadimage_result_on_board :
  let res := spi_flash_loadimage cfg_winbond kernel_request
               (sim_world 4 0 0 (w25q128jv 0 1)) in
  fst (fst res) = 0 \/ fst (fst res) = -1 \/ fst (fst res) = -2.
Proof.
  exact (proj1 (spi_flash_loadimage_result cfg_winbond kernel_request
                  (sim_world 4 0 0 (w25q128jv 0 1)))).
Defined.

(** X17 on the board: a part that the Winbond table does not hold. *)
Lemma load_fails_early_on_board :
  let w := sim_world 4 0 0 (at26df321 0 1) in
  let res := spi_flash_loadimage cfg_winbond kernel_request w in
  fst (fst (dataflash_probe_atmel cfg_winbond desc_zero w)) <> 0
  /\ fst res = (-1, kernel_request)
  /\ wire (snd res) = wire w ++ transaction_events [CMD_READ_DEV_ID] 5.
Proof.
  cbv zeta.
  assert (Hp : fst (fst (dataflash_probe_atmel cfg_winbond desc_zero
                           (sim_world 4 0 0 (at26df321 0 1)))) <> 0)
    by (vm_compute; discriminate).
  split; [exact Hp|].
  destruct (proj2 (load_fails_early cfg_winbond kernel_request
                     (sim_world 4 0 0 (at26df321 0 1))) eq_refl Hp)
    as (Hres & Hw & _).
  split; assumption.
Defined.

(** X18 for a Micron N25Q. *)
Lemma df_desc_init_resolved_n25q :
  let w := sim_world 4 0 0 (w25q128jv 0 1) in
  let res := df_desc_init desc_zero MANUFACTURER_ID_MICRON DF_FAMILY_N25Q w in
  fst (fst res) = 0
  /\ 1 <= pages (snd (fst res)) <= 16384
  /\ snd res = w.
Proof.
  cbv zeta. split; [reflexivity|].
  destruct (df_desc_init_resolved MANUFACTURER_ID_MICRON DF_FAMILY_N25Q
              (sim_world 4 0 0 (w25q128jv 0 1)))
    as (_ & _ & Hgeo & Hw).
  split; [exact (proj1 (Hgeo eq_refl))|].
  apply Hw. left. discriminate.
Defined.

(** X19 on the board: the pin is not asserted. *)
Lemma dataflash_recovery_gate_on_board :
  let w := sim_world 4 0 0 (w25q128jv 0 1) in
  pio_get_value (sim 4 0 0) (dev w) <> 0
  /\ dataflash_recovery desc_zero w = (-1, w).
Proof.
  cbv zeta.
  assert (Hp : pio_get_value (sim 4 0 0)
                 (dev (sim_world 4 0 0 (w25q128jv 0 1))) <> 0)
    by discriminate.
  split; [exact Hp|].
  exact (proj1 (dataflash_recovery_gate desc_zero
                  (sim_world 4 0 0 (w25q128jv 0 1))) Hp).
Defined.

(** X20 on the board: a NULL destination. *)
Lemma update_image_length_outcome_on_board :
  let w := sim_world 4 0 0 (w25q128jv 0 1) in
  let d := mk_desc 0 256 256 3146260 0 0 in
  page_size d <> 0
  /\ update_image_length false d 0x8000 NULL KERNEL_IMAGE w = (-1, w).
Proof.
  cbv zeta.
  assert (Hps : page_size (mk_desc 0 256 256 3146260 0 0) <> 0) by discriminate.
  split; [exact Hps|].
  exact (proj2 (proj2 (proj2 (proj2 (proj2
           (update_image_length_outcome false (mk_desc 0 256 256 3146260 0 0)
              0x8000 0 KERNEL_IMAGE (sim_world 4 0 0 (w25q128jv 0 1)))))))
           Hps).
Defined.
